(** * Anime Hub: a shallow embedding of [anime.py]

    The script is a Streamlit page: every user interaction re-runs it from
    the top.  It reads widget values, queries the Jikan API through four
    memoised fetch functions and prints cards.

    Decoded JSON payloads are Python values; they are kept as a tree
    ([json]) with Python's [==], truthiness, [.get], subscript and
    iteration written out, including the exceptions Python raises on a
    value of the wrong shape.  The script is embedded in a state and
    exception monad over a [world] made of the session state, the cache,
    the network, the log of HTTP requests and the screen.

    Modelling boundary.  Streamlit's calls ([st.markdown], [st.metric],
    [st.button], ...) are total printers here: the checks Streamlit itself
    makes on its arguments (the value types [st.metric] accepts, two
    buttons with one key on a page) are not reproduced.  Formatted text
    (f-strings) is kept as the list of its literal and interpolated parts;
    [render] gives the characters where Python's [str] is simple. *)

From Stdlib Require Import ZArith QArith List String Ascii Bool Lia.
From Stdlib Require Import DecimalString.
Import ListNotations.
Set Warnings "-register-all".
Local Open Scope string_scope.
Local Open Scope Z_scope.

(* ================================================================== *)
(** ** Decoded JSON, as Python values *)

(** [response.json()] yields [None], [bool], [int], [float], [str], [list]
    and [dict] values (RFC 8259 payloads: no NaN, no infinities).  A float
    is kept by its exact value, in lowest terms; a dict by its association
    list in canonical (sorted, duplicate-free) key order, so that Python's
    order-blind [==] on dicts is the field-wise comparison. *)
Inductive json : Type :=
| JNull
| JBool (b : bool)
| JInt (z : Z)
| JFloat (q : Q)
| JStr (s : string)
| JArr (items : list json)
| JObj (fields : list (string * json)).

(** Python's numeric tower: [True == 1 == 1.0]. *)
Definition num_value (v : json) : option Q :=
  match v with
  | JBool b => Some (if b then 1%Q else 0%Q)
  | JInt z => Some (inject_Z z)
  | JFloat q => Some q
  | _ => None
  end.

(** Two lists of the same length whose items are related one by one. *)
Fixpoint forall2b {A B} (f : A -> B -> bool) (xs : list A) (ys : list B)
  {struct xs} : bool :=
  match xs, ys with
  | [], [] => true
  | x :: xs', y :: ys' => f x y && forall2b f xs' ys'
  | _, _ => false
  end.

(** [a == b]. *)
Fixpoint py_eq (a b : json) {struct a} : bool :=
  match a, b with
  | JNull, JNull => true
  | JStr s, JStr t => String.eqb s t
  | JArr xs, JArr ys => forall2b py_eq xs ys
  | JObj xs, JObj ys =>
      forall2b (fun x y => String.eqb (fst x) (fst y) && py_eq (snd x) (snd y))
        xs ys
  | _, _ =>
      match num_value a, num_value b with
      | Some p, Some q => Qeq_bool p q
      | _, _ => false
      end
  end.

(** [x in l] and [l.remove(x)] compare with [==], element first. *)
Definition py_in (x : json) (l : list json) : bool :=
  existsb (fun e => py_eq e x) l.

Fixpoint py_remove (x : json) (l : list json) : option (list json) :=
  match l with
  | [] => None
  | e :: l' =>
      if py_eq e x then Some l'
      else option_map (cons e) (py_remove x l')
  end.

(** [bool(v)], as [if v:] and [a and b] test it. *)
Definition truthy (v : json) : bool :=
  match v with
  | JNull => false
  | JBool b => b
  | JInt z => negb (z =? 0)
  | JFloat q => negb (Qeq_bool q 0)
  | JStr s => negb (String.eqb s EmptyString)
  | JArr l => match l with [] => false | _ => true end
  | JObj l => match l with [] => false | _ => true end
  end.

Fixpoint lookup (k : string) (kv : list (string * json)) : option json :=
  match kv with
  | [] => None
  | (k', v) :: kv' => if String.eqb k k' then Some v else lookup k kv'
  end.

(** Exceptions the script can meet. *)
Inductive exn : Type :=
| AttributeError
| TypeError
| KeyError (key : string)
| ConnectionError (cause : string)
| Timeout
| HTTPError (status : Z)
| JSONDecodeError
| ValueError
| NameError (name : string).

Definition res (A : Type) : Type := (A + exn)%type.

(** [d.get(k, default)]: only a dict has [.get]. *)
Definition py_get (d : json) (k : string) (default : json) : res json :=
  match d with
  | JObj kv =>
      inl match lookup k kv with Some v => v | None => default end
  | _ => inr AttributeError
  end.

(** [d[k]] with a string key. *)
Definition py_item (d : json) (k : string) : res json :=
  match d with
  | JObj kv =>
      match lookup k kv with Some v => inl v | None => inr (KeyError k) end
  | _ => inr TypeError
  end.

Fixpoint chars (s : string) : list json :=
  match s with
  | EmptyString => []
  | String c s' => JStr (String c EmptyString) :: chars s'
  end.

(** [v[:n]]: lists and strings slice, a dict rejects the slice as a key,
    anything else is not subscriptable. *)
Definition py_slice_to (n : nat) (v : json) : res json :=
  match v with
  | JArr l => inl (JArr (firstn n l))
  | JStr s => inl (JStr (substring 0 n s))
  | _ => inr TypeError
  end.

(** [for x in v]: a list gives its items, a dict its keys, a string its
    characters; nothing else is iterable. *)
Definition py_iter (v : json) : res (list json) :=
  match v with
  | JArr l => inl l
  | JObj kv => inl (map (fun p => JStr (fst p)) kv)
  | JStr s => inl (chars s)
  | _ => inr TypeError
  end.

(** [len(v)].  Strings are kept as their UTF-8 bytes, so that the length
    and the slices of a string count bytes where Python counts characters;
    the script takes them only of a payload that has a string where a list
    belongs, just before the cards fail on it. *)
Definition py_len (v : json) : res Z :=
  match v with
  | JArr l => inl (Z.of_nat (List.length l))
  | JObj kv => inl (Z.of_nat (List.length kv))
  | JStr s => inl (Z.of_nat (String.length s))
  | _ => inr TypeError
  end.

(** [sep.join(xs)]: every item must be a [str]. *)
Fixpoint py_join (sep : string) (xs : list json) : res string :=
  match xs with
  | [] => inl EmptyString
  | JStr s :: [] => inl s
  | JStr s :: xs' =>
      match py_join sep xs' with
      | inl r => inl (s ++ sep ++ r)
      | inr e => inr e
      end
  | _ :: _ => inr TypeError
  end.

(** [[f(x) for x in l]]. *)
Fixpoint comprehension {A B} (f : A -> res B) (l : list A) : res (list B) :=
  match l with
  | [] => inl []
  | x :: l' =>
      match f x with
      | inl y =>
          match comprehension f l' with
          | inl ys => inl (y :: ys)
          | inr e => inr e
          end
      | inr e => inr e
      end
  end.

(** [range(start, stop, -1)]. *)
Definition py_range_down (start stop : Z) : list Z :=
  map (fun i => start - Z.of_nat i) (seq 0 (Z.to_nat (start - stop))).

Definition upper_ascii (c : ascii) : ascii :=
  let n := nat_of_ascii c in
  if ((97 <=? n) && (n <=? 122))%nat then ascii_of_nat (n - 32) else c.

Definition lower_ascii (c : ascii) : ascii :=
  let n := nat_of_ascii c in
  if ((65 <=? n) && (n <=? 90))%nat then ascii_of_nat (n + 32) else c.

Fixpoint lower_string (s : string) : string :=
  match s with
  | EmptyString => EmptyString
  | String c s' => String (lower_ascii c) (lower_string s')
  end.

(** [s.capitalize()], for the ASCII strings the script applies it to. *)
Definition capitalize (s : string) : string :=
  match s with
  | EmptyString => EmptyString
  | String c s' => String (upper_ascii c) (lower_string s')
  end.

(* ================================================================== *)
(** ** Formatted text *)

(** An f-string: literal pieces and interpolated values, in order. *)
Inductive part : Type :=
| Lit (s : string)
| Str (v : json)
| ExcStr (e : exn).

Definition text : Type := list part.

(** [str(z)] for an [int]. *)
Definition str_int (z : Z) : string := NilZero.string_of_int (Z.to_int z).

(** [str(v)] where it is a matter of a few characters. *)
Definition py_str (v : json) : option string :=
  match v with
  | JNull => Some "None"
  | JBool true => Some "True"
  | JBool false => Some "False"
  | JInt z => Some (str_int z)
  | JStr s => Some s
  | _ => None
  end.

Fixpoint render (t : text) : option string :=
  match t with
  | [] => Some EmptyString
  | Lit s :: t' => option_map (append s) (render t')
  | Str v :: t' =>
      match py_str v, render t' with
      | Some s, Some r => Some (s ++ r)
      | _, _ => None
      end
  | ExcStr _ :: _ => None
  end.

(** Widget keys and cache keys are compared as values of the same type
    (Streamlit tells [1], [True] and [1.0] apart there). *)
Fixpoint json_eq_dec (a b : json) {struct a} : {a = b} + {a <> b}.
Proof.
  decide equality.
  - apply bool_dec.
  - apply Z.eq_dec.
  - decide equality; [apply Pos.eq_dec | apply Z.eq_dec].
  - apply string_dec.
  - apply (list_eq_dec json_eq_dec).
  - apply list_eq_dec. decide equality. apply string_dec.
Defined.

Definition exn_eq_dec (a b : exn) : {a = b} + {a <> b}.
Proof.
  decide equality; solve [apply string_dec | apply Z.eq_dec].
Defined.

Definition part_eq_dec (a b : part) : {a = b} + {a <> b}.
Proof.
  decide equality;
    solve [apply string_dec | apply json_eq_dec | apply exn_eq_dec].
Defined.

Definition text_eq_dec : forall a b : text, {a = b} + {a <> b} :=
  list_eq_dec part_eq_dec.

(* ================================================================== *)
(** ** The world the script runs in *)

(** What [requests.get] meets on the wire. *)
Inductive http_outcome : Type :=
| ConnectionFailed (cause : string)
| TimedOut
| Responded (status : Z) (body : option json).
    (* [body = None]: the body is not JSON *)

(** A memoised call: the function and its arguments. *)
Inductive query : Type :=
| QTop (page limit : Z)
| QSearch (q : string)
| QDetails (anime_id : json)
| QSeasonal (year : json) (season : string).

Definition query_eq_dec (a b : query) : {a = b} + {a <> b}.
Proof.
  decide equality;
    solve [apply string_dec | apply json_eq_dec | apply Z.eq_dec].
Defined.

(** What the script puts on the screen, in order. *)
Inductive element : Type :=
| PageConfig (page_title : string)
| Title (t : text)
| Header (t : text)
| Subheader (t : text)
| Markdown (t : text)
| Write (v : json)
| ErrorBox (t : text)
| WarningBox (t : text)
| SuccessBox (t : text)
| InfoBox (t : text)
| Spinner (t : text)
| Container
| Columns (n : nat)
| Divider
| Image (src : json)
| Metric (label : string) (value : json)
| Expander (label : string)
| Button (label : text) (key : text)
| LinkButton (label : string) (url : json)
| Radio (label : string) (options : list string)
| TextInput (label : string)
| Selectbox (label : string) (options : list json)
| NumberInput (label : string) (min_value max_value value : Z).

(** An entry of [st.cache_data]: the value returned, when it was stored,
    and the elements the call printed, which a hit prints again. *)
Record cached : Type := {
  c_key : query;
  c_stored : Z;
  c_value : json;
  c_replay : list element }.

Inductive nav_page : Type := Home | Search | Seasonal | TopRated | Favorites.

(** The state of the input widgets as the browser holds it. *)
Record widgets : Type := {
  nav : nav_page;
  search_text : string;
  year_choice : nat;
  season_choice : nat;
  page_entry : option Z;
  pressed : option text }.

Record request : Type := { r_url : text; r_timeout : Z }.

Record world : Type := {
  favorites : list json;            (* st.session_state.favorites *)
  cache : list cached;              (* the store behind st.cache_data *)
  clock : Z;                        (* seconds *)
  today_year : Z;                   (* datetime.now().year *)
  network : nat -> text -> http_outcome;
                                    (* the answer to the n-th request *)
  requests : list request;          (* every GET issued so far *)
  ui : widgets;
  screen : list element }.

Definition set_favorites (l : list json) (w : world) : world :=
  {| favorites := l; cache := cache w; clock := clock w;
     today_year := today_year w; network := network w;
     requests := requests w; ui := ui w; screen := screen w |}.

Definition set_cache (c : list cached) (w : world) : world :=
  {| favorites := favorites w; cache := c; clock := clock w;
     today_year := today_year w; network := network w;
     requests := requests w; ui := ui w; screen := screen w |}.

Definition set_requests (r : list request) (w : world) : world :=
  {| favorites := favorites w; cache := cache w; clock := clock w;
     today_year := today_year w; network := network w;
     requests := r; ui := ui w; screen := screen w |}.

Definition set_screen (s : list element) (w : world) : world :=
  {| favorites := favorites w; cache := cache w; clock := clock w;
     today_year := today_year w; network := network w;
     requests := requests w; ui := ui w; screen := s |}.

Definition set_ui (u : widgets) (w : world) : world :=
  {| favorites := favorites w; cache := cache w; clock := clock w;
     today_year := today_year w; network := network w;
     requests := requests w; ui := u; screen := screen w |}.

Definition set_clock (t : Z) (w : world) : world :=
  {| favorites := favorites w; cache := cache w; clock := t;
     today_year := today_year w; network := network w;
     requests := requests w; ui := ui w; screen := screen w |}.

(* ================================================================== *)
(** ** The script monad *)

(** How a piece of the script ends.  [Rerun] is [st.rerun()]: it unwinds
    the whole run and is not an [Exception], so no [except Exception]
    stops it.  [Unfinished] is the loop of the favourites page running
    out of the steps it was given. *)
Inductive outcome (A : Type) : Type :=
| Done (a : A)
| Raised (e : exn)
| Rerun
| Unfinished.
Arguments Done {A} a.
Arguments Raised {A} e.
Arguments Rerun {A}.
Arguments Unfinished {A}.

Definition M (A : Type) : Type := world -> outcome A * world.

Definition ret {A} (a : A) : M A := fun w => (Done a, w).

Definition bind {A B} (m : M A) (k : A -> M B) : M B :=
  fun w =>
    match m w with
    | (Done a, w') => k a w'
    | (Raised e, w') => (Raised e, w')
    | (Rerun, w') => (Rerun, w')
    | (Unfinished, w') => (Unfinished, w')
    end.

Declare Scope script_scope.
Delimit Scope script_scope with script.
Notation "x <- c1 ;; c2" := (bind c1 (fun x => c2))
  (at level 61, c1 at next level, right associativity) : script_scope.
Notation "' pat <- c1 ;; c2" :=
  (bind c1 (fun x => match x with pat => c2 end))
  (at level 61, pat pattern, c1 at next level, right associativity)
  : script_scope.
Notation "c1 ;; c2" := (bind c1 (fun _ => c2))
  (at level 61, right associativity) : script_scope.
Local Open Scope script_scope.

Definition raise {A} (e : exn) : M A := fun w => (Raised e, w).

(** A Python operation that may raise. *)
Definition py {A} (r : res A) : M A :=
  match r with inl a => ret a | inr e => raise e end.

(** [try: body / except Exception as e: handler e]. *)
Definition try_except {A} (body : M A) (handler : exn -> M A) : M A :=
  fun w =>
    match body w with
    | (Raised e, w') => handler e w'
    | r => r
    end.

Definition when (b : bool) (m : M unit) : M unit :=
  if b then m else ret tt.

Fixpoint for_each {A} (l : list A) (body : A -> M unit) : M unit :=
  match l with
  | [] => ret tt
  | x :: l' => body x ;; for_each l' body
  end.

Definition get_world : M world := fun w => (Done w, w).

(** Every [st.*] call that prints. *)
Definition show (e : element) : M unit :=
  fun w => (Done tt, set_screen (screen w ++ [e]) w).

Definition st_error (t : text) : M unit := show (ErrorBox t).
Definition st_warning (t : text) : M unit := show (WarningBox t).
Definition st_success (t : text) : M unit := show (SuccessBox t).
Definition st_info (t : text) : M unit := show (InfoBox t).
Definition st_markdown (t : text) : M unit := show (Markdown t).

(** [st.button(label, key=key)]: true in the run that the press caused. *)
Definition is_pressed (key : text) (w : world) : bool :=
  match pressed (ui w) with
  | Some k => if text_eq_dec k key then true else false
  | None => false
  end.

Definition st_button (label key : text) : M bool :=
  show (Button label key) ;;
  w <- get_world ;;
  ret (is_pressed key w).

(** [st.rerun()]. *)
Definition st_rerun {A} : M A := fun w => (Rerun, w).

(* ================================================================== *)
(** ** HTTP and the cache *)

Record response : Type := { status_code : Z; body_json : option json }.

(** [requests.get(url, timeout=t)]. *)
Definition requests_get (url : text) (timeout : Z) : M response :=
  fun w =>
    let w' := set_requests
                (requests w ++ [{| r_url := url; r_timeout := timeout |}]) w in
    match network w (List.length (requests w)) url with
    | ConnectionFailed c => (Raised (ConnectionError c), w')
    | TimedOut => (Raised Timeout, w')
    | Responded s b => (Done {| status_code := s; body_json := b |}, w')
    end.

(** [response.raise_for_status()]: 4xx and 5xx raise. *)
Definition raise_for_status (r : response) : M unit :=
  if (400 <=? status_code r) && (status_code r <? 600)
  then raise (HTTPError (status_code r))
  else ret tt.

(** [response.json()]. *)
Definition response_json (r : response) : M json :=
  match body_json r with
  | Some j => ret j
  | None => raise JSONDecodeError
  end.

Fixpoint cache_find (k : query) (cs : list cached) : option cached :=
  match cs with
  | [] => None
  | c :: cs' => if query_eq_dec (c_key c) k then Some c else cache_find k cs'
  end.

(** An entry is served while [now < stored + ttl]. *)
Definition fresh (ttl now : Z) (c : cached) : bool := now <? c_stored c + ttl.

(** [@st.cache_data(ttl=ttl)] around a function called with the arguments
    in [k]: a fresh entry is returned, and what the call printed is
    printed again, without running the body; otherwise the body runs and,
    when it returns, its value and what it printed are stored.  An
    exception leaves the cache as it was. *)
Definition cache_hit (ttl now : Z) (k : query) (cs : list cached)
  : option cached :=
  match cache_find k cs with
  | Some c => if fresh ttl now c then Some c else None
  | None => None
  end.

Definition cache_data (ttl : Z) (k : query) (body : M json) : M json :=
  fun w =>
    match cache_hit ttl (clock w) k (cache w) with
    | Some c => (Done (c_value c), set_screen (screen w ++ c_replay c) w)
    | None =>
        match body w with
        | (Done v, w') =>
            (Done v,
             set_cache ({| c_key := k; c_stored := clock w'; c_value := v;
                           c_replay := skipn (List.length (screen w))
                                             (screen w') |} :: cache w') w')
        | r => r
        end
    end.

(* ================================================================== *)
(** ** The four fetch functions *)

(** The functions as written, before the decorator wraps them. *)
Module Uncached.

Definition fetch_top_anime (page limit : Z) : M json :=
  try_except
    (let url := [Lit "https://api.jikan.moe/v4/top/anime?page=";
                 Str (JInt page); Lit "&limit="; Str (JInt limit)] in
     response <- requests_get url 10 ;;
     raise_for_status response ;;
     response_json response)
    (fun e =>
       st_error [Lit "Error fetching anime data: "; ExcStr e] ;;
       ret JNull).

Definition search_anime (query : json) : M json :=
  try_except
    (let url := [Lit "https://api.jikan.moe/v4/anime?q="; Str query;
                 Lit "&limit=20"] in
     response <- requests_get url 10 ;;
     raise_for_status response ;;
     response_json response)
    (fun e =>
       st_error [Lit "Error searching anime: "; ExcStr e] ;;
       ret JNull).

Definition fetch_anime_details (anime_id : json) : M json :=
  try_except
    (let url := [Lit "https://api.jikan.moe/v4/anime/"; Str anime_id;
                 Lit "/full"] in
     response <- requests_get url 10 ;;
     raise_for_status response ;;
     response_json response)
    (fun e =>
       st_error [Lit "Error fetching anime details: "; ExcStr e] ;;
       ret JNull).

Definition fetch_seasonal_anime (year season : json) : M json :=
  try_except
    (let url := [Lit "https://api.jikan.moe/v4/seasons/"; Str year;
                 Lit "/"; Str season] in
     response <- requests_get url 10 ;;
     raise_for_status response ;;
     response_json response)
    (fun e =>
       st_error [Lit "Error fetching seasonal anime: "; ExcStr e] ;;
       ret JNull).

End Uncached.

(** The names the rest of the script calls: [@st.cache_data(ttl=3600)]. *)
Definition fetch_top_anime (page limit : Z) : M json :=
  cache_data 3600 (QTop page limit) (Uncached.fetch_top_anime page limit).

Definition search_anime (query : string) : M json :=
  cache_data 3600 (QSearch query) (Uncached.search_anime (JStr query)).

Definition fetch_anime_details (anime_id : json) : M json :=
  cache_data 3600 (QDetails anime_id) (Uncached.fetch_anime_details anime_id).

Definition fetch_seasonal_anime (year : json) (season : string) : M json :=
  cache_data 3600 (QSeasonal year season)
    (Uncached.fetch_seasonal_anime year (JStr season)).

(* ================================================================== *)
(** ** The card *)

Definition fav_key (anime_id : json) : text := [Lit "fav_"; Str anime_id].

Definition append_favorite (anime_id : json) : M unit :=
  fun w => (Done tt, set_favorites (favorites w ++ [anime_id]) w).

(** The body of [if st.button("Add to Favorites", ...)]. *)
Definition add_to_favorites (anime_id title : json) : M unit :=
  w <- get_world ;;
  if negb (py_in anime_id (favorites w)) then
    append_favorite anime_id ;;
    st_success [Lit "Added "; Str title; Lit " to favorites!"]
  else
    st_info [Lit "Already in favorites!"].

(** [with btn_col1:] *)
Definition favorite_button (anime_id title : json) : M unit :=
  clicked <- st_button [Lit "❤️ Add to Favorites"] (fav_key anime_id) ;;
  when clicked (add_to_favorites anime_id title).

(** [with col1:], the image. *)
Definition card_image (anime : json) : M unit :=
  images <- py (py_get anime "images" (JObj [])) ;;
  jpg <- py (py_get images "jpg" (JObj [])) ;;
  large <- py (py_get jpg "large_image_url" JNull) ;;
  when (truthy large)
    (i <- py (py_item anime "images") ;;
     j <- py (py_item i "jpg") ;;
     u <- py (py_item j "large_image_url") ;;
     show (Image u)).

(** The title and the English title; [title] is used again below. *)
Definition card_title (anime : json) : M json :=
  title <- py (py_get anime "title" (JStr "Unknown Title")) ;;
  st_markdown [Lit "### 🎌 "; Str title] ;;
  title_english <- py (py_get anime "title_english" JNull) ;;
  when (truthy title_english)
    (t <- py (py_item anime "title_english") ;;
     st_markdown [Lit "*"; Str t; Lit "*"]) ;;
  ret title.

(** The metadata row. *)
Definition card_metrics (anime : json) : M unit :=
  show (Columns 4) ;;
  score <- py (py_get anime "score" (JStr "N/A")) ;;
  show (Metric "⭐ Score" score) ;;
  episodes <- py (py_get anime "episodes" (JStr "N/A")) ;;
  show (Metric "📺 Episodes" episodes) ;;
  year <- py (py_get anime "year" (JStr "N/A")) ;;
  show (Metric "📅 Year" year) ;;
  status <- py (py_get anime "status" (JStr "N/A")) ;;
  show (Metric "📊 Status" status).

Definition card_genres (anime : json) : M unit :=
  genres <- py (py_get anime "genres" JNull) ;;
  when (truthy genres)
    (st_markdown [Lit "**Genres:**"] ;;
     gs <- py (py_item anime "genres") ;;
     first5 <- py (py_slice_to 5 gs) ;;
     items <- py (py_iter first5) ;;
     names <- py (comprehension (fun g => py_item g "name") items) ;;
     genre_text <- py (py_join " • " names) ;;
     st_markdown [Lit "🏷️ "; Str (JStr genre_text)]).

Definition card_synopsis (anime : json) : M unit :=
  synopsis <- py (py_get anime "synopsis" JNull) ;;
  when (truthy synopsis)
    (show (Expander "📖 Synopsis") ;;
     s <- py (py_item anime "synopsis") ;;
     show (Write s)).

(** The action buttons. *)
Definition card_actions (anime title : json) : M unit :=
  show (Columns 3) ;;
  anime_id <- py (py_get anime "mal_id" JNull) ;;
  favorite_button anime_id title ;;
  url <- py (py_get anime "url" JNull) ;;
  when (truthy url)
    (u <- py (py_item anime "url") ;;
     show (LinkButton "🔗 View on MyAnimeList" u)) ;;
  trailer <- py (py_get anime "trailer" (JObj [])) ;;
  trailer_url <- py (py_get trailer "url" JNull) ;;
  when (truthy trailer_url)
    (t <- py (py_item anime "trailer") ;;
     u <- py (py_item t "url") ;;
     show (LinkButton "🎬 Watch Trailer" u)).

(** One card: a container, the six blocks in the order of the source,
    a divider. *)
Definition display_anime_card (anime : json) : M unit :=
  show Container ;;
  show (Columns 2) ;;
  card_image anime ;;
  title <- card_title anime ;;
  card_metrics anime ;;
  card_genres anime ;;
  card_synopsis anime ;;
  card_actions anime title ;;
  show Divider.

(* ================================================================== *)
(** ** Input widgets *)

Definition nav_label (p : nav_page) : string :=
  match p with
  | Home => "🏠 Home"
  | Search => "🔍 Search"
  | Seasonal => "📅 Seasonal"
  | TopRated => "⭐ Top Rated"
  | Favorites => "❤️ Favorites"
  end.

Definition nav_options : list nav_page :=
  [Home; Search; Seasonal; TopRated; Favorites].

(** [st.radio]: the option the user chose, the first one at the start. *)
Definition st_radio (label : string) : M nav_page :=
  show (Radio label (map nav_label nav_options)) ;;
  w <- get_world ;;
  ret (nav (ui w)).

(** [st.selectbox(label, options, index=0)]: the chosen option, the first
    one by default, [None] when there is none to choose. *)
Definition selected (options : list json) (choice : nat) : json :=
  match nth_error options choice with
  | Some v => v
  | None => hd JNull options
  end.

Definition st_selectbox (label : string) (options : list json) (choice : nat)
  : M json :=
  show (Selectbox label options) ;;
  ret (selected options choice).

Definition st_text_input (label : string) : M string :=
  show (TextInput label) ;;
  w <- get_world ;;
  ret (search_text (ui w)).

(** [st.number_input(label, min_value, max_value, value, step=1)]: what
    the user entered, [value] until then. *)
Definition st_number_input (label : string) (min_value max_value value : Z)
  : M Z :=
  show (NumberInput label min_value max_value value) ;;
  w <- get_world ;;
  ret match page_entry (ui w) with
      | Some v => v
      | None => value
      end.

(** [season.capitalize()]. *)
Definition py_capitalize (v : json) : res json :=
  match v with
  | JStr s => inl (JStr (capitalize s))
  | _ => inr AttributeError
  end.

(* ================================================================== *)
(** ** The pages *)

Definition custom_css : string :=
"
    <style>
    .main {
        background-color: #0e1117;
    }
    .anime-card {
        background-color: #1e2127;
        padding: 20px;
        border-radius: 10px;
        margin: 10px 0;
        border: 2px solid #ff6b6b;
    }
    .anime-title {
        color: #ff6b6b;
        font-size: 24px;
        font-weight: bold;
        margin-bottom: 10px;
    }
    .genre-tag {
        background-color: #ff6b6b;
        color: white;
        padding: 5px 10px;
        border-radius: 15px;
        margin: 5px;
        display: inline-block;
        font-size: 12px;
    }
    .stButton>button {
        background-color: #ff6b6b;
        color: white;
        border-radius: 5px;
        border: none;
        padding: 10px 20px;
    }
    .stButton>button:hover {
        background-color: #ff5252;
    }
    </style>
".

Definition footer_html : string :=
"
    <div style='text-align: center; color: #666;'>
        <p>Powered by <a href='https://jikan.moe/' target='_blank'>Jikan API</a> (Unofficial MyAnimeList API)</p>
        <p>Made with ❤️ using Streamlit</p>
    </div>
".

Definition season_options : list json :=
  [JStr "winter"; JStr "spring"; JStr "summer"; JStr "fall"].

Definition year_options (current_year : Z) : list json :=
  map JInt (py_range_down current_year 1989).

(** [with st.sidebar:].  The names [year] and [season] are bound on the
    seasonal page only. *)
Definition sidebar : M (nav_page * option (json * json)) :=
  show (Title [Lit "🎌 Anime Hub"]) ;;
  st_markdown [Lit "---"] ;;
  page <- st_radio "Navigation" ;;
  st_markdown [Lit "---"] ;;
  filters <-
    match page with
    | TopRated =>
        show (Subheader [Lit "Filters"]) ;;
        ret None
    | Seasonal =>
        show (Subheader [Lit "Filters"]) ;;
        w <- get_world ;;
        let current_year := today_year w in
        year <- st_selectbox "Year" (year_options current_year)
                  (year_choice (ui w)) ;;
        season <- st_selectbox "Season" season_options
                    (season_choice (ui w)) ;;
        ret (Some (year, season))
    | _ => ret None
    end ;;
  st_markdown [Lit "---"] ;;
  st_markdown [Lit "### About"] ;;
  st_info [Lit "Discover and explore anime from MyAnimeList database. Data provided by Jikan API."] ;;
  ret (page, filters).

(** [data and data.get('data')], as a condition. *)
Definition has_data (data : json) : M bool :=
  if truthy data then
    d <- py (py_get data "data" JNull) ;;
    ret (truthy d)
  else ret false.

(** [for anime in data['data']: display_anime_card(anime)]. *)
Definition display_all (data : json) : M unit :=
  d <- py (py_item data "data") ;;
  items <- py (py_iter d) ;;
  for_each items display_anime_card.

(** [len(data['data'])]. *)
Definition len_data (data : json) : M Z :=
  d <- py (py_item data "data") ;;
  py (py_len d).

Definition page_home : M unit :=
  show (Header [Lit "🔥 Trending Anime"]) ;;
  st_markdown [Lit "Explore the most popular anime titles right now!"] ;;
  data <- fetch_top_anime 1 10 ;;
  ok <- has_data data ;;
  if ok then display_all data
  else st_warning [Lit "Unable to load anime data. Please try again later."].

Definition page_search : M unit :=
  show (Header [Lit "🔍 Search Anime"]) ;;
  search_query <- st_text_input "Enter anime name:" ;;
  if truthy (JStr search_query) then
    show (Spinner [Lit "Searching..."]) ;;
    data <- search_anime search_query ;;
    ok <- has_data data ;;
    if ok then
      n <- len_data data ;;
      st_success [Lit "Found "; Str (JInt n); Lit " results for '";
                  Str (JStr search_query); Lit "'"] ;;
      display_all data
    else st_warning [Lit "No results found. Try a different search term."]
  else st_info [Lit "👆 Enter an anime name to start searching!"].

(** [season] is a [str] once [season.capitalize()] has returned. *)
Definition page_seasonal (year season : json) : M unit :=
  cap <- py (py_capitalize season) ;;
  show (Header [Lit "📅 Seasonal Anime - "; Str cap; Lit " "; Str year]) ;;
  data <- match season with
          | JStr s => fetch_seasonal_anime year s
          | _ => raise TypeError
          end ;;
  ok <- has_data data ;;
  if ok then
    n <- len_data data ;;
    cap' <- py (py_capitalize season) ;;
    st_success [Lit "Found "; Str (JInt n); Lit " anime for "; Str cap';
                Lit " "; Str year] ;;
    display_all data
  else st_warning [Lit "Unable to load seasonal anime data."].

Definition prev_key : text := [Lit "⬅️ Previous Page"].
Definition next_key : text := [Lit "Next Page ➡️"].

(** The pagination controls. *)
Definition pagination_controls (page_num : Z) : M unit :=
  show (Columns 3) ;;
  when (1 <? page_num)
    (prev <- st_button [Lit "⬅️ Previous Page"] prev_key ;;
     when prev st_rerun) ;;
  next <- st_button [Lit "Next Page ➡️"] next_key ;;
  when next st_rerun.

(** The top-rated page, from the fetch on. *)
Definition top_rated_listing (page_num : Z) : M unit :=
  data <- fetch_top_anime page_num 25 ;;
  ok <- has_data data ;;
  if ok then
    st_success [Lit "Showing top anime - Page "; Str (JInt page_num)] ;;
    display_all data ;;
    pagination_controls page_num
  else st_warning [Lit "Unable to load top anime data."].

Definition page_top_rated : M unit :=
  show (Header [Lit "⭐ Top Rated Anime of All Time"]) ;;
  page_num <- st_number_input "Page" 1 100 1 ;;
  top_rated_listing page_num.

Definition remove_key (anime_id : json) : text := [Lit "remove_"; Str anime_id].

(** [st.session_state.favorites.remove(anime_id)]. *)
Definition remove_favorite (anime_id : json) : M unit :=
  fun w =>
    match py_remove anime_id (favorites w) with
    | Some l => (Done tt, set_favorites l w)
    | None => (Raised ValueError, w)
    end.

Definition remove_button (anime_id : json) : M unit :=
  remove <- st_button [Lit "Remove from Favorites"] (remove_key anime_id) ;;
  when remove (remove_favorite anime_id ;; st_rerun).

(** The body of the loop over the favourites. *)
Definition favorites_item (anime_id : json) : M unit :=
  show (Spinner [Lit "Loading anime "; Str anime_id; Lit "..."]) ;;
  details <- fetch_anime_details anime_id ;;
  ok <- has_data details ;;
  when ok
    (anime <- py (py_item details "data") ;;
     display_anime_card anime ;;
     remove_button anime_id).

Definition clear_key : text := [Lit "🗑️ Clear All Favorites"].

Definition clear_button : M unit :=
  clear <- st_button [Lit "🗑️ Clear All Favorites"] clear_key ;;
  when clear ((fun w => (Done tt, set_favorites [] w)) ;; st_rerun).

(** [for anime_id in st.session_state.favorites:].  The list is the one
    object the cards append to, so the loop reads it by position at every
    step, as Python's list iterator does. *)
Fixpoint favorites_loop (fuel : nat) (i : nat) : M unit :=
  match fuel with
  | O => fun w => (Unfinished, w)
  | S fuel' =>
      w <- get_world ;;
      match nth_error (favorites w) i with
      | None => ret tt
      | Some anime_id =>
          favorites_item anime_id ;;
          favorites_loop fuel' (S i)
      end
  end.

Definition page_favorites (fuel : nat) : M unit :=
  show (Header [Lit "❤️ Your Favorite Anime"]) ;;
  w <- get_world ;;
  if truthy (JArr (favorites w)) then
    st_success [Lit "You have ";
                Str (JInt (Z.of_nat (List.length (favorites w))));
                Lit " favorites"] ;;
    clear_button ;;
    favorites_loop fuel 0
  else
    st_info [Lit "You haven't added any favorites yet! Browse anime and click '❤️ Add to Favorites' to save them here."] ;;
    home <- st_button [Lit "🏠 Go to Home"] [Lit "🏠 Go to Home"] ;;
    when home st_rerun.

(** The script, top to bottom.  [st.session_state.favorites] is created
    empty by the first run of a session; [new_session] below starts from
    that state. *)
Definition app (fuel : nat) : M unit :=
  show (PageConfig "Anime Hub") ;;
  st_markdown [Lit custom_css] ;;
  '(page, filters) <- sidebar ;;
  show (Title [Lit "🎌 Anime Hub - Your Anime Discovery Platform"]) ;;
  match page with
  | Home => page_home
  | Search => page_search
  | Seasonal =>
      match filters with
      | Some (year, season) => page_seasonal year season
      | None => raise (NameError "season")
      end
  | TopRated => page_top_rated
  | Favorites => page_favorites fuel
  end ;;
  st_markdown [Lit "---"] ;;
  st_markdown [Lit footer_html].

(* ================================================================== *)
(** ** A session: the browser drives the script *)

Definition default_widgets : widgets :=
  {| nav := Home; search_text := EmptyString; year_choice := 0%nat;
     season_choice := 0%nat; page_entry := None; pressed := None |}.

(** A browser tab opens: nothing saved, nothing on the screen; the cache,
    the clock and the network are whatever the server has. *)
Definition new_session (shared : list cached) (now year : Z)
    (net : nat -> text -> http_outcome) : world :=
  {| favorites := []; cache := shared; clock := now; today_year := year;
     network := net; requests := []; ui := default_widgets; screen := [] |}.

Inductive event : Type :=
| Navigate (p : nav_page)
| TypeQuery (s : string)
| PickYear (i : nat)
| PickSeason (i : nat)
| EnterPage (v : Z)
| Press (key : text)
| Wait (seconds : Z).

(** The bounds of the number input that is on the screen, if any. *)
Fixpoint number_input_bounds (s : list element) : option (Z * Z) :=
  match s with
  | [] => None
  | NumberInput _ lo hi _ :: _ => Some (lo, hi)
  | _ :: s' => number_input_bounds s'
  end.

Definition has_text_input (s : list element) : bool :=
  existsb (fun e => match e with TextInput _ => true | _ => false end) s.

Definition has_selectbox (label : string) (s : list element) : bool :=
  existsb (fun e => match e with
                    | Selectbox l _ => String.eqb l label
                    | _ => false
                    end) s.

(** The browser's side of an event.  The number input commits a value
    only when it lies within the bounds the widget was rendered with. *)
Definition react (ev : event) (w : world) : widgets :=
  let u := ui w in
  match ev with
  | Navigate p =>
      {| nav := p; search_text := search_text u; year_choice := year_choice u;
         season_choice := season_choice u; page_entry := page_entry u;
         pressed := None |}
  | TypeQuery s =>
      {| nav := nav u; search_text := s; year_choice := year_choice u;
         season_choice := season_choice u; page_entry := page_entry u;
         pressed := None |}
  | PickYear i =>
      {| nav := nav u; search_text := search_text u; year_choice := i;
         season_choice := season_choice u; page_entry := page_entry u;
         pressed := None |}
  | PickSeason i =>
      {| nav := nav u; search_text := search_text u;
         year_choice := year_choice u; season_choice := i;
         page_entry := page_entry u; pressed := None |}
  | EnterPage v =>
      {| nav := nav u; search_text := search_text u;
         year_choice := year_choice u; season_choice := season_choice u;
         page_entry :=
           match number_input_bounds (screen w) with
           | Some (lo, hi) =>
               if (lo <=? v) && (v <=? hi) then Some v else page_entry u
           | None => page_entry u
           end;
         pressed := None |}
  | Press key =>
      {| nav := nav u; search_text := search_text u;
         year_choice := year_choice u; season_choice := season_choice u;
         page_entry := page_entry u; pressed := Some key |}
  | Wait _ => u
  end.

(** A button is down for one run only. *)
Definition release (w : world) : world :=
  let u := ui w in
  set_ui {| nav := nav u; search_text := search_text u;
            year_choice := year_choice u; season_choice := season_choice u;
            page_entry := page_entry u; pressed := None |} w.

(** A widget that the run did not render loses its value. *)
Definition settle (w : world) : world :=
  let u := ui w in
  let s := screen w in
  set_ui {| nav := nav u;
            search_text :=
              if has_text_input s then search_text u else EmptyString;
            year_choice :=
              if has_selectbox "Year" s then year_choice u else 0%nat;
            season_choice :=
              if has_selectbox "Season" s then season_choice u else 0%nat;
            page_entry :=
              match number_input_bounds s with
              | Some _ => page_entry u
              | None => None
              end;
            pressed := pressed u |} w.

(** One run of the script on a cleared screen.  The loop of the favourites
    page is given two steps more than there are favourites, which is
    enough ([run_once_finishes]). *)
Definition run_once (w : world) : outcome unit * world :=
  app (S (S (List.length (favorites w)))) (set_screen [] w).

(** A run, and the run that [st.rerun()] asks for; that one asks for no
    other ([run_script_settles]). *)
Definition run_script (w : world) : outcome unit * world :=
  match run_once w with
  | (Rerun, w') => run_once (release w')
  | r => r
  end.

Definition step (ev : event) (w : world) : world :=
  match ev with
  | Wait s => if 0 <=? s then set_clock (clock w + s) w else w
  | _ => release (settle (snd (run_script (set_ui (react ev w) w))))
  end.

(** A cache entry written by one of the four functions replays at most
    the error box the function printed. *)
Definition is_error_box (e : element) : bool :=
  match e with ErrorBox _ => true | _ => false end.

Definition cache_ok (cs : list cached) : Prop :=
  Forall (fun c => forallb is_error_box (c_replay c) = true) cs.

(** The states a session can be in.  The cache is shared by the sessions
    of the server: a new one finds what the earlier ones stored. *)
Inductive reachable : world -> Prop :=
| reach_open shared now year net :
    cache_ok shared ->
    reachable
      (release (settle (snd (run_script (new_session shared now year net)))))
| reach_step ev w : reachable w -> reachable (step ev w).

(* ================================================================== *)
(** ** Sample worlds *)

Definition net_down : nat -> text -> http_outcome :=
  fun _ _ => ConnectionFailed "unreachable".

Definition net_serving (payload : json) : nat -> text -> http_outcome :=
  fun _ _ => Responded 200 (Some payload).

Definition sample_item : json :=
  JObj [("mal_id", JInt 1); ("title", JStr "A")].

Definition sample_payload : json := JObj [("data", JArr [sample_item])].

(* ================================================================== *)
(** ** Vocabulary of the properties *)

(** A card is what one call of [display_anime_card] prints: it starts
    with the one [st.container()] of the script. *)
Definition is_card (e : element) : bool :=
  match e with Container => true | _ => false end.

Definition is_warning (e : element) : bool :=
  match e with WarningBox _ => true | _ => false end.

Definition cards (s : list element) : nat := List.length (filter is_card s).

Definition warnings (s : list element) : nat :=
  List.length (filter is_warning s).

(** The exception a request ends in, when it does: transport failure,
    timeout, or a status [raise_for_status] rejects. *)
Definition failure_of (h : http_outcome) : option exn :=
  match h with
  | ConnectionFailed c => Some (ConnectionError c)
  | TimedOut => Some Timeout
  | Responded s _ =>
      if (400 <=? s) && (s <? 600) then Some (HTTPError s) else None
  end.

(** The four memoised functions, by their call. *)
Definition run_query (k : query) : M json :=
  match k with
  | QTop page limit => fetch_top_anime page limit
  | QSearch q => search_anime q
  | QDetails anime_id => fetch_anime_details anime_id
  | QSeasonal year season => fetch_seasonal_anime year season
  end.

Definition url_of (k : query) : text :=
  match k with
  | QTop page limit =>
      [Lit "https://api.jikan.moe/v4/top/anime?page="; Str (JInt page);
       Lit "&limit="; Str (JInt limit)]
  | QSearch q =>
      [Lit "https://api.jikan.moe/v4/anime?q="; Str (JStr q);
       Lit "&limit=20"]
  | QDetails anime_id =>
      [Lit "https://api.jikan.moe/v4/anime/"; Str anime_id; Lit "/full"]
  | QSeasonal year season =>
      [Lit "https://api.jikan.moe/v4/seasons/"; Str year; Lit "/";
       Str (JStr season)]
  end.

Definition error_prefix (k : query) : string :=
  match k with
  | QTop _ _ => "Error fetching anime data: "
  | QSearch _ => "Error searching anime: "
  | QDetails _ => "Error fetching anime details: "
  | QSeasonal _ _ => "Error fetching seasonal anime: "
  end.

(** The shape shared by the four function bodies. *)
Definition guarded_get (url : text) (prefix : string) : M json :=
  try_except
    (response <- requests_get url 10 ;;
     raise_for_status response ;;
     response_json response)
    (fun e => st_error [Lit prefix; ExcStr e] ;; ret JNull).

(** What the [try] block of a fetch function ends in: the decoded body,
    or the exception of [requests.get], [raise_for_status] or [json]. *)
Definition received (h : http_outcome) : json + exn :=
  match h with
  | ConnectionFailed c => inr (ConnectionError c)
  | TimedOut => inr Timeout
  | Responded s b =>
      if (400 <=? s) && (s <? 600) then inr (HTTPError s)
      else match b with
           | Some j => inl j
           | None => inr JSONDecodeError
           end
  end.

(** The world after one GET of [url]. *)
Definition sent (url : text) (w : world) : world :=
  set_requests (requests w ++ [{| r_url := url; r_timeout := 10 |}]) w.

(** The world after [st.cache_data] stored a result. *)
Definition stored (k : query) (v : json) (replay : list element) (w : world)
  : world :=
  set_cache ({| c_key := k; c_stored := clock w; c_value := v;
                c_replay := replay |} :: cache w) w.

Definition printed (l : list element) (w : world) : world :=
  set_screen (screen w ++ l) w.

(** No two favourites are [==]. *)
Fixpoint distinct (l : list json) : Prop :=
  match l with
  | [] => True
  | x :: l' => py_in x l' = false /\ distinct l'
  end.

(** A property of the world that a piece of the script keeps. *)
Definition preserves (P : world -> Prop) {A} (m : M A) : Prop :=
  forall w, P w -> P (snd (m w)).

(** The one number input of the script has the bounds 1 and 100. *)
Definition well_bounded (e : element) : bool :=
  match e with
  | NumberInput _ lo hi _ => (lo =? 1) && (hi =? 100)
  | _ => true
  end.

(** The record has none of the four metric fields. *)
Definition no_metrics (fields : list (string * json)) : Prop :=
  lookup "score" fields = None /\ lookup "episodes" fields = None /\
  lookup "year" fields = None /\ lookup "status" fields = None.

(** [v] is absent, or a dict. *)
Definition dict_or_absent (v : option json) : bool :=
  match v with
  | None => true
  | Some (JObj _) => true
  | Some _ => false
  end.

(** The image block reads [images] and [images.jpg] as dicts. *)
Definition image_shape (fields : list (string * json)) : bool :=
  match lookup "images" fields with
  | None => true
  | Some (JObj im) => dict_or_absent (lookup "jpg" im)
  | Some _ => false
  end.

Definition named (g : json) : bool :=
  match g with
  | JObj f => match lookup "name" f with Some (JStr _) => true | _ => false end
  | _ => false
  end.

(** The genre block reads a list of dicts with a string [name]. *)
Definition genres_shape (fields : list (string * json)) : bool :=
  match lookup "genres" fields with
  | None => true
  | Some g =>
      negb (truthy g) ||
      match g with
      | JArr l => forallb named (firstn 5 l)
      | _ => false
      end
  end.

Definition trailer_shape (fields : list (string * json)) : bool :=
  dict_or_absent (lookup "trailer" fields).
(** The page number the top-rated page reads. *)
Definition current_page (w : world) : Z :=
  match page_entry (ui w) with
  | Some v => v
  | None => 1
  end.

(** The piece of a render pass that calls the fetch function of [k]:
    a page, or one turn of the loop of the favourites page. *)
Definition render_pass (k : query) : M unit :=
  match k with
  | QTop _ limit => if limit =? 10 then page_home else page_top_rated
  | QSearch _ => page_search
  | QSeasonal year season => page_seasonal year (JStr season)
  | QDetails anime_id => favorites_item anime_id
  end.

(** The widgets are such that the pass calls with the arguments of [k]. *)
Definition calls (k : query) (w : world) : bool :=
  match k with
  | QTop page limit =>
      ((limit =? 10) && (page =? 1)) ||
      ((limit =? 25) && (page =? current_page w))
  | QSearch q => String.eqb (search_text (ui w)) q && truthy (JStr q)
  | QSeasonal _ _ => true
  | QDetails _ => true
  end.

(** The world after a failed fetch of [k], started after the pass printed
    [before]. *)
Definition failed (k : query) (e : exn) (before : list element) (w : world)
  : world :=
  stored k JNull [ErrorBox [Lit (error_prefix k); ExcStr e]]
    (printed [ErrorBox [Lit (error_prefix k); ExcStr e]]
       (sent (url_of k) (printed before w))).


(** A server that cannot be reached, and a session opened against it. *)
Definition offline_world : world := new_session [] 0 2024 net_down.

(** A network whose first answer is [payload] and which is down after. *)
Definition net_then_down (payload : json) : nat -> text -> http_outcome :=
  fun n _ =>
    match n with
    | O => Responded 200 (Some payload)
    | S _ => ConnectionFailed "unreachable"
    end.

(** A session that opened on the home page while the network answered,
    saved the sample item, and then turned to the favourites page. *)
Definition saved_then_offline : world :=
  step (Navigate Favorites)
    (step (Press (fav_key (JInt 1)))
       (release (settle (snd (run_script
          (new_session [] 0 2024 (net_then_down sample_payload))))))).

Definition errors (s : list element) : nat :=
  List.length (filter is_error_box s).


(** A session opened against a server that answers every request with
    the sample payload. *)
Definition online_world : world :=
  new_session [] 0 2024 (net_serving sample_payload).

(** The same world after a first call of [fetch_top_anime(1, 10)], and
    [seconds] later. *)
Definition after_first_call (seconds : Z) : world :=
  step (Wait seconds) (snd (run_query (QTop 1 10) online_world)).


(** The item records of a payload that has the envelope of the API:
    [None] (nothing was fetched) or an object whose [data], when there
    is one, is a list. *)
Definition results_of (data : json) : option (list json) :=
  match data with
  | JNull => Some []
  | JObj fields =>
      match lookup "data" fields with
      | None => Some []
      | Some (JArr items) => Some items
      | Some _ => None
      end
  | _ => None
  end.

(** What the search page prints before it looks at the query. *)
Definition search_head : list element :=
  [Header [Lit "🔍 Search Anime"]; TextInput "Enter anime name:"].

(** A session on the search page with a name typed in. *)
Definition searching_world : world :=
  set_ui {| nav := Search; search_text := "Naruto"; year_choice := 0%nat;
            season_choice := 0%nat; page_entry := None; pressed := None |}
    online_world.


(** The year and the season the selectors of the sidebar return. *)
Definition chosen_year (w : world) : json :=
  selected (year_options (today_year w)) (year_choice (ui w)).

Definition chosen_season (w : world) : string :=
  match selected season_options (season_choice (ui w)) with
  | JStr s => s
  | _ => EmptyString
  end.

(** What the sidebar prints on the seasonal page. *)
Definition seasonal_sidebar (current_year : Z) : list element :=
  [Title [Lit "🎌 Anime Hub"]; Markdown [Lit "---"];
   Radio "Navigation" (map nav_label nav_options); Markdown [Lit "---"];
   Subheader [Lit "Filters"];
   Selectbox "Year" (year_options current_year);
   Selectbox "Season" season_options;
   Markdown [Lit "---"]; Markdown [Lit "### About"];
   InfoBox [Lit "Discover and explore anime from MyAnimeList database. Data provided by Jikan API."]].

Definition seasonal_header (year : json) (season : string) : element :=
  Header [Lit "📅 Seasonal Anime - "; Str (JStr (capitalize season));
          Lit " "; Str year].

(** A session on the seasonal page with the fourth season chosen. *)
Definition seasonal_world : world :=
  set_ui {| nav := Seasonal; search_text := EmptyString;
            year_choice := 0%nat; season_choice := 3%nat;
            page_entry := None; pressed := None |}
    online_world.

(** The buttons, as they appear on the screen. *)
Definition fav_button (anime_id : json) : element :=
  Button [Lit "❤️ Add to Favorites"] (fav_key anime_id).

Definition remove_btn (anime_id : json) : element :=
  Button [Lit "Remove from Favorites"] (remove_key anime_id).

Definition clear_btn : element :=
  Button [Lit "🗑️ Clear All Favorites"] clear_key.


(** What the top-rated page prints before the fetch. *)
Definition top_rated_head : list element :=
  [Header [Lit "⭐ Top Rated Anime of All Time"]; NumberInput "Page" 1 100 1].

Definition prev_button : element := Button [Lit "⬅️ Previous Page"] prev_key.
Definition next_button : element := Button [Lit "Next Page ➡️"] next_key.

(** A session that opened against the answering server, went to the
    top-rated page and entered page 2. *)
Definition opened_world : world :=
  release (settle (snd (run_script online_world))).

Definition top_rated_world : world :=
  step (EnterPage 2) (step (Navigate TopRated) opened_world).

(** What the script prints on the top-rated page before the page itself. *)
Definition plain_sidebar : list element :=
  [Title [Lit "🎌 Anime Hub"]; Markdown [Lit "---"];
   Radio "Navigation" (map nav_label nav_options); Markdown [Lit "---"];
   Subheader [Lit "Filters"];
   Markdown [Lit "---"]; Markdown [Lit "### About"];
   InfoBox [Lit "Discover and explore anime from MyAnimeList database. Data provided by Jikan API."]].


(** What holds of every state of a session: the cache replays error
    boxes only, every number input on the screen has the bounds of the
    script, and the page number lies within them. *)
Definition session_ok (w : world) : Prop :=
  cache_ok (cache w)
  /\ forallb well_bounded (screen w) = true
  /\ 1 <= current_page w <= 100.


Definition is_metric (e : element) : bool :=
  match e with Metric _ _ => true | _ => false end.

Definition is_image (e : element) : bool :=
  match e with Image _ => true | _ => false end.

(** Neither the start of a card nor a metric. *)
Definition plain (e : element) : bool := negb (is_card e) && negb (is_metric e).

Definition title_line (title : json) : element :=
  Markdown [Lit "### 🎌 "; Str title].

Definition field_or (k : string) (default : json)
    (fields : list (string * json)) : json :=
  match lookup k fields with
  | Some v => v
  | None => default
  end.

(** The metadata row of a record. *)
Definition metrics_row (fields : list (string * json)) : list element :=
  [Metric "⭐ Score" (field_or "score" (JStr "N/A") fields);
   Metric "📺 Episodes" (field_or "episodes" (JStr "N/A") fields);
   Metric "📅 Year" (field_or "year" (JStr "N/A") fields);
   Metric "📊 Status" (field_or "status" (JStr "N/A") fields)].

Definition na_metrics : list element :=
  [Metric "⭐ Score" (JStr "N/A"); Metric "📺 Episodes" (JStr "N/A");
   Metric "📅 Year" (JStr "N/A"); Metric "📊 Status" (JStr "N/A")].

(** Records with no metric field and a null where the card reads a dict. *)
Definition null_images_item : json :=
  JObj [("mal_id", JInt 1); ("title", JStr "A"); ("images", JNull)].

Definition untitled_null_images_item : json :=
  JObj [("mal_id", JInt 1); ("images", JNull)].

Definition untitled_item : json := JObj [("mal_id", JInt 7)].


(** The notices of the favourite button. *)
Definition already_notice : element := InfoBox [Lit "Already in favorites!"].

Definition added_notice (title : json) : element :=
  SuccessBox [Lit "Added "; Str title; Lit " to favorites!"].

(** A session in which the sample item has been saved. *)
Definition saved_world : world :=
  step (Press (fav_key (JInt 1))) opened_world.


(** A piece of the script that never runs out of steps. *)
Definition finishes {A} (m : M A) : Prop :=
  forall w, fst (m w) <> Unfinished.

(** One when the button that is down is the "add" button of an
    identifier that is not saved yet: the one append a run can make. *)
Definition pending (w : world) : nat :=
  match pressed (ui w) with
  | Some [Lit s; Str anime_id] =>
      if String.eqb s "fav_" && negb (py_in anime_id (favorites w))
      then 1%nat else 0%nat
  | _ => 0%nat
  end.

(** The favourites cannot grow beyond [n] in this run. *)
Definition bounded (n : nat) (w : world) : Prop :=
  (List.length (favorites w) + pending w <= n)%nat.


(** No button is down. *)
Definition idle (w : world) : Prop := pressed (ui w) = None.

(** A piece of the script that, while no button is down, asks for no
    rerun and leaves no button down. *)
Definition calm {A} (m : M A) : Prop :=
  forall w, idle w -> fst (m w) <> Rerun /\ idle (snd (m w)).


(** What the home page prints before the fetch. *)
Definition home_head : list element :=
  [Header [Lit "🔥 Trending Anime"];
   Markdown [Lit "Explore the most popular anime titles right now!"]].

(** A network that fails the first request and answers [payload] after. *)
Definition net_down_then_up (payload : json) : nat -> text -> http_outcome :=
  fun n _ =>
    match n with
    | O => ConnectionFailed "unreachable"
    | S _ => Responded 200 (Some payload)
    end.

(** A session opened while the server could not be reached, a minute
    later, when it can. *)
Definition recovered_world : world :=
  step (Wait 60)
    (release (settle (snd (run_script
       (new_session [] 0 2024 (net_down_then_up sample_payload)))))).

(** The error box of a failed fetch. *)
Definition error_box (k : query) (e : exn) : element :=
  ErrorBox [Lit (error_prefix k); ExcStr e].


(** The name of a genre record. *)
Definition name_of (g : json) : string :=
  match g with
  | JObj f =>
      match lookup "name" f with
      | Some (JStr s) => s
      | _ => EmptyString
      end
  | _ => EmptyString
  end.

(** The field is absent, or holds a value that [if] takes for false. *)
Definition falsy_or_absent (k : string) (fields : list (string * json))
  : bool :=
  match lookup k fields with
  | Some v => negb (truthy v)
  | None => true
  end.

Definition genre (name : string) : json := JObj [("name", JStr name)].

(** A record with six genres, the sixth of which is not even a record. *)
Definition six_genres_item : list (string * json) :=
  [("mal_id", JInt 5);
   ("genres", JArr [genre "Action"; genre "Adventure"; genre "Comedy";
                    genre "Drama"; genre "Fantasy"; JInt 0])].

(** A record without [mal_id], and a session in which its "add" button
    was pressed. *)
Definition anonymous_item : list (string * json) := [("title", JStr "B")].

Definition pressing (key : text) (w : world) : world :=
  set_ui (react (Press key) w) w.

(** What the sidebar prints between the navigation and the "About" part. *)
Definition filters_block (page : nav_page) (current_year : Z) : list element :=
  match page with
  | TopRated => [Subheader [Lit "Filters"]]
  | Seasonal =>
      [Subheader [Lit "Filters"];
       Selectbox "Year" (year_options current_year);
       Selectbox "Season" season_options]
  | _ => []
  end.

Definition sidebar_screen (page : nav_page) (current_year : Z) : list element :=
  [Title [Lit "🎌 Anime Hub"]; Markdown [Lit "---"];
   Radio "Navigation" (map nav_label nav_options); Markdown [Lit "---"]]
  ++ filters_block page current_year
  ++ [Markdown [Lit "---"]; Markdown [Lit "### About"];
      InfoBox [Lit "Discover and explore anime from MyAnimeList database. Data provided by Jikan API."]].

(** The names the sidebar binds for the page. *)
Definition sidebar_filters (w : world) : option (json * json) :=
  match nav (ui w) with
  | Seasonal => Some (chosen_year w, JStr (chosen_season w))
  | _ => None
  end.

Definition go_home_key : text := [Lit "🏠 Go to Home"].

Definition go_home_button : element :=
  Button [Lit "🏠 Go to Home"] go_home_key.

(** What a run prints down to the page itself. *)
Definition page_top (page : nav_page) (current_year : Z) : list element :=
  [PageConfig "Anime Hub"; Markdown [Lit custom_css]]
  ++ sidebar_screen page current_year
  ++ [Title [Lit "🎌 Anime Hub - Your Anime Discovery Platform"]].

Definition footer : list element :=
  [Markdown [Lit "---"]; Markdown [Lit footer_html]].

(** The favourites page with nothing saved, down to its button. *)
Definition empty_favorites_page : list element :=
  page_top Favorites 0
  ++ [Header [Lit "❤️ Your Favorite Anime"];
      InfoBox [Lit "You haven't added any favorites yet! Browse anime and click '❤️ Add to Favorites' to save them here."];
      go_home_button].

(** Sessions on the favourites page: with the sample item saved, and
    with nothing saved. *)
Definition favorites_world : world := step (Navigate Favorites) saved_world.

Definition empty_favorites_world : world :=
  step (Navigate Favorites) opened_world.

(** The exceptions that come from reading a payload of an unexpected
    shape. *)
Definition payload_error (e : exn) : bool :=
  match e with
  | AttributeError | TypeError | KeyError _ => true
  | _ => false
  end.

(** A piece of the script that lets no other exception out. *)
Definition tame {A} (m : M A) : Prop :=
  forall w e, fst (m w) = Raised e -> payload_error e = true.

Definition res_tame {A} (r : res A) : Prop :=
  forall e, r = inr e -> payload_error e = true.

(** A server whose one item has [null] for its images. *)
Definition null_images_world : world :=
  new_session [] 0 2024
    (net_serving (JObj [("data", JArr [null_images_item])])).

(** An item with every optional field. *)
Definition full_item : list (string * json) :=
  [("mal_id", JInt 5); ("title", JStr "T"); ("title_english", JStr "E");
   ("images", JObj [("jpg", JObj [("large_image_url", JStr "http://i")])]);
   ("genres", JArr [genre "Action"]); ("synopsis", JStr "S");
   ("url", JStr "http://u"); ("trailer", JObj [("url", JStr "http://t")])].

(** The fields of an item have the shapes the card reads. *)
Definition card_shape (fields : list (string * json)) : bool :=
  image_shape fields && genres_shape fields && trailer_shape fields.

(** What the favourites page prints before its loop. *)
Definition favorites_head (n : nat) : list element :=
  [Header [Lit "❤️ Your Favorite Anime"];
   SuccessBox [Lit "You have "; Str (JInt (Z.of_nat n)); Lit " favorites"];
   clear_btn].

Definition loading (anime_id : json) : element :=
  Spinner [Lit "Loading anime "; Str anime_id; Lit "..."].

(** [details['data']] when [details and details.get('data')] holds of a
    dict. *)
Definition details_of (details : json) : option json :=
  match details with
  | JObj kv =>
      match lookup "data" kv with
      | Some anime => if truthy anime then Some anime else None
      | None => None
      end
  | _ => None
  end.

(** A server that answers with the details of the sample item, and a
    session that has saved it. *)
Definition details_world : world :=
  set_favorites [JInt 1]
    (new_session [] 0 2024 (net_serving (JObj [("data", sample_item)]))).

(** A server that answers with a JSON array. *)
Definition array_world : world :=
  new_session [] 0 2024 (net_serving (JArr [JInt 1])).

(** The identifier the loop of the favourites page is at is in the
    list. *)
Definition held (anime_id : json) (w : world) : Prop :=
  py_in anime_id (favorites w) = true.

(* ================================================================== *)
(** * Properties *)

(** ** What every piece of the script keeps *)

Create HintDb script.

Section Preservation.

Variable P : world -> Prop.

Lemma preserves_ret {A} (a : A) : preserves P (ret a).
Proof. intros w H. exact H. Qed.

Lemma preserves_raise {A} (e : exn) : preserves P (@raise A e).
Proof. intros w H. exact H. Qed.

Lemma preserves_py {A} (r : res A) : preserves P (py r).
Proof. destruct r; intros w H; exact H. Qed.

Lemma preserves_get_world : preserves P get_world.
Proof. intros w H. exact H. Qed.

Lemma preserves_rerun {A} : preserves P (@st_rerun A).
Proof. intros w H. exact H. Qed.

Lemma preserves_bind {A B} (m : M A) (k : A -> M B) :
  preserves P m -> (forall a, preserves P (k a)) -> preserves P (bind m k).
Proof.
  intros Hm Hk w H. unfold bind. specialize (Hm w H).
  destruct (m w) as [[a | e | | ] w']; simpl in *; auto.
  apply Hk. exact Hm.
Qed.

Lemma preserves_when (b : bool) (m : M unit) :
  preserves P m -> preserves P (when b m).
Proof. destruct b; simpl; auto using preserves_ret. Qed.

Lemma preserves_for_each {A} (l : list A) (body : A -> M unit) :
  (forall x, preserves P (body x)) -> preserves P (for_each l body).
Proof.
  intros Hb. induction l as [| x l IH]; simpl.
  - apply preserves_ret.
  - apply preserves_bind; auto.
Qed.

Lemma preserves_try_except {A} (body : M A) (handler : exn -> M A) :
  preserves P body -> (forall e, preserves P (handler e)) ->
  preserves P (try_except body handler).
Proof.
  intros Hb Hh w H. unfold try_except. specialize (Hb w H).
  destruct (body w) as [[a | e | | ] w']; simpl in *; auto.
  apply Hh. exact Hb.
Qed.

Hypothesis P_show : forall e, well_bounded e = true -> preserves P (show e).
Hypothesis P_favorite : forall anime_id title,
  preserves P (favorite_button anime_id title).

#[local] Hint Resolve preserves_ret preserves_raise preserves_py
  preserves_get_world preserves_rerun preserves_bind preserves_when
  preserves_for_each preserves_try_except P_favorite : script.
#[local] Hint Extern 1 (preserves _ (show _)) =>
  (apply P_show; reflexivity) : script.

Ltac keep := unfold st_error, st_warning, st_success, st_info, st_markdown;
  auto 60 with script.

Lemma preserves_button label key : preserves P (st_button label key).
Proof. unfold st_button. keep. Qed.

Lemma preserves_card_image anime : preserves P (card_image anime).
Proof. unfold card_image. keep. Qed.

Lemma preserves_card_title anime : preserves P (card_title anime).
Proof. unfold card_title. keep. Qed.

Lemma preserves_card_metrics anime : preserves P (card_metrics anime).
Proof. unfold card_metrics. keep. Qed.

Lemma preserves_card_genres anime : preserves P (card_genres anime).
Proof. unfold card_genres. keep. Qed.

Lemma preserves_card_synopsis anime : preserves P (card_synopsis anime).
Proof. unfold card_synopsis. keep. Qed.

Lemma preserves_card_actions anime title :
  preserves P (card_actions anime title).
Proof. unfold card_actions. keep. Qed.

#[local] Hint Resolve preserves_card_image preserves_card_title
  preserves_card_metrics preserves_card_genres preserves_card_synopsis
  preserves_card_actions : script.

Lemma preserves_card anime : preserves P (display_anime_card anime).
Proof. unfold display_anime_card. keep. Qed.

Lemma preserves_display_all data : preserves P (display_all data).
Proof. unfold display_all. auto 20 using preserves_card with script. Qed.

Lemma preserves_has_data data : preserves P (has_data data).
Proof. unfold has_data. destruct (truthy data); keep. Qed.

Lemma preserves_len_data data : preserves P (len_data data).
Proof. unfold len_data. keep. Qed.

Hypothesis P_query : forall k, preserves P (run_query k).
Hypothesis P_remove : forall anime_id, preserves P (remove_button anime_id).
Hypothesis P_clear : preserves P clear_button.

#[local] Hint Resolve preserves_button preserves_card preserves_display_all
  preserves_has_data preserves_len_data P_remove P_clear
  : script.

Lemma preserves_favorites_item anime_id :
  preserves P (favorites_item anime_id).
Proof.
  unfold favorites_item.
  pose proof (P_query (QDetails anime_id)) as H. simpl in H.
  keep.
Qed.

Lemma preserves_favorites_loop fuel :
  forall i, preserves P (favorites_loop fuel i).
Proof.
  induction fuel as [| fuel IH]; intros i; simpl.
  - intros w H. exact H.
  - apply preserves_bind; [keep |]. intros w.
    destruct (nth_error (favorites w) i).
    + apply preserves_bind; [apply preserves_favorites_item | auto].
    + keep.
Qed.

Lemma preserves_sidebar : preserves P sidebar.
Proof.
  unfold sidebar, st_radio, st_selectbox.
  apply preserves_bind; [keep |]. intros _.
  apply preserves_bind; [keep |]. intros _.
  apply preserves_bind; [keep |]. intros page.
  apply preserves_bind; [keep |]. intros _.
  apply preserves_bind; [| keep].
  destruct page; keep.
Qed.

Lemma preserves_page_home : preserves P page_home.
Proof.
  unfold page_home.
  pose proof (P_query (QTop 1 10)) as H. simpl in H.
  apply preserves_bind; [keep |]. intros _.
  apply preserves_bind; [keep |]. intros _.
  apply preserves_bind; [exact H |]. intros data.
  apply preserves_bind; [keep |]. intros [|]; keep.
Qed.

Lemma preserves_page_search : preserves P page_search.
Proof.
  unfold page_search, st_text_input.
  apply preserves_bind; [keep |]. intros _.
  apply preserves_bind; [keep |]. intros q.
  destruct (truthy (JStr q)); [| keep].
  pose proof (P_query (QSearch q)) as H. simpl in H.
  apply preserves_bind; [keep |]. intros _.
  apply preserves_bind; [exact H |]. intros data.
  apply preserves_bind; [keep |]. intros [|]; keep.
Qed.

Lemma preserves_page_seasonal year season :
  preserves P (page_seasonal year season).
Proof.
  unfold page_seasonal.
  apply preserves_bind; [keep |]. intros cap.
  apply preserves_bind; [keep |]. intros _.
  apply preserves_bind.
  - destruct season; try keep.
    apply (P_query (QSeasonal year s)).
  - intros data. apply preserves_bind; [keep |]. intros [|]; keep.
Qed.

Lemma preserves_pagination_controls n : preserves P (pagination_controls n).
Proof. unfold pagination_controls. keep. Qed.

Lemma preserves_top_rated_listing n : preserves P (top_rated_listing n).
Proof.
  pose proof preserves_pagination_controls.
  unfold top_rated_listing.
  apply preserves_bind; [apply (P_query (QTop n 25)) |].
  intros data. apply preserves_bind; [keep |]. intros [|]; keep.
Qed.

Lemma preserves_page_top_rated : preserves P page_top_rated.
Proof.
  pose proof preserves_top_rated_listing.
  unfold page_top_rated, st_number_input. keep.
Qed.

Lemma preserves_page_favorites fuel : preserves P (page_favorites fuel).
Proof.
  unfold page_favorites.
  apply preserves_bind; [keep |]. intros _.
  apply preserves_bind; [keep |]. intros w.
  destruct (truthy (JArr (favorites w))); [| keep].
  apply preserves_bind; [keep |]. intros _.
  apply preserves_bind; [keep |]. intros _.
  apply preserves_favorites_loop.
Qed.

Lemma preserves_app fuel : preserves P (app fuel).
Proof.
  unfold app.
  apply preserves_bind; [keep |]. intros _.
  apply preserves_bind; [keep |]. intros _.
  apply preserves_bind; [apply preserves_sidebar |]. intros [page filters].
  apply preserves_bind; [keep |]. intros _.
  apply preserves_bind; [| keep].
  destruct page.
  - apply preserves_page_home.
  - apply preserves_page_search.
  - destruct filters as [[y s] |]; [apply preserves_page_seasonal | keep].
  - apply preserves_page_top_rated.
  - apply preserves_page_favorites.
Qed.

End Preservation.


(** ** Running a fetch *)

Lemma skipn_length_app {A} (l r : list A) :
  skipn (List.length l) (l ++ r) = r.
Proof. induction l as [| x l IH]; simpl; auto. Qed.

Lemma guarded_get_run url prefix w :
  guarded_get url prefix w =
  match received (network w (List.length (requests w)) url) with
  | inl j => (Done j, sent url w)
  | inr e => (Done JNull, printed [ErrorBox [Lit prefix; ExcStr e]] (sent url w))
  end.
Proof.
  unfold guarded_get, try_except, bind, requests_get, received.
  destruct (network w (List.length (requests w)) url) as [c | | s b];
    try reflexivity.
  unfold raise_for_status; simpl.
  destruct ((400 <=? s) && (s <? 600)); try reflexivity.
  unfold response_json; simpl. destruct b; reflexivity.
Qed.

Lemma run_query_unfold k :
  run_query k = cache_data 3600 k (guarded_get (url_of k) (error_prefix k)).
Proof. destruct k; reflexivity. Qed.

Lemma run_query_hit k w c :
  cache_hit 3600 (clock w) k (cache w) = Some c ->
  run_query k w = (Done (c_value c), printed (c_replay c) w).
Proof.
  intros H. rewrite run_query_unfold. unfold cache_data. rewrite H.
  reflexivity.
Qed.

Lemma run_query_miss k w :
  cache_hit 3600 (clock w) k (cache w) = None ->
  run_query k w =
  match received (network w (List.length (requests w)) (url_of k)) with
  | inl j => (Done j, stored k j [] (sent (url_of k) w))
  | inr e =>
      (Done JNull,
       stored k JNull [ErrorBox [Lit (error_prefix k); ExcStr e]]
         (printed [ErrorBox [Lit (error_prefix k); ExcStr e]]
            (sent (url_of k) w)))
  end.
Proof.
  intros H. rewrite run_query_unfold. unfold cache_data. rewrite H.
  rewrite guarded_get_run.
  destruct (received _) as [j | e]; unfold stored, printed, sent; simpl.
  - rewrite skipn_all. reflexivity.
  - rewrite skipn_length_app. reflexivity.
Qed.

(** A fetch always returns: the exception of a failed request stops at
    the [except] of the function. *)
Lemma run_query_returns k w : exists v, fst (run_query k w) = Done v.
Proof.
  destruct (cache_hit 3600 (clock w) k (cache w)) as [c |] eqn:H.
  - rewrite (run_query_hit _ _ _ H). simpl. eauto.
  - rewrite (run_query_miss _ _ H). destruct (received _); simpl; eauto.
Qed.

Lemma failure_received h e : failure_of h = Some e -> received h = inr e.
Proof.
  destruct h as [c | | s b]; simpl; try congruence.
  destruct ((400 <=? s) && (s <? 600)); congruence.
Qed.


(** ** The requests the fetch functions issue *)

Lemma append_empty (s : string) : s ++ EmptyString = s.
Proof. induction s as [| c s IH]; simpl; congruence. Qed.

Lemma requests_guarded_get url prefix w :
  requests (snd (guarded_get url prefix w)) =
  (requests w ++ [{| r_url := url; r_timeout := 10 |}])%list.
Proof.
  rewrite guarded_get_run. destruct (received _); reflexivity.
Qed.

Lemma requests_run_query k w :
  requests (snd (run_query k w)) =
  (requests w ++
   match cache_hit 3600 (clock w) k (cache w) with
   | Some _ => []
   | None => [{| r_url := url_of k; r_timeout := 10 |}]
   end)%list.
Proof.
  destruct (cache_hit 3600 (clock w) k (cache w)) as [c |] eqn:H.
  - rewrite (run_query_hit _ _ _ H). simpl. rewrite app_nil_r. reflexivity.
  - rewrite (run_query_miss _ _ H). destruct (received _); reflexivity.
Qed.

Example str_int_decimal :
  str_int 25 = "25" /\ str_int 0 = "0" /\ str_int (-3) = "-3".
Proof. repeat split; reflexivity. Qed.

Example top_rated_url :
  render (url_of (QTop 3 25)) =
  Some "https://api.jikan.moe/v4/top/anime?page=3&limit=25".
Proof. reflexivity. Qed.



(** ** Running the script step by step *)

Lemma bind_done {A B} (m : M A) (k : A -> M B) w a w' :
  m w = (Done a, w') -> bind m k w = k a w'.
Proof. intros H. unfold bind. rewrite H. reflexivity. Qed.

Lemma show_run e w : show e w = (Done tt, printed [e] w).
Proof. reflexivity. Qed.

Lemma get_world_run w : get_world w = (Done w, w).
Proof. reflexivity. Qed.

Lemma st_text_input_run label w :
  st_text_input label w =
  (Done (search_text (ui w)), printed [TextInput label] w).
Proof. reflexivity. Qed.

Lemma st_number_input_run label lo hi v w :
  st_number_input label lo hi v w =
  (Done match page_entry (ui w) with Some x => x | None => v end,
   printed [NumberInput label lo hi v] w).
Proof. reflexivity. Qed.

Lemma has_data_null w : has_data JNull w = (Done false, w).
Proof. reflexivity. Qed.

Lemma printed_printed l1 l2 w :
  printed l2 (printed l1 w) = printed (l1 ++ l2) w.
Proof. unfold printed, set_screen. simpl. rewrite app_assoc. reflexivity. Qed.

Ltac run1 :=
  erewrite bind_done;
  [| first [ apply show_run | apply get_world_run | apply st_text_input_run
           | apply st_number_input_run | apply has_data_null
           | reflexivity ] ];
  rewrite ?printed_printed; cbn [app].

(** ** A failed request *)

Lemma run_query_failure k w e :
  cache_hit 3600 (clock w) k (cache w) = None ->
  failure_of (network w (List.length (requests w)) (url_of k)) = Some e ->
  run_query k w =
  (Done JNull,
   stored k JNull [ErrorBox [Lit (error_prefix k); ExcStr e]]
     (printed [ErrorBox [Lit (error_prefix k); ExcStr e]]
        (sent (url_of k) w))).
Proof.
  intros Hmiss Hfail. rewrite (run_query_miss _ _ Hmiss).
  rewrite (failure_received _ _ Hfail). reflexivity.
Qed.

Lemma run_query_failure_after k w e before :
  cache_hit 3600 (clock w) k (cache w) = None ->
  failure_of (network w (List.length (requests w)) (url_of k)) = Some e ->
  run_query k (printed before w) = (Done JNull, failed k e before w).
Proof.
  intros Hmiss Hfail. apply run_query_failure; assumption.
Qed.

Lemma page_home_failure w e :
  cache_hit 3600 (clock w) (QTop 1 10) (cache w) = None ->
  failure_of (network w (List.length (requests w)) (url_of (QTop 1 10)))
    = Some e ->
  page_home w =
  (Done tt,
   printed [WarningBox [Lit "Unable to load anime data. Please try again later."]]
     (failed (QTop 1 10) e
        [Header [Lit "🔥 Trending Anime"];
         Markdown [Lit "Explore the most popular anime titles right now!"]]
        w)).
Proof.
  intros Hmiss Hfail. unfold page_home, st_markdown, st_warning.
  change (fetch_top_anime 1 10) with (run_query (QTop 1 10)).
  run1. run1.
  erewrite bind_done;
    [| apply (run_query_failure_after (QTop 1 10) w e
                [Header _; Markdown _]); assumption ].
  run1. reflexivity.
Qed.

Lemma page_search_failure w q e :
  search_text (ui w) = q -> truthy (JStr q) = true ->
  cache_hit 3600 (clock w) (QSearch q) (cache w) = None ->
  failure_of (network w (List.length (requests w)) (url_of (QSearch q)))
    = Some e ->
  page_search w =
  (Done tt,
   printed [WarningBox [Lit "No results found. Try a different search term."]]
     (failed (QSearch q) e
        [Header [Lit "🔍 Search Anime"]; TextInput "Enter anime name:";
         Spinner [Lit "Searching..."]]
        w)).
Proof.
  intros Hq Ht Hmiss Hfail. unfold page_search, st_warning.
  run1. run1. cbn [ui printed set_screen]. rewrite Hq, Ht.
  change (search_anime q) with (run_query (QSearch q)).
  run1.
  erewrite bind_done;
    [| apply (run_query_failure_after (QSearch q) w e
                [Header _; TextInput _; Spinner _]); assumption ].
  run1. reflexivity.
Qed.

Lemma page_seasonal_failure w year season e :
  cache_hit 3600 (clock w) (QSeasonal year season) (cache w) = None ->
  failure_of
    (network w (List.length (requests w)) (url_of (QSeasonal year season)))
    = Some e ->
  page_seasonal year (JStr season) w =
  (Done tt,
   printed [WarningBox [Lit "Unable to load seasonal anime data."]]
     (failed (QSeasonal year season) e
        [Header [Lit "📅 Seasonal Anime - "; Str (JStr (capitalize season));
                 Lit " "; Str year]]
        w)).
Proof.
  intros Hmiss Hfail. unfold page_seasonal, st_warning.
  change (fetch_seasonal_anime year season)
    with (run_query (QSeasonal year season)).
  run1. run1.
  erewrite bind_done;
    [| apply (run_query_failure_after (QSeasonal year season) w e
                [Header _]); assumption ].
  run1. reflexivity.
Qed.

Lemma page_top_rated_failure w e :
  cache_hit 3600 (clock w) (QTop (current_page w) 25) (cache w) = None ->
  failure_of
    (network w (List.length (requests w))
       (url_of (QTop (current_page w) 25))) = Some e ->
  page_top_rated w =
  (Done tt,
   printed [WarningBox [Lit "Unable to load top anime data."]]
     (failed (QTop (current_page w) 25) e
        [Header [Lit "⭐ Top Rated Anime of All Time"];
         NumberInput "Page" 1 100 1]
        w)).
Proof.
  intros Hmiss Hfail. unfold page_top_rated, top_rated_listing, st_warning.
  run1. run1. cbn [ui printed set_screen].
  change (match page_entry (ui w) with Some x => x | None => 1 end)
    with (current_page w).
  change (fetch_top_anime (current_page w) 25)
    with (run_query (QTop (current_page w) 25)).
  erewrite bind_done;
    [| apply (run_query_failure_after (QTop (current_page w) 25) w e
                [Header _; NumberInput _ _ _ _]); assumption ].
  run1. reflexivity.
Qed.

Lemma favorites_item_failure w anime_id e :
  cache_hit 3600 (clock w) (QDetails anime_id) (cache w) = None ->
  failure_of
    (network w (List.length (requests w)) (url_of (QDetails anime_id)))
    = Some e ->
  favorites_item anime_id w =
  (Done tt,
   failed (QDetails anime_id) e
     [Spinner [Lit "Loading anime "; Str anime_id; Lit "..."]] w).
Proof.
  intros Hmiss Hfail. unfold favorites_item.
  change (fetch_anime_details anime_id) with (run_query (QDetails anime_id)).
  run1.
  erewrite bind_done;
    [| apply (run_query_failure_after (QDetails anime_id) w e
                [Spinner _]); assumption ].
  run1. reflexivity.
Qed.

Ltac shown :=
  split; [simpl; repeat (first [left; reflexivity | right]) |
          split; reflexivity].

(** C1 (as amended).  A request that fails in transport, times out or
    gets a 4xx or 5xx status never raises out of the fetch function: the
    function prints an error box, returns [None] and has issued its one
    request.  The pass that called it goes on to its end and prints no
    card; the home, search, seasonal and top-rated pages print one
    warning, the loop of the favourites page prints none. *)
Theorem failed_fetch_is_handled (k : query) (w : world) (e : exn) :
  cache_hit 3600 (clock w) k (cache w) = None ->
  failure_of (network w (List.length (requests w)) (url_of k)) = Some e ->
  calls k w = true ->
  fst (run_query k w) = Done JNull
  /\ screen (snd (run_query k w)) =
       (screen w ++ [ErrorBox [Lit (error_prefix k); ExcStr e]])%list
  /\ requests (snd (run_query k w)) =
       (requests w ++ [{| r_url := url_of k; r_timeout := 10 |}])%list
  /\ fst (render_pass k w) = Done tt
  /\ exists l,
       screen (snd (render_pass k w)) = (screen w ++ l)%list
       /\ In (ErrorBox [Lit (error_prefix k); ExcStr e]) l
       /\ cards l = 0%nat
       /\ warnings l = match k with QDetails _ => 0%nat | _ => 1%nat end.
Proof.
  intros Hmiss Hfail Hcalls.
  rewrite (run_query_failure _ _ _ Hmiss Hfail).
  refine (conj eq_refl (conj eq_refl (conj eq_refl _))).
  destruct k as [page limit | q | anime_id | year season]; simpl in Hcalls.
  - (* trending: the home page, or the top-rated page *)
    apply orb_true_iff in Hcalls.
    destruct Hcalls as [H | H]; apply andb_true_iff in H;
      destruct H as [Hl Hp]; apply Z.eqb_eq in Hl, Hp; subst; simpl.
    + rewrite (page_home_failure _ _ Hmiss Hfail). split; [reflexivity |].
      eexists. split.
      * simpl. rewrite <- !app_assoc. reflexivity.
      * shown.
    + rewrite (page_top_rated_failure _ _ Hmiss Hfail).
      split; [reflexivity |]. eexists. split.
      * simpl. rewrite <- !app_assoc. reflexivity.
      * shown.
  - apply andb_true_iff in Hcalls. destruct Hcalls as [Hq Ht].
    apply String.eqb_eq in Hq. simpl render_pass.
    rewrite (page_search_failure _ _ _ Hq Ht Hmiss Hfail).
    split; [reflexivity |]. eexists. split.
    + simpl. rewrite <- !app_assoc. reflexivity.
    + shown.
  - simpl render_pass.
    rewrite (favorites_item_failure _ _ _ Hmiss Hfail).
    split; [reflexivity |]. eexists. split.
    + simpl. rewrite <- !app_assoc. reflexivity.
    + shown.
  - simpl render_pass.
    rewrite (page_seasonal_failure _ _ _ _ Hmiss Hfail).
    split; [reflexivity |]. eexists. split.
    + simpl. rewrite <- !app_assoc. reflexivity.
    + shown.
Qed.

(** The scenario of the seasonal view: (2024, fall) with the network
    down. *)
Lemma failed_fetch_is_handled_witness :
  fst (run_query (QSeasonal (JInt 2024) "fall") offline_world) = Done JNull
  /\ fst (render_pass (QSeasonal (JInt 2024) "fall") offline_world) = Done tt
  /\ exists l,
       screen (snd (render_pass (QSeasonal (JInt 2024) "fall") offline_world))
         = (screen offline_world ++ l)%list
       /\ cards l = 0%nat /\ warnings l = 1%nat.
Proof.
  destruct (failed_fetch_is_handled (QSeasonal (JInt 2024) "fall")
              offline_world (ConnectionError "unreachable")
              eq_refl eq_refl eq_refl)
    as (H1 & _ & _ & H4 & l & H5 & _ & H6 & H7).
  split; [exact H1 |]. split; [exact H4 |].
  exists l. split; [exact H5 |]. split; [exact H6 | exact H7].
Defined.

(** C1 as stated fails for [fetch_anime_details]: with one favourite
    saved and the network down, the favourites page runs to its end with
    the error box of the fetch function and no warning. *)
Lemma favorites_failure_shows_no_warning :
  favorites saved_then_offline = [JInt 1]
  /\ errors (screen saved_then_offline) = 1%nat
  /\ cards (screen saved_then_offline) = 0%nat
  /\ warnings (screen saved_then_offline) = 0%nat.
Proof. vm_compute. auto. Qed.


(** ** The cache *)

Lemma cache_find_same k c cs :
  c_key c = k -> cache_find k (c :: cs) = Some c.
Proof.
  intros H. simpl. destruct (query_eq_dec (c_key c) k); congruence.
Qed.

Lemma cache_find_other k c cs :
  c_key c <> k -> cache_find k (c :: cs) = cache_find k cs.
Proof.
  intros H. simpl. destruct (query_eq_dec (c_key c) k); congruence.
Qed.

Lemma cache_hit_fresh k now cs c :
  cache_find k cs = Some c -> now < c_stored c + 3600 ->
  cache_hit 3600 now k cs = Some c.
Proof.
  intros Hf Ht. unfold cache_hit, fresh. rewrite Hf.
  apply Z.ltb_lt in Ht. rewrite Ht. reflexivity.
Qed.

Lemma cache_hit_found k now cs c :
  cache_hit 3600 now k cs = Some c ->
  cache_find k cs = Some c /\ now < c_stored c + 3600.
Proof.
  unfold cache_hit, fresh. destruct (cache_find k cs) as [c' |]; [| discriminate].
  destruct (now <? c_stored c' + 3600) eqn:Ht; [| discriminate].
  intros H. inversion H; subst. apply Z.ltb_lt in Ht. auto.
Qed.

(** Every call leaves an entry for its arguments: the fresh one it was
    served from, or the one it has just stored. *)
Lemma run_query_leaves_entry k w :
  exists c,
    cache_find k (cache (snd (run_query k w))) = Some c
    /\ fst (run_query k w) = Done (c_value c)
    /\ c_stored c =
         match cache_hit 3600 (clock w) k (cache w) with
         | Some c0 => c_stored c0
         | None => clock w
         end.
Proof.
  destruct (cache_hit 3600 (clock w) k (cache w)) as [c |] eqn:H.
  - rewrite (run_query_hit _ _ _ H). exists c.
    apply cache_hit_found in H. simpl. tauto.
  - rewrite (run_query_miss _ _ H).
    destruct (received _) as [j | e]; eexists;
      (split; [apply cache_find_same; reflexivity | split; reflexivity]).
Qed.

(** C3.  Take the entry [c] that a call of one of the four functions
    leaves in the cache for its arguments.  While the cache holds it,
    every call with the same arguments made less than 3600 seconds after
    it was stored returns the stored payload as it is, prints again what
    the first call printed, and changes nothing else: no request is
    issued.  The entry was stored at the time of the first call when that
    call went to the network. *)
Theorem repeat_within_ttl (k : query) (w w2 : world) (c : cached) :
  cache_find k (cache (snd (run_query k w))) = Some c ->
  cache_find k (cache w2) = Some c ->
  clock w2 < c_stored c + 3600 ->
  fst (run_query k w) = Done (c_value c)
  /\ c_stored c =
       match cache_hit 3600 (clock w) k (cache w) with
       | Some c0 => c_stored c0
       | None => clock w
       end
  /\ run_query k w2 = (Done (c_value c), printed (c_replay c) w2)
  /\ requests (snd (run_query k w2)) = requests w2.
Proof.
  intros Hleft Hheld Hage.
  destruct (run_query_leaves_entry k w) as (c' & Hc' & Hv & Ht).
  assert (c' = c) by congruence. subst c'.
  rewrite (run_query_hit k w2 c (cache_hit_fresh _ _ _ _ Hheld Hage)).
  auto.
Qed.

(** ** What each primitive changes *)

Lemma favorite_button_run anime_id title w :
  favorite_button anime_id title w =
  (Done tt,
   if is_pressed (fav_key anime_id) w then
     if py_in anime_id (favorites w) then
       printed [fav_button anime_id; InfoBox [Lit "Already in favorites!"]] w
     else
       printed [fav_button anime_id;
                SuccessBox [Lit "Added "; Str title; Lit " to favorites!"]]
         (set_favorites (favorites w ++ [anime_id]) w)
   else printed [fav_button anime_id] w).
Proof.
  unfold favorite_button, st_button, add_to_favorites, append_favorite,
    st_success, st_info, bind, show, get_world, when, ret; simpl.
  change (is_pressed (fav_key anime_id) _)
    with (is_pressed (fav_key anime_id) w).
  destruct (is_pressed (fav_key anime_id) w); simpl; [| reflexivity].
  destruct (py_in anime_id (favorites w)); simpl;
    unfold printed, set_screen, set_favorites; simpl;
    rewrite <- app_assoc; reflexivity.
Qed.

Lemma remove_button_run anime_id w :
  remove_button anime_id w =
  if is_pressed (remove_key anime_id) w then
    match py_remove anime_id (favorites w) with
    | Some f => (Rerun, printed [remove_btn anime_id] (set_favorites f w))
    | None => (Raised ValueError, printed [remove_btn anime_id] w)
    end
  else (Done tt, printed [remove_btn anime_id] w).
Proof.
  unfold remove_button, st_button, remove_favorite, st_rerun, bind, show,
    get_world, when, ret; simpl.
  change (is_pressed (remove_key anime_id) _)
    with (is_pressed (remove_key anime_id) w).
  destruct (is_pressed (remove_key anime_id) w); simpl; [| reflexivity].
  destruct (py_remove anime_id (favorites w)); reflexivity.
Qed.

Lemma clear_button_run w :
  clear_button w =
  if is_pressed clear_key w
  then (Rerun, printed [clear_btn] (set_favorites [] w))
  else (Done tt, printed [clear_btn] w).
Proof.
  unfold clear_button, st_button, st_rerun, bind, show, get_world, when, ret;
    simpl.
  change (is_pressed clear_key _) with (is_pressed clear_key w).
  destruct (is_pressed clear_key w); reflexivity.
Qed.

Lemma favorite_button_effect anime_id title w :
  exists f l, snd (favorite_button anime_id title w)
              = printed l (set_favorites f w)
              /\ forallb well_bounded l = true.
Proof.
  rewrite favorite_button_run.
  destruct (is_pressed (fav_key anime_id) w);
    [destruct (py_in anime_id (favorites w)) |]; simpl.
  - exists (favorites w). eexists. split; reflexivity.
  - eexists. eexists. split; reflexivity.
  - exists (favorites w). eexists. split; reflexivity.
Qed.

Lemma remove_button_effect anime_id w :
  exists f l, snd (remove_button anime_id w) = printed l (set_favorites f w)
              /\ forallb well_bounded l = true.
Proof.
  rewrite remove_button_run.
  destruct (is_pressed (remove_key anime_id) w);
    [destruct (py_remove anime_id (favorites w)) as [f |] |]; simpl.
  - exists f. eexists. split; reflexivity.
  - exists (favorites w). eexists. split; reflexivity.
  - exists (favorites w). eexists. split; reflexivity.
Qed.

Lemma clear_button_effect w :
  exists f l, snd (clear_button w) = printed l (set_favorites f w)
              /\ forallb well_bounded l = true.
Proof.
  rewrite clear_button_run. destruct (is_pressed clear_key w); simpl.
  - exists []. eexists. split; reflexivity.
  - exists (favorites w). eexists. split; reflexivity.
Qed.

Lemma run_query_effect k w :
  (exists c, cache_find k (cache w) = Some c
             /\ snd (run_query k w) = printed (c_replay c) w) \/
  (exists v l, forallb is_error_box l = true
               /\ snd (run_query k w)
                  = stored k v l (printed l (sent (url_of k) w))).
Proof.
  destruct (cache_hit 3600 (clock w) k (cache w)) as [c |] eqn:H.
  - left. rewrite (run_query_hit _ _ _ H). simpl.
    apply cache_hit_found in H. exists c. tauto.
  - right. rewrite (run_query_miss _ _ H).
    destruct (received _) as [j | e].
    + exists j, []. split; [reflexivity |].
      unfold printed, stored, set_cache, set_screen; simpl.
      rewrite app_nil_r. reflexivity.
    + simpl. eexists. eexists. split; [| reflexivity]. reflexivity.
Qed.

Section Frames.

Variable P : world -> Prop.
Hypothesis P_printed : forall l w, P w -> P (printed l w).

Lemma show_keeps e : preserves P (show e).
Proof. intros w H. apply (P_printed [e]). exact H. Qed.

Hypothesis P_favorites : forall f w, P w -> P (set_favorites f w).

Lemma favorite_button_keeps anime_id title :
  preserves P (favorite_button anime_id title).
Proof.
  intros w H. destruct (favorite_button_effect anime_id title w) as (f & l & E & _).
  rewrite E. auto.
Qed.

Lemma remove_button_keeps anime_id : preserves P (remove_button anime_id).
Proof.
  intros w H. destruct (remove_button_effect anime_id w) as (f & l & E & _).
  rewrite E. auto.
Qed.

Lemma clear_button_keeps : preserves P clear_button.
Proof.
  intros w H. destruct (clear_button_effect w) as (f & l & E & _).
  rewrite E. auto.
Qed.

End Frames.

Lemma run_query_keeps (P : world -> Prop) :
  (forall l w, P w -> P (printed l w)) ->
  (forall u w, P w -> P (sent u w)) ->
  (forall k v l w, P w -> P (stored k v l w)) ->
  forall k, preserves P (run_query k).
Proof.
  intros Hp Hs Hc k w H.
  destruct (run_query_effect k w) as [(c & _ & E) | (v & l & _ & E)];
    rewrite E; auto.
Qed.

(** A fresh entry stays in the cache through a run of the script. *)
Lemma app_keeps_entry (k : query) (c : cached) (fuel : nat) :
  preserves (fun w => cache_find k (cache w) = Some c
                      /\ clock w < c_stored c + 3600) (app fuel).
Proof.
  apply preserves_app.
  - intros e _. apply show_keeps. auto.
  - apply favorite_button_keeps; auto.
  - intros k' w [Hf Ht].
    destruct (query_eq_dec k' k) as [-> | Hne].
    + rewrite (run_query_hit k w c (cache_hit_fresh _ _ _ _ Hf Ht)). auto.
    + destruct (run_query_effect k' w) as [(c' & _ & E) | (v & l & _ & E)];
        rewrite E.
      * auto.
      * split; [| exact Ht]. unfold stored. cbn [cache set_cache].
        rewrite cache_find_other; [exact Hf | exact Hne].
  - apply remove_button_keeps; auto.
  - apply clear_button_keeps; auto.
Qed.

Lemma repeat_within_ttl_witness :
  fst (run_query (QTop 1 10) online_world) = Done sample_payload
  /\ fst (run_query (QTop 1 10) (after_first_call 3599)) = Done sample_payload
  /\ requests (snd (run_query (QTop 1 10) (after_first_call 3599)))
     = requests (after_first_call 3599).
Proof.
  destruct (repeat_within_ttl (QTop 1 10) online_world (after_first_call 3599)
              {| c_key := QTop 1 10; c_stored := 0; c_value := sample_payload;
                 c_replay := [] |} eq_refl eq_refl eq_refl)
    as (H1 & _ & H3 & H4).
  split; [exact H1 |]. split; [| exact H4].
  rewrite H3. reflexivity.
Defined.

(** At 3600 seconds the entry has expired and the call goes to the
    network again. *)
Example expired_entry_refetches :
  List.length (requests (after_first_call 3600)) = 1%nat /\
  List.length (requests (snd (run_query (QTop 1 10) (after_first_call 3600))))
  = 2%nat.
Proof. vm_compute. auto. Qed.


(** ** Pages that list results *)

Lemma has_data_results data items w :
  results_of data = Some items ->
  has_data data w =
  (Done match items with [] => false | _ => true end, w).
Proof.
  unfold results_of, has_data. destruct data as [| | | | | | fields];
    try discriminate.
  - intros H. inversion H. reflexivity.
  - destruct fields as [| p fields'] eqn:Ef.
    + simpl. intros H. inversion H. reflexivity.
    + rewrite <- Ef. assert (truthy (JObj fields) = true) as ->
        by (rewrite Ef; reflexivity).
      unfold py_get, py, bind, ret.
      destruct (lookup "data" fields) as [[| | | | | l |] |]; try discriminate;
        intros H; inversion H; subst; reflexivity.
Qed.

Lemma display_all_results data x items w :
  results_of data = Some (x :: items) ->
  display_all data w = for_each (x :: items) display_anime_card w
  /\ len_data data w = (Done (Z.of_nat (List.length (x :: items))), w).
Proof.
  unfold results_of, display_all, len_data.
  destruct data as [| | | | | | fields]; try discriminate.
  unfold py_item. 
  destruct (lookup "data" fields) as [[| | | | | l |] |]; try discriminate.
  intros H. inversion H; subst. split; reflexivity.
Qed.

Lemma display_all_requests data w :
  requests (snd (display_all data w)) = requests w.
Proof.
  apply (preserves_display_all (fun w' => requests w' = requests w)); auto.
  - intros e _. apply show_keeps. auto.
  - apply favorite_button_keeps; auto.
Qed.




(** ** The seasonal page *)

Lemma nth_error_range_down start stop i :
  nth_error (py_range_down start stop) i =
  if Z.of_nat i <? start - stop then Some (start - Z.of_nat i) else None.
Proof.
  unfold py_range_down. rewrite nth_error_map.
  destruct (Z.of_nat i <? start - stop) eqn:H.
  - apply Z.ltb_lt in H.
    rewrite nth_error_seq.
    assert ((i <? Z.to_nat (start - stop))%nat = true) as ->
      by (apply Nat.ltb_lt; lia).
    reflexivity.
  - apply Z.ltb_ge in H.
    rewrite nth_error_seq.
    assert ((i <? Z.to_nat (start - stop))%nat = false) as ->
      by (apply Nat.ltb_ge; lia).
    reflexivity.
Qed.

Lemma in_range_down start stop z :
  In z (py_range_down start stop) <-> stop < z <= start.
Proof.
  unfold py_range_down. rewrite in_map_iff. split.
  - intros (i & <- & Hi). apply in_seq in Hi. lia.
  - intros H. exists (Z.to_nat (start - z)). split; [lia |].
    apply in_seq. lia.
Qed.

Lemma in_year_options y z :
  In (JInt z) (year_options y) <-> 1990 <= z <= y.
Proof.
  unfold year_options. rewrite in_map_iff. split.
  - intros (x & E & Hx). inversion E; subst. apply in_range_down in Hx. lia.
  - intros H. exists z. split; [reflexivity |]. apply in_range_down. lia.
Qed.

Lemma chosen_season_selected w :
  selected season_options (season_choice (ui w)) = JStr (chosen_season w)
  /\ In (chosen_season w) ["winter"; "spring"; "summer"; "fall"].
Proof.
  unfold chosen_season.
  destruct (season_choice (ui w)) as [| [| [| [| n]]]]; simpl; auto 6;
    destruct n; simpl; auto.
Qed.

Lemma sidebar_seasonal_run w :
  nav (ui w) = Seasonal ->
  sidebar w =
  (Done (Seasonal, Some (chosen_year w, JStr (chosen_season w))),
   printed (seasonal_sidebar (today_year w)) w).
Proof.
  intros Hnav. unfold sidebar, st_radio, st_markdown, st_info, st_selectbox.
  run1. run1.
  erewrite bind_done;
    [| erewrite bind_done; [| apply show_run];
       erewrite bind_done; [| apply get_world_run]; reflexivity ].
  cbn [ui printed set_screen]. rewrite Hnav.
  rewrite ?printed_printed. run1.
  erewrite bind_done.
  2:{ run1. run1. cbn [ui printed set_screen today_year].
      erewrite bind_done;
        [| erewrite bind_done; [| apply show_run]; reflexivity ].
      erewrite bind_done;
        [| erewrite bind_done; [| apply show_run]; reflexivity ].
      rewrite ?printed_printed. reflexivity. }
  run1. run1. run1.
  destruct (chosen_season_selected w) as [Hs _].
  rewrite Hs. reflexivity.
Qed.

Lemma page_seasonal_run w w1 year season data items :
  run_query (QSeasonal year season) (printed [seasonal_header year season] w)
    = (Done data, w1) ->
  results_of data = Some items ->
  page_seasonal year (JStr season) w =
    match items with
    | [] =>
        (Done tt,
         printed [WarningBox [Lit "Unable to load seasonal anime data."]] w1)
    | _ :: _ =>
        for_each items display_anime_card
          (printed [SuccessBox
                      [Lit "Found ";
                       Str (JInt (Z.of_nat (List.length items)));
                       Lit " anime for "; Str (JStr (capitalize season));
                       Lit " "; Str year]] w1)
    end.
Proof.
  intros Hfetch Hres. unfold page_seasonal, st_warning, st_success.
  change (fetch_seasonal_anime year season)
    with (run_query (QSeasonal year season)).
  run1. run1. erewrite bind_done; [| exact Hfetch].
  erewrite bind_done; [| apply (has_data_results _ _ _ Hres)].
  destruct items as [| x items].
  - reflexivity.
  - destruct (display_all_results data x items w1 Hres) as [_ Hlen].
    erewrite bind_done; [| exact Hlen].
    run1. run1.
    apply (display_all_results data x items _ Hres).
Qed.




(** ** The top-rated page *)

Lemma pagination_controls_run n w :
  pagination_controls n w =
  if 1 <? n then
    if is_pressed prev_key w
    then (Rerun, printed [Columns 3; prev_button] w)
    else if is_pressed next_key w
         then (Rerun, printed [Columns 3; prev_button; next_button] w)
         else (Done tt, printed [Columns 3; prev_button; next_button] w)
  else
    if is_pressed next_key w
    then (Rerun, printed [Columns 3; next_button] w)
    else (Done tt, printed [Columns 3; next_button] w).
Proof.
  unfold pagination_controls, st_button, st_rerun, bind, show, get_world,
    when, ret; simpl.
  destruct (1 <? n); simpl.
  - change (is_pressed prev_key _) with (is_pressed prev_key w).
    destruct (is_pressed prev_key w); simpl.
    + unfold printed, set_screen; simpl. rewrite <- app_assoc. reflexivity.
    + change (is_pressed next_key _) with (is_pressed next_key w).
      destruct (is_pressed next_key w); simpl;
        unfold printed, set_screen; simpl; rewrite <- !app_assoc; reflexivity.
  - change (is_pressed next_key _) with (is_pressed next_key w).
    destruct (is_pressed next_key w); simpl;
      unfold printed, set_screen; simpl; rewrite <- !app_assoc; reflexivity.
Qed.

Lemma page_top_rated_run w w1 data items :
  run_query (QTop (current_page w) 25) (printed top_rated_head w)
    = (Done data, w1) ->
  results_of data = Some items ->
  page_top_rated w =
    match items with
    | [] =>
        (Done tt,
         printed [WarningBox [Lit "Unable to load top anime data."]] w1)
    | _ :: _ =>
        (for_each items display_anime_card ;;
         pagination_controls (current_page w))
          (printed [SuccessBox [Lit "Showing top anime - Page ";
                                Str (JInt (current_page w))]] w1)
    end.
Proof.
  intros Hfetch Hres.
  unfold page_top_rated, top_rated_listing, st_warning, st_success.
  run1. run1. cbn [ui printed set_screen].
  change (match page_entry (ui w) with Some x => x | None => 1 end)
    with (current_page w).
  change (fetch_top_anime (current_page w) 25)
    with (run_query (QTop (current_page w) 25)).
  erewrite bind_done; [| exact Hfetch].
  erewrite bind_done; [| apply (has_data_results _ _ _ Hres)].
  destruct items as [| x items].
  - reflexivity.
  - run1. unfold bind at 1.
    rewrite (proj1 (display_all_results data x items _ Hres)).
    reflexivity.
Qed.

(** The script never touches the widgets. *)
Lemma app_keeps_ui fuel w : ui (snd (app fuel w)) = ui w.
Proof.
  apply (preserves_app (fun w' => ui w' = ui w)); auto.
  - intros e _. apply show_keeps. auto.
  - apply favorite_button_keeps; auto.
  - apply run_query_keeps; auto.
  - apply remove_button_keeps; auto.
  - apply clear_button_keeps; auto.
Qed.

Lemma page_top_rated_keeps_ui w : ui (snd (page_top_rated w)) = ui w.
Proof.
  apply (preserves_page_top_rated (fun w' => ui w' = ui w)); auto.
  - intros e _. apply show_keeps. auto.
  - apply favorite_button_keeps; auto.
  - apply run_query_keeps; auto.
Qed.

Lemma page_top_rated_requests w :
  requests (snd (page_top_rated w)) =
  requests (snd (run_query (QTop (current_page w) 25)
                   (printed top_rated_head w))).
Proof.
  unfold page_top_rated. run1. run1. cbn [ui printed set_screen].
  change (match page_entry (ui w) with Some x => x | None => 1 end)
    with (current_page w).
  unfold top_rated_listing.
  change (fetch_top_anime (current_page w) 25)
    with (run_query (QTop (current_page w) 25)).
  destruct (run_query_returns (QTop (current_page w) 25)
              (printed top_rated_head w)) as [data Hd].
  destruct (run_query (QTop (current_page w) 25) (printed top_rated_head w))
    as [o w1] eqn:E. simpl in Hd. subst o.
  erewrite bind_done; [| exact E]. simpl snd.
  set (rest := fun ok : bool => if ok then _ else _).
  assert (forall ok, preserves (fun w' => requests w' = requests w1) (rest ok))
    as Hrest.
  { intros ok. unfold rest, st_success, st_warning. destruct ok.
    - apply preserves_bind; [apply show_keeps; auto |]. intros _.
      apply preserves_bind.
      + apply preserves_display_all.
        * intros e _. apply show_keeps. auto.
        * apply favorite_button_keeps; auto.
      + intros _. apply preserves_pagination_controls.
        intros e _. apply show_keeps. auto.
    - apply show_keeps. auto. }
  apply (preserves_bind (fun w' => requests w' = requests w1)
           (has_data data) rest (preserves_has_data _ data) Hrest w1).
  reflexivity.
Qed.

(** ** The invariant of a session *)

Lemma error_boxes_well_bounded l :
  forallb is_error_box l = true -> forallb well_bounded l = true.
Proof.
  induction l as [| e l IH]; simpl; [reflexivity |].
  intros H. apply andb_true_iff in H. destruct H as [He Hl].
  rewrite (IH Hl). destruct e; try discriminate. reflexivity.
Qed.

Lemma cache_find_in k cs c : cache_find k cs = Some c -> In c cs.
Proof.
  induction cs as [| c' cs IH]; simpl; [discriminate |].
  destruct (query_eq_dec (c_key c') k).
  - intros H. inversion H. auto.
  - auto.
Qed.

Lemma bounds_on_screen s lo hi :
  forallb well_bounded s = true ->
  number_input_bounds s = Some (lo, hi) -> lo = 1 /\ hi = 100.
Proof.
  induction s as [| e s IH]; simpl; [discriminate |].
  intros H. apply andb_true_iff in H. destruct H as [He Hs].
  destruct e; auto. simpl in He.
  intros E. inversion E; subst.
  apply andb_true_iff in He. destruct He as [H1 H2].
  apply Z.eqb_eq in H1, H2. auto.
Qed.

Lemma app_keeps_bounds fuel :
  preserves (fun w => cache_ok (cache w)
                      /\ forallb well_bounded (screen w) = true) (app fuel).
Proof.
  apply preserves_app.
  - intros e He w [Hc Hs]. split; [exact Hc |].
    cbn [show snd screen set_screen]. rewrite forallb_app, Hs. simpl.
    rewrite He. reflexivity.
  - intros anime_id title w [Hc Hs].
    destruct (favorite_button_effect anime_id title w) as (f & l & E & Hl).
    rewrite E. split; [exact Hc |]. simpl. rewrite forallb_app, Hs, Hl.
    reflexivity.
  - intros k w [Hc Hs].
    destruct (run_query_effect k w) as [(c & Hf & E) | (v & l & Hl & E)];
      rewrite E.
    + split; [exact Hc |]. simpl. rewrite forallb_app, Hs. simpl.
      apply error_boxes_well_bounded.
      apply cache_find_in in Hf.
      unfold cache_ok in Hc. rewrite Forall_forall in Hc. auto.
    + split.
      * unfold stored. cbn [cache set_cache]. constructor; [exact Hl |].
        exact Hc.
      * simpl. rewrite forallb_app, Hs. simpl.
        apply error_boxes_well_bounded. exact Hl.
  - intros anime_id w [Hc Hs].
    destruct (remove_button_effect anime_id w) as (f & l & E & Hl).
    rewrite E. split; [exact Hc |]. simpl. rewrite forallb_app, Hs, Hl.
    reflexivity.
  - intros w [Hc Hs].
    destruct (clear_button_effect w) as (f & l & E & Hl).
    rewrite E. split; [exact Hc |]. simpl. rewrite forallb_app, Hs, Hl.
    reflexivity.
Qed.

Lemma run_once_ok w :
  cache_ok (cache w) ->
  cache_ok (cache (snd (run_once w)))
  /\ forallb well_bounded (screen (snd (run_once w))) = true
  /\ ui (snd (run_once w)) = ui w.
Proof.
  intros Hc. unfold run_once.
  destruct (app_keeps_bounds (S (S (List.length (favorites w))))
              (set_screen [] w)) as [H1 H2]; [split; [exact Hc | reflexivity] |].
  split; [exact H1 |]. split; [exact H2 |].
  change (ui w) with (ui (set_screen [] w)). apply app_keeps_ui.
Qed.

Lemma run_script_ok w :
  cache_ok (cache w) ->
  cache_ok (cache (snd (run_script w)))
  /\ forallb well_bounded (screen (snd (run_script w))) = true
  /\ ui (release (snd (run_script w))) = ui (release w).
Proof.
  intros Hc. unfold run_script.
  destruct (run_once_ok w Hc) as (H1 & H2 & H3).
  destruct (run_once w) as [[[] | e | |] w'] eqn:E; simpl in *;
    try (split; [exact H1 |]; split; [exact H2 |];
         unfold release; simpl; rewrite H3; reflexivity).
  destruct (run_once_ok (release w')) as (K1 & K2 & K3); [exact H1 |].
  split; [exact K1 |]. split; [exact K2 |].
  unfold release in *. simpl in *. rewrite K3. simpl. rewrite H3.
  reflexivity.
Qed.

Lemma current_page_settle w :
  1 <= current_page w <= 100 ->
  1 <= current_page (release (settle w)) <= 100.
Proof.
  unfold current_page, release, settle; simpl.
  destruct (number_input_bounds (screen w)); simpl; auto. lia.
Qed.

Lemma page_entry_release w :
  page_entry (ui (release w)) = page_entry (ui w).
Proof. reflexivity. Qed.

Lemma session_step_ok (w0 : world) :
  cache_ok (cache w0) -> 1 <= current_page w0 <= 100 ->
  session_ok (release (settle (snd (run_script w0)))).
Proof.
  intros Hc Hp. destruct (run_script_ok w0 Hc) as (H1 & H2 & H3).
  split; [exact H1 |]. split; [exact H2 |].
  apply current_page_settle.
  unfold current_page in *.
  assert (page_entry (ui (snd (run_script w0))) = page_entry (ui w0)) as ->.
  { change (page_entry (ui (release (snd (run_script w0))))
            = page_entry (ui (release w0))).
    rewrite H3. reflexivity. }
  exact Hp.
Qed.

(** Every state of a session satisfies the invariant; in particular the
    page number stays within 1 and 100. *)
Lemma reachable_ok w : reachable w -> session_ok w.
Proof.
  induction 1 as [shared now year net Hc | ev w Hr IH].
  - apply session_step_ok; [exact Hc |]. unfold current_page; simpl. lia.
  - destruct IH as (Hc & Hs & Hp).
    destruct ev; try (apply session_step_ok; [exact Hc | exact Hp]).
    + (* a page number is entered *)
      apply session_step_ok; [exact Hc |].
      unfold current_page in *; simpl.
      destruct (number_input_bounds (screen w)) as [[lo hi] |] eqn:Eb;
        [| exact Hp].
      destruct (bounds_on_screen _ _ _ Hs Eb) as [-> ->].
      destruct ((1 <=? v) && (v <=? 100)) eqn:Ev; [| exact Hp].
      apply andb_true_iff in Ev. destruct Ev as [E1 E2].
      apply Z.leb_le in E1, E2. lia.
    + (* time passes *)
      simpl. destruct (0 <=? seconds); split; auto.
Qed.

(** ** The number input stays on the screen of the top-rated page *)

Lemma bind_assoc {A B C} (m : M A) (k : A -> M B) (h : B -> M C) w :
  bind (bind m k) h w = bind m (fun a => bind (k a) h) w.
Proof. unfold bind. destruct (m w) as [[a | e | |] w']; reflexivity. Qed.

Lemma number_input_bounds_app s l :
  number_input_bounds l <> None -> number_input_bounds (s ++ l) <> None.
Proof.
  intros H. induction s as [| e s IH]; simpl; [exact H |].
  destruct e; auto. discriminate.
Qed.

Lemma number_input_bounds_keep s l :
  number_input_bounds s <> None -> number_input_bounds (s ++ l) <> None.
Proof.
  induction s as [| e s IH]; simpl; [congruence |].
  destruct e; auto.
Qed.

Lemma sidebar_top_rated_run w :
  nav (ui w) = TopRated ->
  sidebar w = (Done (TopRated, None), printed plain_sidebar w).
Proof.
  intros Hnav. unfold sidebar, st_radio, st_markdown, st_info.
  run1. run1.
  erewrite bind_done;
    [| erewrite bind_done; [| apply show_run];
       erewrite bind_done; [| apply get_world_run]; reflexivity ].
  cbn [ui printed set_screen]. rewrite Hnav.
  rewrite ?printed_printed. run1.
  erewrite bind_done; [| run1; reflexivity].
  run1. run1. run1. reflexivity.
Qed.

Lemma app_top_rated_shows_input fuel w :
  nav (ui w) = TopRated ->
  number_input_bounds (screen (snd (app fuel w))) <> None.
Proof.
  intros Hnav. unfold app, st_markdown.
  run1. run1.
  erewrite bind_done; [| apply sidebar_top_rated_run; exact Hnav].
  rewrite ?printed_printed. run1.
  unfold page_top_rated.
  rewrite bind_assoc. run1. rewrite bind_assoc. run1.
  match goal with
  | |- number_input_bounds (screen (snd (bind ?m ?k ?W))) <> None =>
      apply (preserves_bind
               (fun w' => number_input_bounds (screen w') <> None) m k)
  end.
  - apply preserves_top_rated_listing.
    + intros e _. apply show_keeps. intros l w0. apply number_input_bounds_keep.
    + apply favorite_button_keeps; auto.
      intros l w0. apply number_input_bounds_keep.
    + apply run_query_keeps; auto.
      intros l w0. apply number_input_bounds_keep.
  - intros _. apply preserves_bind; [| intros _];
      apply show_keeps; intros l w0; apply number_input_bounds_keep.
  - cbn [screen printed set_screen]. apply number_input_bounds_app.
    simpl. discriminate.
Qed.

Lemma run_once_ui w : ui (snd (run_once w)) = ui w.
Proof.
  unfold run_once. change (ui w) with (ui (set_screen [] w)).
  apply app_keeps_ui.
Qed.

Lemma run_script_ui w : ui (release (snd (run_script w))) = ui (release w).
Proof.
  unfold run_script. pose proof (run_once_ui w) as H.
  destruct (run_once w) as [[[] | e | |] w'] eqn:E; simpl in H;
    try (unfold release; simpl; rewrite H; reflexivity).
  pose proof (run_once_ui (release w')) as K.
  unfold release in *. simpl in *. rewrite K. simpl. rewrite H. reflexivity.
Qed.

Lemma run_script_top_rated w :
  nav (ui w) = TopRated ->
  number_input_bounds (screen (snd (run_script w))) <> None.
Proof.
  intros Hnav. unfold run_script. pose proof (run_once_ui w) as H.
  assert (forall w0, nav (ui w0) = TopRated ->
            number_input_bounds (screen (snd (run_once w0))) <> None) as Hin.
  { intros w0 H0. unfold run_once. apply app_top_rated_shows_input.
    exact H0. }
  pose proof (Hin w Hnav) as Hw.
  destruct (run_once w) as [[[] | e | |] w'] eqn:E; cbn [snd fst] in *;
    try exact Hw.
  apply Hin. unfold release. cbn [ui set_ui nav]. rewrite H. exact Hnav.
Qed.

Lemma nav_after_run w :
  nav (ui (release (settle (snd (run_script w))))) = nav (ui w).
Proof.
  change (nav (ui (release (snd (run_script w)))) = nav (ui (release w))).
  rewrite run_script_ui. reflexivity.
Qed.

Lemma page_entry_after_run w :
  nav (ui w) = TopRated ->
  page_entry (ui (release (settle (snd (run_script w))))) = page_entry (ui w).
Proof.
  intros Hnav. pose proof (run_script_top_rated w Hnav) as Hin.
  unfold release, settle; simpl.
  destruct (number_input_bounds (screen (snd (run_script w)))); [| congruence].
  change (page_entry (ui (release (snd (run_script w))))
          = page_entry (ui (release w))).
  rewrite run_script_ui. reflexivity.
Qed.

Lemma reachable_top_rated_input w :
  reachable w -> nav (ui w) = TopRated ->
  number_input_bounds (screen w) = Some (1, 100).
Proof.
  intros Hr Hnav.
  assert (number_input_bounds (screen w) <> None) as Hin.
  { clear - Hr Hnav. induction Hr as [shared now year net Hc | ev w Hr IH].
    - rewrite nav_after_run in Hnav. discriminate.
    - assert (forall w0,
                nav (ui (release (settle (snd (run_script w0))))) = TopRated ->
                number_input_bounds
                  (screen (release (settle (snd (run_script w0))))) <> None)
        as Hrun.
      { intros w0 H0. rewrite nav_after_run in H0.
        exact (run_script_top_rated w0 H0). }
      destruct ev as [p | s | i | i | v | key | seconds];
        try (exact (Hrun _ Hnav)).
      cbn [step] in *. destruct (0 <=? seconds); auto. }
  destruct (reachable_ok w Hr) as (_ & Hs & _).
  destruct (number_input_bounds (screen w)) as [[lo hi] |] eqn:E;
    [| congruence].
  destruct (bounds_on_screen _ _ _ Hs E) as [-> ->]. reflexivity.
Qed.

Lemma enter_page_result w v :
  reachable w -> nav (ui w) = TopRated ->
  current_page (step (EnterPage v) w) =
  if (1 <=? v) && (v <=? 100) then v else current_page w.
Proof.
  intros Hr Hnav. cbn [step]. unfold current_page at 1.
  rewrite page_entry_after_run; [| exact Hnav].
  cbn [ui set_ui react page_entry].
  rewrite (reachable_top_rated_input w Hr Hnav).
  destruct ((1 <=? v) && (v <=? 100)); reflexivity.
Qed.

Lemma press_keeps_page w key :
  nav (ui w) = TopRated ->
  current_page (step (Press key) w) = current_page w.
Proof.
  intros Hnav. cbn [step]. unfold current_page.
  rewrite page_entry_after_run; [reflexivity | exact Hnav].
Qed.

(** C5.  On the top-rated page of a session: the page number read by
    the script lies between 1 and 100, a number entered in the input is
    taken when it lies between 1 and 100 and ignored otherwise; the page
    calls [fetch_top_anime] with that page and limit 25, issues no other
    request, and prints a warning, or the cards followed by the
    pagination controls; pressing "previous" (offered from page 2 on) or
    "next" ends the run with a request to run again; no run changes the
    widgets, and after the press and the run that follows the page number
    is what it was. *)
Theorem top_rated_page_behaviour (w w1 : world) (data : json)
    (items : list json) (v : Z) (key : text) :
  reachable w ->
  nav (ui w) = TopRated ->
  run_query (QTop (current_page w) 25) (printed top_rated_head w)
    = (Done data, w1) ->
  results_of data = Some items ->
  1 <= current_page w <= 100
  /\ current_page (step (EnterPage v) w) =
       (if (1 <=? v) && (v <=? 100) then v else current_page w)
  /\ page_top_rated w =
       match items with
       | [] =>
           (Done tt,
            printed [WarningBox [Lit "Unable to load top anime data."]] w1)
       | _ :: _ =>
           (for_each items display_anime_card ;;
            pagination_controls (current_page w))
             (printed [SuccessBox [Lit "Showing top anime - Page ";
                                   Str (JInt (current_page w))]] w1)
       end
  /\ requests (snd (page_top_rated w)) = requests w1
  /\ (forall w',
        pagination_controls (current_page w) w' =
        if 1 <? current_page w then
          if is_pressed prev_key w'
          then (Rerun, printed [Columns 3; prev_button] w')
          else if is_pressed next_key w'
               then (Rerun, printed [Columns 3; prev_button; next_button] w')
               else (Done tt,
                     printed [Columns 3; prev_button; next_button] w')
        else
          if is_pressed next_key w'
          then (Rerun, printed [Columns 3; next_button] w')
          else (Done tt, printed [Columns 3; next_button] w'))
  /\ ui (snd (page_top_rated w)) = ui w
  /\ current_page (step (Press key) w) = current_page w.
Proof.
  intros Hr Hnav Hfetch Hres.
  refine (conj _ (conj (enter_page_result w v Hr Hnav)
            (conj (page_top_rated_run _ _ _ _ Hfetch Hres)
               (conj _ (conj (pagination_controls_run _)
                  (conj (page_top_rated_keeps_ui w)
                     (press_keeps_page w key Hnav))))))).
  - apply (reachable_ok w Hr).
  - rewrite page_top_rated_requests, Hfetch. reflexivity.
Qed.

Lemma top_rated_world_reachable : reachable top_rated_world.
Proof.
  unfold top_rated_world, opened_world, online_world.
  apply reach_step. apply reach_step. apply reach_open. constructor.
Defined.

Lemma top_rated_page_behaviour_witness :
  current_page top_rated_world = 2
  /\ current_page (step (EnterPage 500) top_rated_world) = 2
  /\ current_page (step (EnterPage 100) top_rated_world) = 100
  /\ fst (run_once (set_ui (react (Press next_key) top_rated_world)
                      top_rated_world)) = Rerun
  /\ current_page (step (Press next_key) top_rated_world) = 2.
Proof.
  assert (nav (ui top_rated_world) = TopRated) as Hnav
    by (vm_compute; reflexivity).
  assert (current_page top_rated_world = 2) as Hpage
    by (vm_compute; reflexivity).
  assert (run_query (QTop (current_page top_rated_world) 25)
            (printed top_rated_head top_rated_world)
          = (Done sample_payload,
             snd (run_query (QTop 2 25)
                    (printed top_rated_head top_rated_world)))) as Hfetch
    by (vm_compute; reflexivity).
  pose proof (fun v key =>
    top_rated_page_behaviour top_rated_world
      (snd (run_query (QTop 2 25) (printed top_rated_head top_rated_world)))
      sample_payload [sample_item] v key
      top_rated_world_reachable Hnav Hfetch eq_refl) as H.
  destruct (H 500 next_key) as (_ & H500 & _ & _ & _ & _ & Hpress).
  destruct (H 100 next_key) as (_ & H100 & _).
  split; [exact Hpage |].
  split; [rewrite H500; exact Hpage |].
  split; [rewrite H100; reflexivity |].
  split; [vm_compute; reflexivity |].
  rewrite Hpress. exact Hpage.
Defined.


(** ** The card, block by block *)

Lemma printed_nil w : printed [] w = w.
Proof.
  destruct w. unfold printed, set_screen. simpl. rewrite app_nil_r.
  reflexivity.
Qed.

Lemma ret_printed {A} (a : A) w : ret a w = (Done a, printed [] w).
Proof. rewrite printed_nil. reflexivity. Qed.

Lemma card_image_run fields w :
  image_shape fields = true ->
  exists l, card_image (JObj fields) w = (Done tt, printed l w)
            /\ forallb is_image l = true.
Proof.
  unfold image_shape, dict_or_absent, card_image, py_get, py_item, py, bind,
    ret, when, show.
  destruct (lookup "images" fields) as [[| | | | | | im] |] eqn:Ei;
    try discriminate; simpl.
  - destruct (lookup "jpg" im) as [[| | | | | | j] |] eqn:Ej;
      try discriminate; intros _; simpl.
    + destruct (lookup "large_image_url" j) as [u |] eqn:Eu; simpl.
      * destruct (truthy u) eqn:Et; simpl.
        -- exists [Image u]. split; reflexivity.
        -- exists []. rewrite printed_nil. split; reflexivity.
      * exists []. rewrite printed_nil. split; reflexivity.
    + exists []. rewrite printed_nil. split; reflexivity.
  - intros _. exists []. rewrite printed_nil. split; reflexivity.
Qed.

Lemma card_title_run fields w :
  exists l,
    card_title (JObj fields) w =
    (Done (field_or "title" (JStr "Unknown Title") fields),
     printed (title_line (field_or "title" (JStr "Unknown Title") fields) :: l)
       w)
    /\ forallb plain l = true.
Proof.
  unfold card_title, st_markdown, py_get, py_item, field_or.
  run1. run1. run1.
  destruct (lookup "title_english" fields) as [t |] eqn:Et.
  - destruct (truthy t) eqn:Ht.
    + exists [Markdown [Lit "*"; Str t; Lit "*"]]. split; [| reflexivity].
      erewrite bind_done;
        [| unfold when; erewrite bind_done; [| reflexivity]; apply show_run].
      rewrite printed_printed. reflexivity.
    + exists []. split; [| reflexivity]. reflexivity.
  - exists []. split; [| reflexivity]. reflexivity.
Qed.

Lemma card_metrics_run fields w :
  card_metrics (JObj fields) w =
  (Done tt, printed (Columns 4 :: metrics_row fields) w).
Proof.
  unfold card_metrics, py_get, metrics_row, field_or.
  run1. run1. run1. run1. run1. run1. run1. run1.
  rewrite show_run, printed_printed. reflexivity.
Qed.

Lemma named_names l :
  forallb named l = true ->
  exists ns, comprehension (fun g => py_item g "name") l = inl (map JStr ns).
Proof.
  induction l as [| g l IH]; simpl.
  - exists []. reflexivity.
  - intros H. apply andb_true_iff in H. destruct H as [Hg Hl].
    destruct (IH Hl) as [ns Hns]. rewrite Hns.
    destruct g as [| | | | | | f]; try discriminate. simpl in *.
    destruct (lookup "name" f) as [[| | | | s | |] |]; try discriminate.
    exists (s :: ns). reflexivity.
Qed.

Lemma py_join_strings sep ns : exists s, py_join sep (map JStr ns) = inl s.
Proof.
  induction ns as [| n ns IH]; simpl.
  - eauto.
  - destruct IH as [s Hs]. destruct (map JStr ns) eqn:E; [eauto |].
    rewrite Hs. eauto.
Qed.

Lemma card_genres_run fields w :
  genres_shape fields = true ->
  exists l, card_genres (JObj fields) w = (Done tt, printed l w)
            /\ forallb plain l = true.
Proof.
  unfold genres_shape, card_genres, st_markdown, py_get, py_item.
  run1.
  destruct (lookup "genres" fields) as [g |] eqn:Eg.
  - destruct (truthy g) eqn:Ht; cbn [negb orb].
    + destruct g as [| | | | | l |]; try discriminate. intros Hn.
      destruct (named_names _ Hn) as [ns Hns].
      destruct (py_join_strings " • " ns) as [s Hs].
      exists [Markdown [Lit "**Genres:**"]; Markdown [Lit "🏷️ "; Str (JStr s)]].
      split; [| reflexivity]. unfold when. unfold py_item in Hns.
      run1. run1. run1. run1.
      erewrite bind_done; [| unfold py; rewrite Hns; reflexivity].
      erewrite bind_done; [| unfold py; rewrite Hs; reflexivity].
      rewrite show_run, printed_printed. reflexivity.
    + intros _. exists []. split; [| reflexivity]. rewrite printed_nil.
      reflexivity.
  - intros _. exists []. split; [| reflexivity]. rewrite printed_nil.
    reflexivity.
Qed.

Lemma card_synopsis_run fields w :
  exists l, card_synopsis (JObj fields) w = (Done tt, printed l w)
            /\ forallb plain l = true.
Proof.
  unfold card_synopsis, py_get, py_item.
  run1.
  destruct (lookup "synopsis" fields) as [s |] eqn:Es.
  - destruct (truthy s) eqn:Ht; simpl.
    + exists [Expander "📖 Synopsis"; Write s]. split; [| reflexivity].
      run1. run1. rewrite show_run, printed_printed. reflexivity.
    + exists []. split; [| reflexivity]. rewrite printed_nil. reflexivity.
  - exists []. split; [| reflexivity]. rewrite printed_nil. reflexivity.
Qed.

Lemma favorite_button_screen anime_id title w :
  exists l, screen (snd (favorite_button anime_id title w))
            = (screen w ++ l)%list
            /\ forallb plain l = true.
Proof.
  rewrite favorite_button_run.
  destruct (is_pressed (fav_key anime_id) w);
    [destruct (py_in anime_id (favorites w)) |];
    eexists; split; reflexivity.
Qed.

Lemma favorite_button_done anime_id title w :
  favorite_button anime_id title w
  = (Done tt, snd (favorite_button anime_id title w)).
Proof. rewrite favorite_button_run. reflexivity. Qed.

Lemma card_actions_run fields title w :
  trailer_shape fields = true ->
  exists l,
    card_actions (JObj fields) title w =
    (Done tt,
     printed l (snd (favorite_button (field_or "mal_id" JNull fields) title
                       (printed [Columns 3] w))))
    /\ forallb plain l = true.
Proof.
  unfold trailer_shape, dict_or_absent, card_actions, py_get, py_item,
    field_or.
  intros Hshape. run1. run1.
  erewrite bind_done; [| apply favorite_button_done].
  set (W := snd (favorite_button _ title (printed [Columns 3] w))).
  run1.
  assert (exists l1,
            when (truthy match lookup "url" fields with
                         | Some v => v
                         | None => JNull
                         end)
              (u <- py match lookup "url" fields with
                       | Some v => inl v
                       | None => inr (KeyError "url")
                       end ;;
               show (LinkButton "🔗 View on MyAnimeList" u)) W
            = (Done tt, printed l1 W) /\ forallb plain l1 = true)
    as (l1 & E1 & P1).
  { destruct (lookup "url" fields) as [u |].
    - destruct (truthy u).
      + exists [LinkButton "🔗 View on MyAnimeList" u]. split; reflexivity.
      + exists []. rewrite printed_nil. split; reflexivity.
    - exists []. rewrite printed_nil. split; reflexivity. }
  erewrite bind_done; [| exact E1].
  destruct (lookup "trailer" fields) as [[| | | | | | t] |] eqn:Et;
    try discriminate.
  - run1. run1.
    destruct (lookup "url" t) as [u |] eqn:Eu.
    + destruct (truthy u) eqn:Hu.
      * exists (l1 ++ [LinkButton "🎬 Watch Trailer" u])%list. split.
        -- unfold when. run1. erewrite bind_done;
             [| unfold py; rewrite Eu; reflexivity].
           rewrite show_run, printed_printed. reflexivity.
        -- rewrite forallb_app, P1. reflexivity.
      * exists l1. split; [reflexivity | exact P1].
    + exists l1. split; [reflexivity | exact P1].
  - run1. run1. exists l1. split; [reflexivity | exact P1].
Qed.

Lemma plain_filters l :
  forallb plain l = true ->
  filter is_metric l = [] /\ filter is_card l = [].
Proof.
  induction l as [| e l IH]; simpl; [auto |].
  intros H. apply andb_true_iff in H. destruct H as [He Hl].
  destruct (IH Hl) as [-> ->]. unfold plain in He.
  apply andb_true_iff in He. destruct He as [H1 H2].
  apply negb_true_iff in H1, H2. rewrite H1, H2. auto.
Qed.

Lemma images_plain l : forallb is_image l = true -> forallb plain l = true.
Proof.
  induction l as [| e l IH]; simpl; [auto |].
  intros H. apply andb_true_iff in H. destruct H as [He Hl].
  rewrite (IH Hl). destruct e; try discriminate. reflexivity.
Qed.

(** The card as far as the metadata row: it is printed whenever the image
    block reads dicts, whatever the later blocks do. *)
Lemma card_head_printed fields w :
  image_shape fields = true ->
  exists img tl rest,
    screen (snd (display_anime_card (JObj fields) w)) =
      (screen w ++ [Container; Columns 2] ++ img ++
       title_line (field_or "title" (JStr "Unknown Title") fields) :: tl ++
       Columns 4 :: metrics_row fields ++ rest)%list
    /\ forallb is_image img = true
    /\ forallb plain tl = true.
Proof.
  intros Hi. unfold display_anime_card.
  destruct (card_image_run fields (printed [Container; Columns 2] w) Hi)
    as (img & Eimg & Pimg).
  run1. run1. erewrite bind_done; [| exact Eimg]. rewrite printed_printed.
  match goal with
  | |- context [bind (card_title _) _ ?W] =>
      destruct (card_title_run fields W) as (tl & Etl & Ptl)
  end.
  erewrite bind_done; [| exact Etl]. rewrite printed_printed.
  erewrite bind_done; [| apply card_metrics_run]. rewrite printed_printed.
  exists img, tl.
  match goal with
  | |- context [bind ?m ?k (printed ?l w)] =>
      assert (exists rest,
                screen (snd (bind m k (printed l w)))
                = (screen (printed l w) ++ rest)%list) as (rest & Er)
  end.
  { match goal with
    | |- exists rest, screen (snd (bind ?m ?k ?W)) = _ =>
        apply (preserves_bind
                 (fun w' => exists rest,
                      screen w' = (screen W ++ rest)%list) m k)
    end.
    - apply preserves_card_genres.
      intros e _. apply show_keeps. intros l0 w0 [r Hr]. simpl. rewrite Hr.
      rewrite <- app_assoc. eauto.
    - intros _. apply preserves_bind; [| intros _; apply preserves_bind].
      + apply preserves_card_synopsis.
        intros e _. apply show_keeps. intros l0 w0 [r Hr]. simpl. rewrite Hr.
        rewrite <- app_assoc. eauto.
      + apply preserves_card_actions.
        * intros e _. apply show_keeps. intros l0 w0 [r Hr]. simpl.
          rewrite Hr. rewrite <- app_assoc. eauto.
        * apply favorite_button_keeps; auto.
          intros l0 w0 [r Hr]. simpl. rewrite Hr.
          rewrite <- app_assoc. eauto.
      + intros _. apply show_keeps. intros l0 w0 [r Hr]. simpl. rewrite Hr.
        rewrite <- app_assoc. eauto.
    - exists []. rewrite app_nil_r. reflexivity. }
  exists rest. split; [| split; [exact Pimg | exact Ptl]].
  rewrite Er. cbn [screen printed set_screen].
  repeat (rewrite <- ?app_assoc; cbn [app]). reflexivity.
Qed.

(** The whole card, when every block finds the shapes it reads. *)
Lemma display_anime_card_run fields w :
  image_shape fields = true ->
  genres_shape fields = true ->
  trailer_shape fields = true ->
  fst (display_anime_card (JObj fields) w) = Done tt
  /\ exists l,
       screen (snd (display_anime_card (JObj fields) w)) = (screen w ++ l)%list
       /\ cards l = 1%nat
       /\ filter is_metric l = metrics_row fields
       /\ In (title_line (field_or "title" (JStr "Unknown Title") fields)) l.
Proof.
  intros Hi Hg Ht. unfold display_anime_card.
  destruct (card_image_run fields (printed [Container; Columns 2] w) Hi)
    as (img & Eimg & Pimg).
  run1. run1. erewrite bind_done; [| exact Eimg]. rewrite printed_printed.
  match goal with
  | |- context [bind (card_title _) _ ?W] =>
      destruct (card_title_run fields W) as (tl & Etl & Ptl)
  end.
  erewrite bind_done; [| exact Etl]. rewrite printed_printed.
  erewrite bind_done; [| apply card_metrics_run]. rewrite printed_printed.
  match goal with
  | |- context [bind (card_genres _) _ ?W] =>
      destruct (card_genres_run fields W Hg) as (gl & Egl & Pgl)
  end.
  erewrite bind_done; [| exact Egl]. rewrite printed_printed.
  match goal with
  | |- context [bind (card_synopsis _) _ ?W] =>
      destruct (card_synopsis_run fields W) as (sl & Esl & Psl)
  end.
  erewrite bind_done; [| exact Esl]. rewrite printed_printed.
  match goal with
  | |- context [bind (card_actions _ ?t) _ ?W] =>
      destruct (card_actions_run fields t W Ht) as (al & Eal & Pal)
  end.
  erewrite bind_done; [| exact Eal].
  rewrite show_run, printed_printed. split; [reflexivity |].
  match goal with
  | |- context [favorite_button ?i ?t ?W] =>
      destruct (favorite_button_screen i t W) as (bl & Ebl & Pbl)
  end.
  cbn [snd screen printed set_screen]. rewrite Ebl.
  cbn [screen printed set_screen].
  apply images_plain in Pimg.
  destruct (plain_filters _ Pimg) as [Mi Ci].
  destruct (plain_filters _ Ptl) as [Mt Ct].
  destruct (plain_filters _ Pgl) as [Mg Cg].
  destruct (plain_filters _ Psl) as [Ms Cs].
  destruct (plain_filters _ Pal) as [Ma Ca].
  destruct (plain_filters _ Pbl) as [Mb Cb].
  eexists. split.
  - repeat (rewrite <- ?app_assoc; cbn [app]). reflexivity.
  - unfold cards.
    repeat (rewrite ?filter_app; cbn [filter is_card is_metric app]).
    rewrite Mi, Ci, Mt, Ct, Mg, Cg, Ms, Cs, Ma, Ca, Mb, Cb.
    unfold metrics_row. cbn [filter is_metric is_card app List.length].
    split; [reflexivity |]. split; [reflexivity |].
    apply in_cons. apply in_cons. apply in_or_app. right. apply in_eq.
Qed.

Lemma metrics_row_na fields : no_metrics fields -> metrics_row fields = na_metrics.
Proof.
  intros (H1 & H2 & H3 & H4). unfold metrics_row, field_or.
  rewrite H1, H2, H3, H4. reflexivity.
Qed.








(** ** Python's [==] on decoded JSON is an equivalence *)

Lemma json_induction (P : json -> Prop) :
  P JNull -> (forall b, P (JBool b)) -> (forall z, P (JInt z)) ->
  (forall q, P (JFloat q)) -> (forall s, P (JStr s)) ->
  (forall l, Forall P l -> P (JArr l)) ->
  (forall kv, Forall (fun p => P (snd p)) kv -> P (JObj kv)) ->
  forall j, P j.
Proof.
  intros Hnull Hbool Hint Hfloat Hstr Harr Hobj.
  fix IH 1. intros [| b | z | q | s | l | kv].
  - exact Hnull.
  - apply Hbool.
  - apply Hint.
  - apply Hfloat.
  - apply Hstr.
  - apply Harr. induction l as [| x l IHl]; constructor; [apply IH | exact IHl].
  - apply Hobj. induction kv as [| [k x] kv IHkv]; constructor;
      [apply IH | exact IHkv].
Qed.

Lemma Qeq_bool_sym p q : Qeq_bool p q = Qeq_bool q p.
Proof.
  destruct (Qeq_bool p q) eqn:E1, (Qeq_bool q p) eqn:E2; try reflexivity.
  - apply Qeq_bool_iff in E1. symmetry in E1. apply Qeq_bool_iff in E1.
    congruence.
  - apply Qeq_bool_iff in E2. symmetry in E2. apply Qeq_bool_iff in E2.
    congruence.
Qed.

Lemma Qeq_bool_trans p q r :
  Qeq_bool p q = true -> Qeq_bool q r = true -> Qeq_bool p r = true.
Proof.
  rewrite !Qeq_bool_iff. intros H1 H2. rewrite H1. exact H2.
Qed.

Lemma forall2b_refl {A} (f : A -> A -> bool) l :
  Forall (fun x => f x x = true) l -> forall2b f l l = true.
Proof.
  induction 1 as [| x l Hx Hl IH]; simpl; [reflexivity |].
  rewrite Hx, IH. reflexivity.
Qed.

Lemma forall2b_sym {A} (f : A -> A -> bool) xs :
  Forall (fun x => forall y, f x y = f y x) xs ->
  forall ys, forall2b f xs ys = forall2b f ys xs.
Proof.
  induction 1 as [| x xs Hx Hxs IH]; intros [| y ys]; simpl; try reflexivity.
  rewrite Hx, IH. reflexivity.
Qed.

Lemma forall2b_trans {A} (f : A -> A -> bool) xs :
  Forall (fun x => forall y z, f x y = true -> f y z = true -> f x z = true)
    xs ->
  forall ys zs, forall2b f xs ys = true -> forall2b f ys zs = true ->
                forall2b f xs zs = true.
Proof.
  induction 1 as [| x xs Hx Hxs IH]; intros [| y ys] [| z zs]; simpl;
    try discriminate; auto.
  intros H1 H2. apply andb_true_iff in H1, H2.
  destruct H1 as [Hxy Hl1], H2 as [Hyz Hl2].
  rewrite (Hx _ _ Hxy Hyz), (IH _ _ Hl1 Hl2). reflexivity.
Qed.

Lemma py_eq_refl a : py_eq a a = true.
Proof.
  induction a as [| b | z | q | s | l IH | kv IH] using json_induction;
    simpl; try reflexivity.
  - apply Qeq_bool_iff. reflexivity.
  - apply Qeq_bool_iff. reflexivity.
  - apply Qeq_bool_iff. reflexivity.
  - apply String.eqb_refl.
  - apply forall2b_refl. exact IH.
  - apply forall2b_refl. apply Forall_impl with (2 := IH).
    intros [k x] H. simpl in *. rewrite String.eqb_refl, H. reflexivity.
Qed.

Lemma py_eq_sym a : forall b, py_eq a b = py_eq b a.
Proof.
  induction a as [| b | z | q | s | l IH | kv IH] using json_induction;
    intros [| b' | z' | q' | s' | l' | kv']; simpl; try reflexivity;
    try apply Qeq_bool_sym.
  - apply String.eqb_sym.
  - apply forall2b_sym. exact IH.
  - apply forall2b_sym. apply Forall_impl with (2 := IH).
    intros [k x] H [k' y]. simpl in *.
    rewrite String.eqb_sym, H. reflexivity.
Qed.

Lemma py_eq_trans a :
  forall b c, py_eq a b = true -> py_eq b c = true -> py_eq a c = true.
Proof.
  induction a as [| b | z | q | s | l IH | kv IH] using json_induction;
    intros [| b' | z' | q' | s' | l' | kv'] [| b'' | z'' | q'' | s'' | l'' | kv''];
    simpl; try discriminate; auto;
    try (apply Qeq_bool_trans).
  - intros H1 H2. apply String.eqb_eq in H1, H2. subst. apply String.eqb_refl.
  - apply forall2b_trans. exact IH.
  - apply forall2b_trans. apply Forall_impl with (2 := IH).
    intros [k x] H [k' y] [k'' z]. simpl in *. intros H1 H2.
    apply andb_true_iff in H1, H2.
    destruct H1 as [K1 E1], H2 as [K2 E2].
    apply String.eqb_eq in K1, K2. subst.
    rewrite String.eqb_refl, (H _ _ E1 E2). reflexivity.
Qed.

(** ** The favourites *)

Lemma py_in_app x l l' : py_in x (l ++ l') = py_in x l || py_in x l'.
Proof. unfold py_in. apply existsb_app. Qed.

Lemma py_in_last x l : py_in x (l ++ [x]) = true.
Proof.
  rewrite py_in_app. simpl. rewrite py_eq_refl, orb_true_r. reflexivity.
Qed.

Lemma distinct_app_new l x :
  distinct l -> py_in x l = false -> distinct (l ++ [x]).
Proof.
  induction l as [| e l IH]; simpl.
  - auto.
  - intros [He Hl] Hx. apply orb_false_iff in Hx. destruct Hx as [Hex Hxl].
    split; [| auto].
    rewrite py_in_app, He. simpl. rewrite py_eq_sym, Hex. reflexivity.
Qed.

Lemma py_in_remove x y l l' :
  py_remove x l = Some l' -> py_in y l = false -> py_in y l' = false.
Proof.
  revert l'. induction l as [| e l IH]; simpl; [discriminate |].
  intros l' Hr Hy. apply orb_false_iff in Hy. destruct Hy as [Hey Hyl].
  destruct (py_eq e x).
  - inversion Hr; subst. exact Hyl.
  - destruct (py_remove x l) as [l0 |]; [| discriminate].
    inversion Hr; subst. simpl. rewrite Hey. simpl. apply (IH l0); auto.
Qed.

Lemma py_in_equal e x l : py_eq e x = true -> py_in e l = py_in x l.
Proof.
  intros Eex. induction l as [| y l IH]; simpl; [reflexivity |].
  rewrite IH. f_equal.
  destruct (py_eq y x) eqn:Eyx.
  - apply (py_eq_trans y x e Eyx). rewrite py_eq_sym. exact Eex.
  - destruct (py_eq y e) eqn:Eye; [| reflexivity].
    rewrite (py_eq_trans y e x Eye Eex) in Eyx. discriminate.
Qed.

Lemma distinct_remove x l l' :
  distinct l -> py_remove x l = Some l' ->
  distinct l' /\ py_in x l' = false.
Proof.
  revert l'. induction l as [| e l IH]; simpl; [discriminate |].
  intros l' [He Hl] Hr. destruct (py_eq e x) eqn:Eex.
  - inversion Hr; subst. split; [exact Hl |].
    (* nothing after [e] equals [x], or it would equal [e] *)
    rewrite <- (py_in_equal e x l' Eex). exact He.
  - destruct (py_remove x l) as [l0 |] eqn:El; [| discriminate].
    inversion Hr; subst. destruct (IH l0 Hl eq_refl) as [Hd Hx].
    split.
    + simpl. split; [| exact Hd]. apply (py_in_remove x e l l0 El He).
    + simpl. rewrite Eex, Hx. reflexivity.
Qed.

Lemma add_to_favorites_run anime_id title w :
  add_to_favorites anime_id title w =
  if py_in anime_id (favorites w)
  then (Done tt, printed [already_notice] w)
  else (Done tt,
        printed [added_notice title]
          (set_favorites (favorites w ++ [anime_id]) w)).
Proof.
  unfold add_to_favorites, append_favorite, st_success, st_info, bind,
    get_world, show.
  destruct (py_in anime_id (favorites w)); reflexivity.
Qed.

Lemma app_keeps_distinct fuel :
  preserves (fun w => distinct (favorites w)) (app fuel).
Proof.
  apply preserves_app.
  - intros e _. apply show_keeps. auto.
  - intros anime_id title w H. rewrite favorite_button_run.
    destruct (is_pressed (fav_key anime_id) w); [| exact H].
    destruct (py_in anime_id (favorites w)) eqn:E; [exact H |].
    simpl. apply distinct_app_new; assumption.
  - apply run_query_keeps; auto.
  - intros anime_id w H. rewrite remove_button_run.
    destruct (is_pressed (remove_key anime_id) w); [| exact H].
    destruct (py_remove anime_id (favorites w)) as [f |] eqn:E; [| exact H].
    simpl. apply (distinct_remove _ _ _ H E).
  - intros w H. rewrite clear_button_run.
    destruct (is_pressed clear_key w); [exact I | exact H].
Qed.

Lemma run_script_distinct w :
  distinct (favorites w) -> distinct (favorites (snd (run_script w))).
Proof.
  intros H.
  assert (forall w0, distinct (favorites w0) ->
                     distinct (favorites (snd (run_once w0)))) as Hrun.
  { intros w0 H0. unfold run_once. apply app_keeps_distinct. exact H0. }
  unfold run_script. pose proof (Hrun w H) as H1.
  destruct (run_once w) as [[[] | e | |] w'] eqn:E; cbn [snd] in *;
    try exact H1.
  apply Hrun. exact H1.
Qed.

Lemma favorites_release_settle w :
  favorites (release (settle w)) = favorites w.
Proof. reflexivity. Qed.

(** No state of a session has a favourite twice. *)
Lemma reachable_distinct w : reachable w -> distinct (favorites w).
Proof.
  induction 1 as [shared now year net Hc | ev w Hr IH].
  - rewrite favorites_release_settle. apply run_script_distinct. exact I.
  - destruct ev as [p | s | i | i | v | key | seconds]; cbn [step];
      try (rewrite favorites_release_settle; apply run_script_distinct;
           exact IH).
    destruct (0 <=? seconds); exact IH.
Qed.

(** C2.  In every state of a session no two favourites are equal.
    Adding an identifier that is already there prints "Already in
    favorites!" and leaves the world as it was, list included; adding one
    that is not there appends it and prints the confirmation; a second
    add of the same identifier is of the first kind, so that two adds end
    with the list one add gives.  Removing an identifier leaves a list
    without it, to which an add appends it again; removing one that is not
    there is possible only when it is not in the list. *)
Theorem favorites_without_duplicates (w : world) (anime_id title : json) :
  reachable w ->
  distinct (favorites w)
  /\ add_to_favorites anime_id title w =
       (if py_in anime_id (favorites w)
        then (Done tt, printed [already_notice] w)
        else (Done tt,
              printed [added_notice title]
                (set_favorites (favorites w ++ [anime_id]) w)))
  /\ add_to_favorites anime_id title (snd (add_to_favorites anime_id title w))
     = (Done tt,
        printed [already_notice] (snd (add_to_favorites anime_id title w)))
  /\ distinct (favorites (snd (add_to_favorites anime_id title w)))
  /\ match py_remove anime_id (favorites w) with
     | Some l =>
         remove_favorite anime_id w = (Done tt, set_favorites l w)
         /\ py_in anime_id l = false
         /\ favorites (snd (add_to_favorites anime_id title
                              (snd (remove_favorite anime_id w))))
            = (l ++ [anime_id])%list
     | None => py_in anime_id (favorites w) = false
     end.
Proof.
  intros Hr. pose proof (reachable_distinct w Hr) as Hd.
  split; [exact Hd |].
  split; [apply add_to_favorites_run |].
  split; [| split].
  - rewrite (add_to_favorites_run anime_id title
               (snd (add_to_favorites anime_id title w))).
    rewrite (add_to_favorites_run anime_id title w).
    destruct (py_in anime_id (favorites w)) eqn:E; cbn [snd].
    + cbn [favorites printed set_screen]. rewrite E. reflexivity.
    + cbn [favorites printed set_screen set_favorites].
      rewrite py_in_last. reflexivity.
  - rewrite add_to_favorites_run.
    destruct (py_in anime_id (favorites w)) eqn:E; cbn [snd]; [exact Hd |].
    apply distinct_app_new; assumption.
  - unfold remove_favorite.
    destruct (py_remove anime_id (favorites w)) as [l |] eqn:E.
    + destruct (distinct_remove _ _ _ Hd E) as [_ Hx].
      split; [reflexivity |]. split; [exact Hx |].
      cbn [snd]. rewrite add_to_favorites_run.
      cbn [favorites set_favorites]. rewrite Hx. reflexivity.
    + clear - E. induction (favorites w) as [| e l IH]; [reflexivity |].
      simpl in *. destruct (py_eq e anime_id); [discriminate |].
      destruct (py_remove anime_id l); [discriminate |]. auto.
Qed.

Lemma saved_world_reachable : reachable saved_world.
Proof.
  unfold saved_world, opened_world, online_world.
  apply reach_step. apply reach_open. constructor.
Defined.

Lemma favorites_without_duplicates_witness :
  favorites saved_world = [JInt 1]
  /\ add_to_favorites (JInt 1) (JStr "A") saved_world
     = (Done tt, printed [already_notice] saved_world)
  /\ favorites (snd (add_to_favorites (JInt 1) (JStr "A")
                       (snd (remove_favorite (JInt 1) saved_world))))
     = [JInt 1].
Proof.
  assert (favorites saved_world = [JInt 1]) as Hf by (vm_compute; reflexivity).
  destruct (favorites_without_duplicates saved_world (JInt 1) (JStr "A")
              saved_world_reachable) as (_ & H2 & _ & _ & H5).
  rewrite Hf in H2, H5. cbn [py_in existsb py_eq num_value orb py_remove] in H2, H5.
  change (Qeq_bool (inject_Z 1) (inject_Z 1)) with true in H2, H5.
  cbn iota in H2, H5.
  destruct H5 as (_ & _ & H5).
  split; [exact Hf |]. split; [exact H2 | exact H5].
Defined.

(** C10.  Adding an identifier that is not in the list puts it at the
    end: the list after the add is the list before followed by the
    identifier, so every identifier that was stored is still at its
    position.  The button adds when it is the one pressed and the
    identifier is not there, and leaves the list alone otherwise. *)
Theorem new_favorite_goes_last (w : world) (anime_id title : json) :
  py_in anime_id (favorites w) = false ->
  add_to_favorites anime_id title w =
    (Done tt,
     printed [added_notice title]
       (set_favorites (favorites w ++ [anime_id]) w))
  /\ favorites (snd (add_to_favorites anime_id title w))
     = (favorites w ++ [anime_id])%list
  /\ (forall i x,
        nth_error (favorites w) i = Some x ->
        nth_error (favorites (snd (add_to_favorites anime_id title w))) i
        = Some x)
  /\ nth_error (favorites (snd (add_to_favorites anime_id title w)))
       (List.length (favorites w)) = Some anime_id
  /\ favorites (snd (favorite_button anime_id title w))
     = (if is_pressed (fav_key anime_id) w
        then (favorites w ++ [anime_id])%list
        else favorites w).
Proof.
  intros Hnew. rewrite add_to_favorites_run, Hnew. cbn [snd].
  split; [reflexivity |]. split; [reflexivity |].
  cbn [favorites printed set_screen set_favorites].
  split; [| split].
  - intros i x Hx. rewrite nth_error_app1; [exact Hx |].
    apply nth_error_Some. congruence.
  - rewrite nth_error_app2, Nat.sub_diag; [reflexivity | lia].
  - rewrite favorite_button_run, Hnew.
    destruct (is_pressed (fav_key anime_id) w); reflexivity.
Qed.

Lemma new_favorite_goes_last_witness :
  favorites (snd (add_to_favorites (JInt 2) (JStr "B") saved_world))
  = [JInt 1; JInt 2].
Proof.
  assert (favorites saved_world = [JInt 1]) as Hf by (vm_compute; reflexivity).
  assert (py_in (JInt 2) (favorites saved_world) = false) as Hnew
    by (rewrite Hf; reflexivity).
  destruct (new_favorite_goes_last saved_world (JInt 2) (JStr "B") Hnew)
    as (_ & H & _).
  rewrite H, Hf. reflexivity.
Defined.


(** ** The loop of the favourites page comes to an end *)

Lemma finishes_ret {A} (a : A) : finishes (ret a).
Proof. intros w. discriminate. Qed.

Lemma finishes_raise {A} (e : exn) : finishes (@raise A e).
Proof. intros w. discriminate. Qed.

Lemma finishes_py {A} (r : res A) : finishes (py r).
Proof. destruct r; intros w; discriminate. Qed.

Lemma finishes_get_world : finishes get_world.
Proof. intros w. discriminate. Qed.

Lemma finishes_rerun {A} : finishes (@st_rerun A).
Proof. intros w. discriminate. Qed.

Lemma finishes_show e : finishes (show e).
Proof. intros w. discriminate. Qed.

Lemma finishes_bind {A B} (m : M A) (k : A -> M B) :
  finishes m -> (forall a, finishes (k a)) -> finishes (bind m k).
Proof.
  intros Hm Hk w. unfold bind. specialize (Hm w).
  destruct (m w) as [[a | e | |] w']; simpl in *; try discriminate.
  - apply Hk.
  - congruence.
Qed.

Lemma finishes_when b (m : M unit) : finishes m -> finishes (when b m).
Proof. destruct b; simpl; auto using finishes_ret. Qed.

Lemma finishes_for_each {A} (l : list A) (body : A -> M unit) :
  (forall x, finishes (body x)) -> finishes (for_each l body).
Proof.
  intros Hb. induction l as [| x l IH]; simpl.
  - apply finishes_ret.
  - apply finishes_bind; auto.
Qed.

Lemma finishes_run_query k : finishes (run_query k).
Proof.
  intros w. destruct (run_query_returns k w) as [v Hv]. rewrite Hv.
  discriminate.
Qed.

Lemma finishes_set_favorites l :
  finishes (fun w => (Done tt, set_favorites l w)).
Proof. intros w. discriminate. Qed.

Lemma finishes_remove_favorite anime_id : finishes (remove_favorite anime_id).
Proof.
  intros w. unfold remove_favorite.
  destruct (py_remove anime_id (favorites w)); discriminate.
Qed.

Lemma finishes_append_favorite anime_id : finishes (append_favorite anime_id).
Proof. intros w. discriminate. Qed.

#[local] Hint Resolve finishes_ret finishes_raise finishes_py
  finishes_get_world finishes_rerun finishes_show finishes_bind
  finishes_when finishes_for_each finishes_set_favorites
  finishes_remove_favorite finishes_append_favorite : script.

Ltac finish :=
  unfold st_error, st_warning, st_success, st_info, st_markdown, st_button,
    st_radio, st_selectbox, st_text_input, st_number_input;
  auto 60 with script.

Lemma finishes_add_to_favorites anime_id title :
  finishes (add_to_favorites anime_id title).
Proof.
  unfold add_to_favorites. apply finishes_bind; [finish |]. intros w.
  destruct (negb (py_in anime_id (favorites w))); finish.
Qed.

Lemma finishes_card anime : finishes (display_anime_card anime).
Proof.
  pose proof finishes_add_to_favorites.
  unfold display_anime_card, card_image, card_title, card_metrics,
    card_genres, card_synopsis, card_actions, favorite_button. finish.
Qed.

Lemma finishes_has_data data : finishes (has_data data).
Proof. unfold has_data. destruct (truthy data); finish. Qed.

Lemma finishes_display_all data : finishes (display_all data).
Proof. unfold display_all. auto 20 using finishes_card with script. Qed.

Lemma finishes_favorites_item anime_id : finishes (favorites_item anime_id).
Proof.
  pose proof finishes_card. pose proof finishes_has_data.
  pose proof (finishes_run_query (QDetails anime_id)) as Hq. simpl in Hq.
  unfold favorites_item, remove_button. finish.
Qed.

Lemma is_pressed_true key w :
  is_pressed key w = true -> pressed (ui w) = Some key.
Proof.
  unfold is_pressed. destruct (pressed (ui w)) as [k |]; [| discriminate].
  destruct (text_eq_dec k key); [congruence | discriminate].
Qed.

Lemma py_remove_length x l l' :
  py_remove x l = Some l' -> List.length l = S (List.length l').
Proof.
  revert l'. induction l as [| e l IH]; simpl; [discriminate |].
  intros l'. destruct (py_eq e x).
  - intros H. inversion H. reflexivity.
  - destruct (py_remove x l) as [l0 |]; [| discriminate].
    intros H. inversion H. simpl. rewrite (IH l0 eq_refl). reflexivity.
Qed.

Lemma bounded_printed n l w : bounded n w -> bounded n (printed l w).
Proof. intros H. exact H. Qed.

Lemma favorite_button_bounded n anime_id title :
  preserves (bounded n) (favorite_button anime_id title).
Proof.
  intros w H. rewrite favorite_button_run.
  destruct (is_pressed (fav_key anime_id) w) eqn:Ep; [| exact H].
  destruct (py_in anime_id (favorites w)) eqn:Ein; [exact H |].
  apply is_pressed_true in Ep.
  unfold bounded, pending in *. cbn [snd favorites ui printed set_screen
    set_favorites] in *.
  rewrite Ep in *. unfold fav_key in *. cbn [String.eqb] in *.
  change (("fav_" =? "fav_")%string) with true in *.
  rewrite Ein in H. rewrite py_in_last. rewrite length_app. simpl in *. lia.
Qed.

Lemma remove_button_bounded n anime_id :
  preserves (bounded n) (remove_button anime_id).
Proof.
  intros w H. rewrite remove_button_run.
  destruct (is_pressed (remove_key anime_id) w) eqn:Ep; [| exact H].
  destruct (py_remove anime_id (favorites w)) as [f |] eqn:Er; [| exact H].
  apply is_pressed_true in Ep. apply py_remove_length in Er.
  unfold bounded, pending in *. cbn [snd favorites ui printed set_screen
    set_favorites] in *.
  rewrite Ep in *. unfold remove_key in *.
  change (("remove_" =? "fav_")%string) with false in *.
  simpl in *. lia.
Qed.

Lemma clear_button_bounded n : preserves (bounded n) clear_button.
Proof.
  intros w H. rewrite clear_button_run.
  destruct (is_pressed clear_key w) eqn:Ep; [| exact H].
  apply is_pressed_true in Ep.
  unfold bounded, pending in *. cbn [snd favorites ui printed set_screen
    set_favorites] in *.
  rewrite Ep in *. unfold clear_key in *. simpl. lia.
Qed.

Lemma favorites_item_bounded n anime_id :
  preserves (bounded n) (favorites_item anime_id).
Proof.
  apply preserves_favorites_item.
  - intros e _. apply show_keeps. auto.
  - apply favorite_button_bounded.
  - apply run_query_keeps; auto.
  - apply remove_button_bounded.
Qed.

(** With the favourites bounded by [n], a loop at position [i] that is
    given more than [n - i] steps comes to its end. *)
Lemma favorites_loop_finishes fuel :
  forall i n w,
    bounded n w -> (i <= n)%nat -> (n < i + fuel)%nat ->
    fst (favorites_loop fuel i w) <> Unfinished.
Proof.
  induction fuel as [| fuel IH]; intros i n w Hb Hi Hn; [lia |].
  simpl. unfold bind at 1. cbn [get_world].
  destruct (nth_error (favorites w) i) as [anime_id |] eqn:Ei;
    [| discriminate].
  assert (i < List.length (favorites w))%nat as Hlt
    by (apply nth_error_Some; congruence).
  pose proof (favorites_item_bounded n anime_id w Hb) as Hb'.
  pose proof (finishes_favorites_item anime_id w) as Hf.
  unfold bind.
  destruct (favorites_item anime_id w) as [[[] | e | |] w'];
    cbn [fst snd] in *; try discriminate; try congruence.
  apply (IH (S i) n w' Hb'); unfold bounded in Hb; lia.
Qed.

Lemma finishes_sidebar : finishes sidebar.
Proof.
  unfold sidebar.
  apply finishes_bind; [finish |]. intros _.
  apply finishes_bind; [finish |]. intros _.
  apply finishes_bind; [finish |]. intros page.
  apply finishes_bind; [finish |]. intros _.
  apply finishes_bind; [| finish].
  destruct page; finish.
Qed.

Lemma finishes_listing (header : M unit) (k : query) (rest : json -> M unit) :
  finishes header -> (forall data, finishes (rest data)) ->
  finishes (header ;; data <- run_query k ;; rest data).
Proof.
  intros Hh Hr. apply finishes_bind; [exact Hh |]. intros _.
  apply finishes_bind; [apply finishes_run_query | exact Hr].
Qed.

Lemma finishes_len_data data : finishes (len_data data).
Proof. unfold len_data. finish. Qed.

Lemma finishes_page_home : finishes page_home.
Proof.
  pose proof finishes_display_all. pose proof finishes_has_data.
  unfold page_home.
  apply finishes_bind; [finish |]. intros _.
  apply finishes_bind; [finish |]. intros _.
  apply finishes_bind; [apply (finishes_run_query (QTop 1 10)) |].
  intros data. apply finishes_bind; [finish |]. intros [|]; finish.
Qed.

Lemma finishes_page_search : finishes page_search.
Proof.
  pose proof finishes_display_all. pose proof finishes_has_data.
  pose proof finishes_len_data.
  unfold page_search.
  apply finishes_bind; [finish |]. intros _.
  apply finishes_bind; [finish |]. intros q.
  destruct (truthy (JStr q)); [| finish].
  apply finishes_bind; [finish |]. intros _.
  apply finishes_bind; [apply (finishes_run_query (QSearch q)) |].
  intros data. apply finishes_bind; [finish |]. intros [|]; finish.
Qed.

Lemma finishes_page_seasonal year season :
  finishes (page_seasonal year season).
Proof.
  pose proof finishes_display_all. pose proof finishes_has_data.
  pose proof finishes_len_data.
  unfold page_seasonal.
  apply finishes_bind; [finish |]. intros cap.
  apply finishes_bind; [finish |]. intros _.
  apply finishes_bind.
  - destruct season; try finish.
    apply (finishes_run_query (QSeasonal year s)).
  - intros data. apply finishes_bind; [finish |]. intros [|]; finish.
Qed.

Lemma finishes_page_top_rated : finishes page_top_rated.
Proof.
  pose proof finishes_display_all. pose proof finishes_has_data.
  unfold page_top_rated, top_rated_listing, pagination_controls.
  apply finishes_bind; [finish |]. intros _.
  apply finishes_bind; [finish |]. intros n.
  apply finishes_bind; [apply (finishes_run_query (QTop n 25)) |].
  intros data. apply finishes_bind; [finish |]. intros [|]; finish.
Qed.

Lemma page_favorites_finishes fuel w :
  (S (List.length (favorites w)) < fuel)%nat ->
  fst (page_favorites fuel w) <> Unfinished.
Proof.
  intros Hfuel. unfold page_favorites, st_success, st_info.
  run1. run1. cbn [favorites printed set_screen].
  destruct (truthy (JArr (favorites w))).
  - run1. unfold bind.
    pose proof (clear_button_bounded (S (List.length (favorites w)))
                  (printed [Header [Lit "❤️ Your Favorite Anime"];
                            SuccessBox [Lit "You have ";
                              Str (JInt (Z.of_nat (List.length (favorites w))));
                              Lit " favorites"]] w)) as Hb.
    rewrite clear_button_run in *.
    destruct (is_pressed clear_key _); [discriminate |].
    cbn [fst snd] in *.
    apply (favorites_loop_finishes fuel 0 (S (List.length (favorites w))));
      [| lia | lia].
    apply Hb. unfold bounded, pending. cbn [favorites ui printed set_screen].
    destruct (pressed (ui w)) as [[| [s | v | e] [| [s' | v' | e'] [|]]] |];
      try lia.
    destruct ((s =? "fav_")%string && negb (py_in v' (favorites w))); lia.
  - run1. apply finishes_bind; finish.
Qed.

(** A run of the script never stops for lack of steps. *)
Lemma run_once_finishes w : fst (run_once w) <> Unfinished.
Proof.
  unfold run_once, app, st_markdown.
  run1. run1. unfold bind at 1.
  pose proof (finishes_sidebar
                (printed [PageConfig "Anime Hub"; Markdown [Lit custom_css]]
                   (set_screen [] w))) as Hs.
  assert (favorites (snd (sidebar
            (printed [PageConfig "Anime Hub"; Markdown [Lit custom_css]]
               (set_screen [] w)))) = favorites w) as Hfav.
  { apply (preserves_sidebar (fun w' => favorites w' = favorites w)).
    - intros e _. apply show_keeps. auto.
    - reflexivity. }
  destruct (sidebar _) as [[[page filters] | e | |] w1];
    cbn [fst snd] in *; try discriminate; try congruence.
  run1. unfold bind at 1.
  assert (fst (match page with
               | Home => page_home
               | Search => page_search
               | Seasonal =>
                   match filters with
                   | Some (year, season) => page_seasonal year season
                   | None => raise (NameError "season")
                   end
               | TopRated => page_top_rated
               | Favorites =>
                   page_favorites (S (S (List.length (favorites w))))
               end (printed [Title [Lit "🎌 Anime Hub - Your Anime Discovery Platform"]] w1))
          <> Unfinished) as Hpage.
  { destruct page.
    - apply finishes_page_home.
    - apply finishes_page_search.
    - destruct filters as [[y s] |];
        [apply finishes_page_seasonal | discriminate].
    - apply finishes_page_top_rated.
    - apply page_favorites_finishes. cbn [favorites printed set_screen].
      rewrite Hfav. lia. }
  match type of Hpage with
  | fst ?m <> _ => destruct m as [[[] | e | |] w2]
  end; cbn [fst snd] in *; try discriminate; try congruence.
Qed.


(** ** A run that no button caused asks for no other run *)

Create HintDb calm.

Lemma calm_bind {A B} (m : M A) (k : A -> M B) :
  calm m -> (forall a, calm (k a)) -> calm (bind m k).
Proof.
  intros Hm Hk w Hw. unfold bind. destruct (Hm w Hw) as [H1 H2].
  destruct (m w) as [[a | e | |] w']; simpl in *;
    try (split; [discriminate | exact H2]).
  - apply Hk. exact H2.
  - congruence.
Qed.

Lemma calm_intro {A} (m : M A) :
  (forall w, idle w -> fst (m w) <> Rerun) -> preserves idle m -> calm m.
Proof. intros H1 H2 w Hw. split; [apply H1 | apply H2]; exact Hw. Qed.

Lemma calm_ret {A} (a : A) : calm (ret a).
Proof. intros w Hw. split; [discriminate | exact Hw]. Qed.

Lemma calm_raise {A} (e : exn) : calm (@raise A e).
Proof. intros w Hw. split; [discriminate | exact Hw]. Qed.

Lemma calm_py {A} (r : res A) : calm (py r).
Proof. destruct r; [apply calm_ret | apply calm_raise]. Qed.

Lemma calm_show e : calm (show e).
Proof. intros w Hw. split; [discriminate | exact Hw]. Qed.

Lemma calm_get_world : calm get_world.
Proof. intros w Hw. split; [discriminate | exact Hw]. Qed.

Lemma calm_run_query k : calm (run_query k).
Proof.
  apply calm_intro.
  - intros w _. destruct (run_query_returns k w) as [v Hv].
    rewrite Hv. discriminate.
  - apply run_query_keeps; auto.
Qed.

Lemma calm_favorite_button anime_id title :
  calm (favorite_button anime_id title).
Proof.
  apply calm_intro.
  - intros w _. rewrite favorite_button_run. discriminate.
  - apply favorite_button_keeps; auto.
Qed.

Lemma is_pressed_idle key w : idle w -> is_pressed key w = false.
Proof. unfold idle, is_pressed. intros ->. reflexivity. Qed.

Lemma calm_remove_button anime_id : calm (remove_button anime_id).
Proof.
  apply calm_intro.
  - intros w Hw. rewrite remove_button_run, (is_pressed_idle _ _ Hw).
    discriminate.
  - apply remove_button_keeps; auto.
Qed.

Lemma calm_clear_button : calm clear_button.
Proof.
  apply calm_intro.
  - intros w Hw. rewrite clear_button_run, (is_pressed_idle _ _ Hw).
    discriminate.
  - apply clear_button_keeps; auto.
Qed.

Lemma calm_button label key : calm (st_button label key).
Proof. intros w Hw. split; [discriminate | exact Hw]. Qed.

Lemma calm_rerun_button label key :
  calm (b <- st_button label key ;; when b st_rerun).
Proof.
  intros w Hw. unfold st_button, bind, show, get_world, ret, when. simpl.
  change (is_pressed key _) with (is_pressed key w).
  rewrite (is_pressed_idle _ _ Hw). split; [discriminate | exact Hw].
Qed.

Lemma calm_pagination_controls n : calm (pagination_controls n).
Proof.
  apply calm_intro.
  - intros w Hw. rewrite pagination_controls_run.
    rewrite !(is_pressed_idle _ _ Hw). destruct (1 <? n); discriminate.
  - apply preserves_pagination_controls. intros e _. apply show_keeps. auto.
Qed.

Lemma calm_when b (m : M unit) : calm m -> calm (when b m).
Proof. destruct b; simpl; auto using calm_ret. Qed.

Lemma calm_for_each {A} (l : list A) (body : A -> M unit) :
  (forall x, calm (body x)) -> calm (for_each l body).
Proof.
  intros Hb. induction l as [| x l IH]; simpl.
  - apply calm_ret.
  - apply calm_bind; auto.
Qed.

#[local] Hint Resolve calm_bind calm_ret calm_raise calm_py calm_show
  calm_get_world calm_favorite_button calm_remove_button calm_clear_button
  calm_pagination_controls calm_when calm_for_each : calm.

Ltac quiet :=
  unfold st_error, st_warning, st_success, st_info, st_markdown,
    st_radio, st_selectbox, st_text_input, st_number_input;
  auto 60 with calm.

Lemma calm_card anime : calm (display_anime_card anime).
Proof.
  unfold display_anime_card, card_image, card_title, card_metrics,
    card_genres, card_synopsis, card_actions. quiet.
Qed.

Lemma calm_has_data data : calm (has_data data).
Proof. unfold has_data. destruct (truthy data); quiet. Qed.

Lemma calm_len_data data : calm (len_data data).
Proof. unfold len_data. quiet. Qed.

Lemma calm_display_all data : calm (display_all data).
Proof. unfold display_all. auto 20 using calm_card with calm. Qed.

#[local] Hint Resolve calm_card calm_has_data calm_len_data calm_display_all
  : calm.

Lemma calm_favorites_loop fuel : forall i, calm (favorites_loop fuel i).
Proof.
  induction fuel as [| fuel IH]; intros i; simpl.
  - intros w Hw. split; [discriminate | exact Hw].
  - apply calm_bind; [quiet |]. intros w.
    destruct (nth_error (favorites w) i) as [anime_id |]; [| quiet].
    apply calm_bind; [| auto].
    unfold favorites_item.
    apply calm_bind; [quiet |]. intros _.
    apply calm_bind; [apply (calm_run_query (QDetails anime_id)) |].
    intros details. quiet.
Qed.

Lemma calm_app fuel : calm (app fuel).
Proof.
  unfold app.
  apply calm_bind; [quiet |]. intros _.
  apply calm_bind; [quiet |]. intros _.
  apply calm_bind.
  { unfold sidebar.
    apply calm_bind; [quiet |]. intros _.
    apply calm_bind; [quiet |]. intros _.
    apply calm_bind; [quiet |]. intros page.
    apply calm_bind; [quiet |]. intros _.
    apply calm_bind; [| quiet]. destruct page; quiet. }
  intros [page filters].
  apply calm_bind; [quiet |]. intros _.
  apply calm_bind; [| quiet].
  destruct page.
  - unfold page_home.
    apply calm_bind; [quiet |]. intros _.
    apply calm_bind; [quiet |]. intros _.
    apply calm_bind; [apply (calm_run_query (QTop 1 10)) |]. intros data.
    apply calm_bind; [quiet |]. intros [|]; quiet.
  - unfold page_search.
    apply calm_bind; [quiet |]. intros _.
    apply calm_bind; [quiet |]. intros q.
    destruct (truthy (JStr q)); [| quiet].
    apply calm_bind; [quiet |]. intros _.
    apply calm_bind; [apply (calm_run_query (QSearch q)) |]. intros data.
    apply calm_bind; [quiet |]. intros [|]; quiet.
  - destruct filters as [[year season] |]; [| quiet].
    unfold page_seasonal.
    apply calm_bind; [quiet |]. intros cap.
    apply calm_bind; [quiet |]. intros _.
    apply calm_bind.
    + destruct season; try quiet.
      apply (calm_run_query (QSeasonal year s)).
    + intros data. apply calm_bind; [quiet |]. intros [|]; quiet.
  - unfold page_top_rated, top_rated_listing.
    apply calm_bind; [quiet |]. intros _.
    apply calm_bind; [quiet |]. intros n.
    apply calm_bind; [apply (calm_run_query (QTop n 25)) |]. intros data.
    apply calm_bind; [quiet |]. intros [|]; quiet.
  - unfold page_favorites.
    apply calm_bind; [quiet |]. intros _.
    apply calm_bind; [quiet |]. intros w.
    destruct (truthy (JArr (favorites w))).
    + apply calm_bind; [quiet |]. intros _.
      apply calm_bind; [quiet |]. intros _. apply calm_favorites_loop.
    + apply calm_bind; [quiet |]. intros _. apply calm_rerun_button.
Qed.

(** The run that [st.rerun()] asks for asks for no further one: a run
    and at most one more settle every event. *)
Lemma run_script_settles w : fst (run_script w) <> Rerun.
Proof.
  unfold run_script.
  destruct (run_once w) as [[[] | e | |] w'] eqn:E; try discriminate.
  unfold run_once. apply calm_app. reflexivity.
Qed.


(** ** The home page *)



(** ** The fetch functions, for every answer of the network *)

(** X2.  A call that is not served from the cache issues one GET and
    returns, whatever the network does: the decoded body when the status
    is outside 400..599 and the body is JSON, and otherwise [None] after
    printing one error box with the exception of the transport, of
    [raise_for_status] or of [response.json()]. *)
Theorem fetch_answers_every_outcome (k : query) (w : world) :
  cache_hit 3600 (clock w) k (cache w) = None ->
  fst (run_query k w) =
    Done match received (network w (List.length (requests w)) (url_of k)) with
         | inl j => j
         | inr _ => JNull
         end
  /\ screen (snd (run_query k w)) =
       (screen w ++
        match received (network w (List.length (requests w)) (url_of k)) with
        | inl _ => []
        | inr e => [error_box k e]
        end)%list
  /\ requests (snd (run_query k w)) =
       (requests w ++ [{| r_url := url_of k; r_timeout := 10 |}])%list
  /\ received (Responded 200 None) = inr JSONDecodeError
  /\ (forall c, received (ConnectionFailed c) = inr (ConnectionError c))
  /\ received TimedOut = inr Timeout
  /\ (forall s b, 400 <= s < 600 -> received (Responded s b) = inr (HTTPError s))
  /\ (forall s j, s < 400 \/ 600 <= s ->
                  received (Responded s (Some j)) = inl j).
Proof.
  intros Hmiss. rewrite (run_query_miss _ _ Hmiss).
  refine (conj _ (conj _ (conj _ (conj eq_refl (conj (fun c => eq_refl)
            (conj eq_refl (conj _ _))))))).
  - destruct (received _); reflexivity.
  - destruct (received _); simpl; [rewrite app_nil_r |]; reflexivity.
  - destruct (received _); reflexivity.
  - intros s b Hs. simpl.
    assert ((400 <=? s) && (s <? 600) = true) as ->
      by (apply andb_true_iff; split; [apply Z.leb_le | apply Z.ltb_lt]; lia).
    reflexivity.
  - intros s j Hs. simpl.
    assert ((400 <=? s) && (s <? 600) = false) as ->.
    { apply andb_false_iff. destruct Hs as [Hs | Hs];
        [left; apply Z.leb_gt | right; apply Z.ltb_ge]; lia. }
    reflexivity.
Qed.

Lemma fetch_answers_every_outcome_witness :
  fst (run_query (QSearch "Naruto") online_world) = Done sample_payload
  /\ fst (run_query (QSearch "Naruto") offline_world) = Done JNull.
Proof.
  split.
  - exact (proj1 (fetch_answers_every_outcome (QSearch "Naruto") online_world
                    eq_refl)).
  - exact (proj1 (fetch_answers_every_outcome (QSearch "Naruto") offline_world
                    eq_refl)).
Defined.


(** ** What the cache keeps *)

(** X3.  A failure is memoised like a payload: after a call that went to
    the network and failed, every call with the same arguments made less
    than 3600 seconds later, while the cache holds the entry, returns
    [None] and prints the same error box again without asking the
    network, whatever the network would answer by then. *)
Theorem failure_is_memoised (k : query) (w w2 : world) (e : exn) :
  cache_hit 3600 (clock w) k (cache w) = None ->
  failure_of (network w (List.length (requests w)) (url_of k)) = Some e ->
  cache_find k (cache w2) = cache_find k (cache (snd (run_query k w))) ->
  clock w2 < clock w + 3600 ->
  run_query k w2 = (Done JNull, printed [error_box k e] w2)
  /\ requests (snd (run_query k w2)) = requests w2.
Proof.
  intros Hmiss Hfail Hheld Hage.
  rewrite (run_query_failure _ _ _ Hmiss Hfail) in Hheld.
  cbn [snd stored cache set_cache] in Hheld.
  rewrite cache_find_same in Hheld by reflexivity.
  rewrite (run_query_hit k w2 _ (cache_hit_fresh _ _ _ _ Hheld Hage)).
  split; reflexivity.
Qed.

Lemma failure_is_memoised_witness :
  fst (page_home recovered_world) = Done tt
  /\ fst (run_query (QTop 1 10) recovered_world) = Done JNull
  /\ requests (snd (run_query (QTop 1 10) recovered_world))
     = requests recovered_world.
Proof.
  assert (cache_find (QTop 1 10) (cache recovered_world)
          = cache_find (QTop 1 10)
              (cache (snd (run_query (QTop 1 10)
                             (new_session [] 0 2024
                                (net_down_then_up sample_payload))))))
    as Hheld by (vm_compute; reflexivity).
  assert (clock recovered_world < 0 + 3600) as Hage
    by (vm_compute; reflexivity).
  destruct (failure_is_memoised (QTop 1 10)
              (new_session [] 0 2024 (net_down_then_up sample_payload))
              recovered_world (ConnectionError "unreachable")
              eq_refl eq_refl Hheld Hage) as [H1 H2].
  split; [vm_compute; reflexivity |].
  split; [rewrite H1; reflexivity | exact H2].
Defined.




(** ** The blocks of the card *)

Lemma comprehension_names l :
  forallb named l = true ->
  comprehension (fun g => py_item g "name") l
  = inl (map JStr (map name_of l)).
Proof.
  induction l as [| g l IH]; simpl; [reflexivity |].
  intros H. apply andb_true_iff in H. destruct H as [Hg Hl].
  rewrite (IH Hl). destruct g as [| | | | | | f]; try discriminate.
  simpl in *. destruct (lookup "name" f) as [[| | | | s | |] |];
    try discriminate. reflexivity.
Qed.

Lemma py_join_concat sep ns :
  py_join sep (map JStr ns) = inl (String.concat sep ns).
Proof.
  induction ns as [| n ns IH]; [reflexivity |].
  destruct ns as [| n' ns]; [reflexivity |].
  change (py_join sep (map JStr (n :: n' :: ns)))
    with (match py_join sep (map JStr (n' :: ns)) with
          | inl r => inl (n ++ sep ++ r)
          | inr e => inr e
          end).
  rewrite IH. reflexivity.
Qed.

(** X5.  When [genres] is a non-empty list whose first five items are
    records with a string [name], the genre block prints the heading and
    one line with the names of the first five items, joined by " • ";
    what follows the fifth item is not looked at. *)
Theorem genres_show_first_five (fields : list (string * json))
    (gs : list json) (w : world) :
  lookup "genres" fields = Some (JArr gs) ->
  gs <> [] ->
  forallb named (firstn 5 gs) = true ->
  card_genres (JObj fields) w =
  (Done tt,
   printed [Markdown [Lit "**Genres:**"];
            Markdown [Lit "🏷️ ";
                      Str (JStr (String.concat " • "
                                   (map name_of (firstn 5 gs))))]] w).
Proof.
  intros Hg Hne Hn.
  unfold card_genres, st_markdown, py_get, py_item. rewrite Hg.
  run1.
  assert (truthy (JArr gs) = true) as ->
    by (destruct gs; [congruence | reflexivity]).
  pose proof (comprehension_names _ Hn) as Hc. unfold py_item in Hc.
  unfold when. run1. run1. run1. run1.
  erewrite bind_done; [| unfold py; rewrite Hc; reflexivity].
  erewrite bind_done; [| unfold py; rewrite py_join_concat; reflexivity].
  rewrite show_run, printed_printed. reflexivity.
Qed.

Lemma genres_show_first_five_witness :
  card_genres (JObj six_genres_item) online_world =
  (Done tt,
   printed [Markdown [Lit "**Genres:**"];
            Markdown [Lit "🏷️ ";
                      Str (JStr "Action • Adventure • Comedy • Drama • Fantasy")]]
     online_world).
Proof.
  refine (genres_show_first_five six_genres_item
           [genre "Action"; genre "Adventure"; genre "Comedy";
            genre "Drama"; genre "Fantasy"; JInt 0] online_world
           eq_refl _ eq_refl).
  discriminate.
Defined.

Lemma falsy_field k fields :
  falsy_or_absent k fields = true ->
  truthy match lookup k fields with Some v => v | None => JNull end = false.
Proof.
  unfold falsy_or_absent. destruct (lookup k fields) as [v |]; [| reflexivity].
  intros H. apply negb_true_iff in H. exact H.
Qed.



Lemma after_bind (P : world -> Prop) {A B} (m : M A) (k : A -> M B) w :
  P (snd (m w)) -> (forall a, preserves P (k a)) -> P (snd (bind m k w)).
Proof.
  intros Hm Hk. unfold bind.
  destruct (m w) as [[a | e | |] w']; simpl in *; auto. apply Hk. exact Hm.
Qed.

Ltac keeps_favorites :=
  repeat first
    [ apply preserves_bind; [| intros ?]
    | apply preserves_py | apply preserves_ret | apply preserves_when
    | apply show_keeps; intros ? ? H; exact H ].

Lemma is_pressed_printed key l w :
  is_pressed key (printed l w) = is_pressed key w.
Proof. reflexivity. Qed.

Lemma card_actions_favorites fields title w :
  favorites (snd (card_actions (JObj fields) title w)) =
  favorites (snd (favorite_button (field_or "mal_id" JNull fields) title
                    (printed [Columns 3] w))).
Proof.
  unfold card_actions, py_get. run1. run1.
  fold (field_or "mal_id" JNull fields).
  erewrite bind_done; [| apply favorite_button_done].
  set (W := snd (favorite_button _ title (printed [Columns 3] w))).
  match goal with
  | |- favorites (snd (?m W)) = _ =>
      assert (preserves (fun w' => favorites w' = favorites W) m) as Hk;
        [keeps_favorites | exact (Hk W eq_refl)]
  end.
Qed.




(** ** What only a button can do *)

Lemma app_idle_favorites fuel w :
  idle w -> favorites (snd (app fuel w)) = favorites w.
Proof.
  intros Hw.
  apply (preserves_app (fun w' => idle w' /\ favorites w' = favorites w));
    [.. | split; [exact Hw | reflexivity]].
  - intros e _. apply show_keeps. auto.
  - intros anime_id title w0 [Hi Hf]. rewrite favorite_button_run.
    rewrite (is_pressed_idle _ _ Hi). split; [exact Hi | exact Hf].
  - apply run_query_keeps; auto.
  - intros anime_id w0 [Hi Hf]. rewrite remove_button_run.
    rewrite (is_pressed_idle _ _ Hi). split; [exact Hi | exact Hf].
  - intros w0 [Hi Hf]. rewrite clear_button_run.
    rewrite (is_pressed_idle _ _ Hi). split; [exact Hi | exact Hf].
Qed.

Lemma run_script_idle w : idle w -> run_script w = run_once w.
Proof.
  intros Hw. unfold run_script.
  assert (fst (run_once w) <> Rerun) as H
    by (unfold run_once; apply calm_app; exact Hw).
  destruct (run_once w) as [[[] | e | |] w']; try reflexivity.
  exfalso. apply H. reflexivity.
Qed.

Lemma step_idle_favorites w0 :
  idle w0 ->
  favorites (release (settle (snd (run_script w0)))) = favorites w0.
Proof.
  intros Hw. rewrite favorites_release_settle, (run_script_idle _ Hw).
  unfold run_once.
  change (favorites w0) with (favorites (set_screen [] w0)).
  apply app_idle_favorites. exact Hw.
Qed.

(** X8.  Only a button changes the favourites: navigating, typing a
    query, choosing a year or a season, entering a page number and the
    passing of time leave the list as it is, whatever the pages print and
    whatever the network answers. *)
Theorem only_buttons_change_favorites (ev : event) (w : world) :
  (forall key, ev <> Press key) ->
  favorites (step ev w) = favorites w.
Proof.
  intros Hev.
  destruct ev as [p | s | i | i | v | key | seconds]; cbn [step];
    try (apply (step_idle_favorites (set_ui _ w)); reflexivity).
  - exfalso. apply (Hev key). reflexivity.
  - destruct (0 <=? seconds); reflexivity.
Qed.

Lemma only_buttons_change_favorites_witness :
  favorites (step (Navigate Favorites) saved_world) = [JInt 1].
Proof.
  assert (favorites saved_world = [JInt 1]) as Hf by (vm_compute; reflexivity).
  rewrite <- Hf.
  apply (only_buttons_change_favorites (Navigate Favorites) saved_world).
  discriminate.
Defined.

(** X9.  The script calls [st.rerun()] only in answer to a button:
    a run during which no button is down never asks for another run, so
    the script runs once; and the run that follows a rerun, for which the
    button is released, asks for no further one. *)
Theorem no_rerun_without_press (fuel : nat) (w : world) :
  idle w ->
  fst (app fuel w) <> Rerun
  /\ run_script w = run_once w
  /\ forall w0, fst (run_once (release w0)) <> Rerun.
Proof.
  intros Hw. refine (conj _ (conj _ _)).
  - apply calm_app. exact Hw.
  - apply run_script_idle. exact Hw.
  - intros w0. unfold run_once. apply calm_app. reflexivity.
Qed.

Lemma no_rerun_without_press_witness :
  fst (app 2 online_world) = Done tt.
Proof.
  destruct (no_rerun_without_press 2 online_world eq_refl) as [H _].
  destruct (fst (app 2 online_world)) as [[] | e | |] eqn:E;
    try reflexivity; try (exfalso; apply H; reflexivity);
    vm_compute in E; discriminate.
Defined.


(** ** The sidebar and the favourites page *)

Lemma sidebar_run w :
  sidebar w =
  (Done (nav (ui w), sidebar_filters w),
   printed (sidebar_screen (nav (ui w)) (today_year w)) w).
Proof.
  unfold sidebar_filters.
  destruct (nav (ui w)) eqn:Hnav;
    try (rewrite (sidebar_seasonal_run w Hnav); reflexivity);
    try (rewrite (sidebar_top_rated_run w Hnav); reflexivity);
    unfold sidebar, st_radio, st_markdown, st_info;
    run1; run1;
    (erewrite bind_done;
      [| erewrite bind_done; [| apply show_run];
         erewrite bind_done; [| apply get_world_run]; reflexivity ]);
    cbn [ui printed set_screen]; rewrite Hnav;
    rewrite ?printed_printed; run1; run1; run1; run1; run1; reflexivity.
Qed.

Lemma app_page fuel w :
  app fuel w =
  (match nav (ui w) with
   | Home => page_home
   | Search => page_search
   | Seasonal =>
       match sidebar_filters w with
       | Some (year, season) => page_seasonal year season
       | None => raise (NameError "season")
       end
   | TopRated => page_top_rated
   | Favorites => page_favorites fuel
   end ;;
   st_markdown [Lit "---"] ;;
   st_markdown [Lit footer_html])
    (printed (page_top (nav (ui w)) (today_year w)) w).
Proof.
  unfold app, st_markdown. run1. run1.
  erewrite bind_done; [| apply sidebar_run].
  rewrite ?printed_printed. run1. reflexivity.
Qed.

Lemma is_pressed_same key w :
  pressed (ui w) = Some key -> is_pressed key w = true.
Proof.
  intros H. unfold is_pressed. rewrite H.
  destruct (text_eq_dec key key); [reflexivity | congruence].
Qed.

Lemma page_favorites_empty fuel w :
  favorites w = [] ->
  page_favorites fuel w =
  (if is_pressed go_home_key w then Rerun else Done tt,
   printed [Header [Lit "❤️ Your Favorite Anime"];
            InfoBox [Lit "You haven't added any favorites yet! Browse anime and click '❤️ Add to Favorites' to save them here."];
            go_home_button] w).
Proof.
  intros Hf. unfold page_favorites, st_info, st_button.
  run1. run1. cbn [favorites printed set_screen]. rewrite Hf.
  cbn [truthy]. run1. rewrite bind_assoc. run1. rewrite bind_assoc. run1.
  run1. rewrite !is_pressed_printed.
  change (is_pressed [Lit "🏠 Go to Home"] w) with (is_pressed go_home_key w).
  destruct (is_pressed go_home_key w); reflexivity.
Qed.

Lemma app_empty_favorites fuel w :
  nav (ui w) = Favorites -> favorites w = [] ->
  app fuel w =
  if is_pressed go_home_key w
  then (Rerun, printed empty_favorites_page w)
  else (Done tt, printed (empty_favorites_page ++ footer) w).
Proof.
  intros Hnav Hf. rewrite app_page, Hnav. unfold st_markdown.
  unfold bind at 1. rewrite page_favorites_empty; [| exact Hf].
  rewrite !is_pressed_printed, printed_printed.
  destruct (is_pressed go_home_key w); [reflexivity |].
  run1. rewrite show_run, printed_printed. reflexivity.
Qed.

Lemma run_script_empty_favorites w :
  nav (ui w) = Favorites -> favorites w = [] ->
  run_script w =
  (Done tt,
   set_screen (empty_favorites_page ++ footer)
     (if is_pressed go_home_key w then release w else w)).
Proof.
  intros Hnav Hf. unfold run_script, run_once.
  rewrite (app_empty_favorites _ (set_screen [] w) Hnav Hf).
  change (is_pressed go_home_key (set_screen [] w))
    with (is_pressed go_home_key w).
  destruct (is_pressed go_home_key w); [| reflexivity].
  rewrite (app_empty_favorites _
             (set_screen [] (release (printed empty_favorites_page
                                        (set_screen [] w)))) Hnav Hf).
  reflexivity.
Qed.

(** X10.  With nothing saved, the favourites page prints its header, the
    prompt and the "Go to Home" button, and makes no request.  Pressing
    that button only runs the script again: the session stays on the
    favourites page and shows the same page. *)
Theorem go_home_button_stays (fuel : nat) (w : world) :
  nav (ui w) = Favorites -> favorites w = [] ->
  app fuel w =
    (if is_pressed go_home_key w
     then (Rerun, printed empty_favorites_page w)
     else (Done tt, printed (empty_favorites_page ++ footer) w))
  /\ requests (snd (app fuel w)) = requests w
  /\ nav (ui (step (Press go_home_key) w)) = Favorites
  /\ screen (step (Press go_home_key) w) = (empty_favorites_page ++ footer)%list
  /\ favorites (step (Press go_home_key) w) = []
  /\ requests (step (Press go_home_key) w) = requests w.
Proof.
  intros Hnav Hf.
  pose proof (app_empty_favorites fuel w Hnav Hf) as Happ.
  split; [exact Happ |]. split.
  { rewrite Happ. destruct (is_pressed go_home_key w); reflexivity. }
  cbn [step].
  rewrite (run_script_empty_favorites (set_ui (react (Press go_home_key) w) w)
             Hnav Hf).
  rewrite (is_pressed_same go_home_key
             (set_ui (react (Press go_home_key) w) w) eq_refl).
  cbn [snd]. auto.
Qed.

Lemma go_home_button_stays_witness :
  nav (ui (step (Press go_home_key) empty_favorites_world)) = Favorites
  /\ screen (step (Press go_home_key) empty_favorites_world)
     = (empty_favorites_page ++ footer)%list.
Proof.
  assert (nav (ui empty_favorites_world) = Favorites) as Hnav
    by (vm_compute; reflexivity).
  assert (favorites empty_favorites_world = []) as Hf
    by (vm_compute; reflexivity).
  destruct (go_home_button_stays 0 empty_favorites_world Hnav Hf)
    as (_ & _ & H1 & H2 & _).
  exact (conj H1 H2).
Defined.

Lemma page_favorites_clear fuel w :
  favorites w <> [] -> is_pressed clear_key w = true ->
  page_favorites fuel w =
  (Rerun,
   printed [Header [Lit "❤️ Your Favorite Anime"];
            SuccessBox [Lit "You have ";
                        Str (JInt (Z.of_nat (List.length (favorites w))));
                        Lit " favorites"];
            clear_btn] (set_favorites [] w)).
Proof.
  intros Hf Hp. unfold page_favorites, st_success.
  run1. run1. cbn [favorites printed set_screen].
  destruct (favorites w) as [| x l] eqn:E; [congruence |].
  cbn [truthy]. run1.
  unfold bind. rewrite clear_button_run, is_pressed_printed, Hp.
  unfold printed, set_screen, set_favorites. simpl.
  rewrite <- app_assoc. reflexivity.
Qed.

Lemma run_script_clear w :
  nav (ui w) = Favorites -> favorites w <> [] ->
  pressed (ui w) = Some clear_key ->
  run_script w =
  (Done tt,
   set_screen (empty_favorites_page ++ footer)
     (set_favorites [] (release w))).
Proof.
  intros Hnav Hf Hp. unfold run_script, run_once.
  rewrite app_page.
  change (nav (ui (set_screen [] w))) with (nav (ui w)).
  rewrite Hnav. unfold bind at 1.
  rewrite page_favorites_clear;
    [| exact Hf | apply is_pressed_same; exact Hp].
  match goal with
  | |- context [app ?f (set_screen [] (release ?W))] =>
      rewrite (app_empty_favorites f (set_screen [] (release W)) Hnav eq_refl)
  end.
  reflexivity.
Qed.

(** X11.  On the favourites page, "Clear All Favorites" empties the
    list and runs the script again without fetching anything: the session
    is then left on the empty favourites page, with its prompt and the
    "Go to Home" button, and the cache is as it was. *)
Theorem clear_all_empties (w : world) :
  nav (ui w) = Favorites -> favorites w <> [] ->
  favorites (step (Press clear_key) w) = []
  /\ screen (step (Press clear_key) w) = (empty_favorites_page ++ footer)%list
  /\ requests (step (Press clear_key) w) = requests w
  /\ cache (step (Press clear_key) w) = cache w
  /\ nav (ui (step (Press clear_key) w)) = Favorites.
Proof.
  intros Hnav Hf. cbn [step].
  rewrite (run_script_clear (set_ui (react (Press clear_key) w) w)
             Hnav Hf eq_refl).
  cbn [snd].
  split; [reflexivity |]. split; [reflexivity |].
  split; [reflexivity |]. split; [reflexivity | exact Hnav].
Qed.

Lemma clear_all_empties_witness :
  favorites favorites_world = [JInt 1]
  /\ favorites (step (Press clear_key) favorites_world) = [].
Proof.
  assert (nav (ui favorites_world) = Favorites) as Hnav
    by (vm_compute; reflexivity).
  assert (favorites favorites_world = [JInt 1]) as Hf
    by (vm_compute; reflexivity).
  split; [exact Hf |].
  refine (proj1 (clear_all_empties favorites_world Hnav _)).
  rewrite Hf. discriminate.
Defined.


(** ** Removing a favourite *)

Lemma py_in_nth y l : forall i x,
  nth_error l i = Some x -> py_in y l = false -> py_eq x y = false.
Proof.
  induction l as [| e l IH]; intros [| i] x Hn Hy; simpl in *;
    try discriminate; apply orb_false_iff in Hy; destruct Hy as [He Hl].
  - inversion Hn; subst. exact He.
  - exact (IH i x Hn Hl).
Qed.

Lemma py_remove_nth l : forall i x,
  distinct l -> nth_error l i = Some x ->
  py_remove x l = Some (firstn i l ++ skipn (S i) l)%list.
Proof.
  induction l as [| e l IH]; intros [| i] x Hd Hn; simpl in *;
    try discriminate; destruct Hd as [He Hl].
  - inversion Hn; subst. rewrite py_eq_refl. reflexivity.
  - rewrite py_eq_sym, (py_in_nth e l i x Hn He).
    rewrite (IH i x Hl Hn). reflexivity.
Qed.

(** X12.  In the loop of the favourites page, over a list without
    duplicates, the "Remove from Favorites" button of the entry at
    position [i] takes out exactly that entry, keeps the others in their
    order, and ends the run with a rerun: [list.remove] never raises
    [ValueError] there. *)
Theorem remove_takes_its_own_entry (w : world) (i : nat) (anime_id : json) :
  distinct (favorites w) ->
  nth_error (favorites w) i = Some anime_id ->
  is_pressed (remove_key anime_id) w = true ->
  remove_button anime_id w =
  (Rerun,
   printed [remove_btn anime_id]
     (set_favorites
        (firstn i (favorites w) ++ skipn (S i) (favorites w))%list w)).
Proof.
  intros Hd Hn Hp. rewrite remove_button_run, Hp.
  rewrite (py_remove_nth _ _ _ Hd Hn). reflexivity.
Qed.

Lemma remove_takes_its_own_entry_witness :
  favorites
    (snd (remove_button (JInt 2)
            (pressing (remove_key (JInt 2))
               (set_favorites [JInt 1; JInt 2; JInt 3] online_world))))
  = [JInt 1; JInt 3].
Proof.
  rewrite (remove_takes_its_own_entry
             (pressing (remove_key (JInt 2))
                (set_favorites [JInt 1; JInt 2; JInt 3] online_world))
             1 (JInt 2)).
  - reflexivity.
  - vm_compute. auto.
  - reflexivity.
  - vm_compute. reflexivity.
Defined.

(** ** How far one run can change the favourites *)

Lemma pending_le_1 w : (pending w <= 1)%nat.
Proof.
  unfold pending.
  destruct (pressed (ui w)) as [[| [s | v | e] [| [s' | v' | e'] [|]]] |];
    try lia.
  destruct ((s =? "fav_")%string && negb (py_in v' (favorites w))); lia.
Qed.

Lemma app_bounded n fuel : preserves (bounded n) (app fuel).
Proof.
  apply preserves_app.
  - intros e _. apply show_keeps. auto.
  - apply favorite_button_bounded.
  - apply run_query_keeps; auto.
  - apply remove_button_bounded.
  - apply clear_button_bounded.
Qed.

Lemma run_once_grows w :
  (List.length (favorites (snd (run_once w)))
   <= S (List.length (favorites w)))%nat.
Proof.
  pose proof (app_bounded (S (List.length (favorites w)))
                (S (S (List.length (favorites w)))) (set_screen [] w)) as H.
  unfold run_once. unfold bounded at 2 in H.
  assert (bounded (S (List.length (favorites w))) (set_screen [] w)) as Hb.
  { unfold bounded. pose proof (pending_le_1 (set_screen [] w)).
    cbn [favorites set_screen]. lia. }
  specialize (H Hb). lia.
Qed.

Lemma run_script_favorites w :
  favorites (snd (run_script w)) = favorites (snd (run_once w)).
Proof.
  unfold run_script.
  destruct (run_once w) as [[[] | e | |] w']; try reflexivity.
  cbn [snd]. unfold run_once.
  change (favorites w') with (favorites (set_screen [] (release w'))).
  change (List.length (favorites (release w')))
    with (List.length (favorites (set_screen [] (release w')))).
  apply app_idle_favorites. reflexivity.
Qed.

(** X13.  Every run of the script comes to its end, though the loop of
    the favourites page walks a list that the cards inside it can extend;
    and no event makes the list of favourites longer by more than one
    entry. *)
Theorem run_ends_and_adds_at_most_one (w : world) :
  fst (run_once w) <> Unfinished
  /\ forall ev,
       (List.length (favorites (step ev w))
        <= S (List.length (favorites w)))%nat.
Proof.
  split; [apply run_once_finishes |].
  intros ev.
  assert (forall w0, favorites w0 = favorites w ->
            (List.length (favorites (release (settle (snd (run_script w0)))))
             <= S (List.length (favorites w)))%nat) as H.
  { intros w0 H0. rewrite favorites_release_settle, run_script_favorites.
    rewrite <- H0. apply run_once_grows. }
  destruct ev as [p | s | i | i | v | key | seconds]; cbn [step];
    try (apply H; reflexivity).
  destruct (0 <=? seconds); cbn [favorites set_clock]; lia.
Qed.


(** ** The exceptions that can end a run *)

Lemma tame_ret {A} (a : A) : tame (ret a).
Proof. intros w e H. discriminate. Qed.

Lemma tame_get_world : tame get_world.
Proof. intros w e H. discriminate. Qed.

Lemma tame_rerun {A} : tame (@st_rerun A).
Proof. intros w e H. discriminate. Qed.

Lemma tame_show e : tame (show e).
Proof. intros w e' H. discriminate. Qed.

Lemma tame_py {A} (r : res A) : res_tame r -> tame (py r).
Proof.
  intros Hr w e H. destruct r as [a | e0]; simpl in H; [discriminate |].
  inversion H; subst. apply Hr. reflexivity.
Qed.

Lemma raised_bind {A B} (m : M A) (k : A -> M B) w e :
  fst (bind m k w) = Raised e ->
  fst (m w) = Raised e
  \/ exists a, fst (m w) = Done a /\ fst (k a (snd (m w))) = Raised e.
Proof.
  unfold bind. destruct (m w) as [[a | e0 | |] w']; simpl; intros H;
    try discriminate.
  - right. exists a. auto.
  - left. inversion H. reflexivity.
Qed.

Lemma tame_bind {A B} (m : M A) (k : A -> M B) :
  tame m -> (forall a, tame (k a)) -> tame (bind m k).
Proof.
  intros Hm Hk w e H. apply raised_bind in H.
  destruct H as [H | (a & _ & H)]; [exact (Hm w e H) | exact (Hk a _ e H)].
Qed.

Lemma tame_when b (m : M unit) : tame m -> tame (when b m).
Proof. destruct b; simpl; auto using tame_ret. Qed.

Lemma tame_for_each {A} (l : list A) (body : A -> M unit) :
  (forall x, tame (body x)) -> tame (for_each l body).
Proof.
  intros Hb. induction l as [| x l IH]; simpl.
  - apply tame_ret.
  - apply tame_bind; auto.
Qed.

Lemma tame_run_query k : tame (run_query k).
Proof.
  intros w e H. destruct (run_query_returns k w) as [v Hv].
  rewrite Hv in H. discriminate.
Qed.

Lemma tame_favorite_button anime_id title :
  tame (favorite_button anime_id title).
Proof. intros w e H. rewrite favorite_button_run in H. discriminate. Qed.

Lemma tame_clear_button : tame clear_button.
Proof.
  intros w e H. rewrite clear_button_run in H.
  destruct (is_pressed clear_key w); discriminate.
Qed.

Lemma res_tame_get d k v : res_tame (py_get d k v).
Proof. intros e H. destruct d; inversion H; reflexivity. Qed.

Lemma res_tame_item d k : res_tame (py_item d k).
Proof.
  intros e H. destruct d as [| | | | | | kv]; inversion H; try reflexivity.
  destruct (lookup k kv); inversion H1. reflexivity.
Qed.

Lemma res_tame_slice_to n v : res_tame (py_slice_to n v).
Proof. intros e H. destruct v; inversion H; reflexivity. Qed.

Lemma res_tame_iter v : res_tame (py_iter v).
Proof. intros e H. destruct v; inversion H; reflexivity. Qed.

Lemma res_tame_len v : res_tame (py_len v).
Proof. intros e H. destruct v; inversion H; reflexivity. Qed.

Lemma res_tame_join sep xs : res_tame (py_join sep xs).
Proof.
  induction xs as [| x xs IH]; intros e H; simpl in H; [discriminate |].
  destruct x; try (inversion H; reflexivity).
  destruct xs as [| y ys]; [discriminate |].
  destruct (py_join sep (y :: ys)) as [r | e0]; [discriminate |].
  inversion H; subst. apply IH. reflexivity.
Qed.

Lemma res_tame_comprehension {A B} (f : A -> res B) l :
  (forall x, res_tame (f x)) -> res_tame (comprehension f l).
Proof.
  intros Hf. induction l as [| x l IH]; intros e H; simpl in H;
    [discriminate |].
  destruct (f x) as [y | e0] eqn:Ex.
  - destruct (comprehension f l) as [ys | e1]; [discriminate |].
    inversion H; subst. apply IH. reflexivity.
  - inversion H; subst. exact (Hf x e Ex).
Qed.

Lemma res_tame_capitalize v : res_tame (py_capitalize v).
Proof. intros e H. destruct v; inversion H; reflexivity. Qed.

Create HintDb tame.

#[local] Hint Resolve tame_ret tame_get_world tame_rerun tame_show tame_py
  tame_bind tame_when tame_for_each tame_favorite_button tame_clear_button
  res_tame_get res_tame_item res_tame_slice_to res_tame_iter res_tame_len
  res_tame_join res_tame_comprehension res_tame_capitalize : tame.

Ltac tamed :=
  unfold st_error, st_warning, st_success, st_info, st_markdown, st_button,
    st_radio, st_selectbox, st_text_input, st_number_input;
  auto 60 with tame.

Lemma tame_card anime : tame (display_anime_card anime).
Proof.
  unfold display_anime_card, card_image, card_title, card_metrics,
    card_genres, card_synopsis, card_actions. tamed.
Qed.

Lemma tame_has_data data : tame (has_data data).
Proof. unfold has_data. destruct (truthy data); tamed. Qed.

Lemma tame_display_all data : tame (display_all data).
Proof. unfold display_all. auto 20 using tame_card with tame. Qed.

Lemma tame_len_data data : tame (len_data data).
Proof. unfold len_data. tamed. Qed.

#[local] Hint Resolve tame_card tame_has_data tame_display_all tame_len_data
  : tame.

Lemma tame_page_home : tame page_home.
Proof.
  unfold page_home.
  apply tame_bind; [tamed |]. intros _.
  apply tame_bind; [tamed |]. intros _.
  apply tame_bind; [apply (tame_run_query (QTop 1 10)) |].
  intros data. apply tame_bind; [tamed |]. intros [|]; tamed.
Qed.

Lemma tame_page_search : tame page_search.
Proof.
  unfold page_search.
  apply tame_bind; [tamed |]. intros _.
  apply tame_bind; [tamed |]. intros q.
  destruct (truthy (JStr q)); [| tamed].
  apply tame_bind; [tamed |]. intros _.
  apply tame_bind; [apply (tame_run_query (QSearch q)) |].
  intros data. apply tame_bind; [tamed |]. intros [|]; tamed.
Qed.

Lemma tame_page_seasonal year season : tame (page_seasonal year season).
Proof.
  unfold page_seasonal.
  apply tame_bind; [tamed |]. intros cap.
  apply tame_bind; [tamed |]. intros _.
  apply tame_bind.
  - destruct season;
      try (intros w e H; inversion H; reflexivity).
    apply (tame_run_query (QSeasonal year s)).
  - intros data. apply tame_bind; [tamed |]. intros [|]; tamed.
Qed.

Lemma tame_page_top_rated : tame page_top_rated.
Proof.
  unfold page_top_rated, top_rated_listing, pagination_controls.
  apply tame_bind; [tamed |]. intros _.
  apply tame_bind; [tamed |]. intros n.
  apply tame_bind; [apply (tame_run_query (QTop n 25)) |].
  intros data. apply tame_bind; [tamed |]. intros [|]; tamed.
Qed.

(** The identifier the loop has read stays in the list until its
    "remove" button is reached. *)
Lemma py_in_nth_true l : forall i x,
  nth_error l i = Some x -> py_in x l = true.
Proof.
  induction l as [| e l IH]; intros [| i] x H; simpl in *; try discriminate.
  - inversion H; subst. rewrite py_eq_refl. reflexivity.
  - rewrite (IH i x H). apply orb_true_r.
Qed.

Lemma py_remove_some x l :
  py_in x l = true -> exists l', py_remove x l = Some l'.
Proof.
  induction l as [| e l IH]; simpl; [discriminate |].
  destruct (py_eq e x); simpl; [eauto |].
  intros H. destruct (IH H) as [l' ->]. simpl. eauto.
Qed.

Section Held.

Variable anime_id : json.

Lemma held_show e : preserves (held anime_id) (show e).
Proof. apply show_keeps. auto. Qed.

Lemma held_favorite_button a title :
  preserves (held anime_id) (favorite_button a title).
Proof.
  intros w H. rewrite favorite_button_run. unfold held in *.
  destruct (is_pressed (fav_key a) w); [| exact H].
  destruct (py_in a (favorites w)); [exact H |].
  cbn [snd favorites printed set_screen set_favorites].
  rewrite py_in_app, H. reflexivity.
Qed.

Lemma held_card anime : preserves (held anime_id) (display_anime_card anime).
Proof.
  apply preserves_card.
  - intros e _. apply held_show.
  - apply held_favorite_button.
Qed.

Lemma remove_button_held w e :
  held anime_id w -> fst (remove_button anime_id w) = Raised e -> False.
Proof.
  intros H. rewrite remove_button_run.
  destruct (is_pressed (remove_key anime_id) w); [| discriminate].
  destruct (py_remove_some _ _ H) as [l' ->]. discriminate.
Qed.

Lemma tame_favorites_item w e :
  held anime_id w -> fst (favorites_item anime_id w) = Raised e ->
  payload_error e = true.
Proof.
  intros Hw H. unfold favorites_item in H.
  apply raised_bind in H. destruct H as [H | (_ & _ & H)]; [discriminate |].
  cbv beta in H.
  match type of H with
  | fst (_ (snd (?m ?w0))) = _ =>
      assert (held anime_id (snd (m w0))) as H1 by (apply held_show; exact Hw)
  end.
  apply raised_bind in H. destruct H as [H | (details & _ & H)].
  { exact (tame_run_query (QDetails anime_id) _ _ H). }
  cbv beta in H.
  match type of H with
  | fst (_ (snd (?m ?w0))) = _ =>
      assert (held anime_id (snd (m w0))) as H2
        by (apply (run_query_keeps (held anime_id)
                     ltac:(auto) ltac:(auto) ltac:(auto) (QDetails anime_id));
            exact H1)
  end.
  apply raised_bind in H. destruct H as [H | (ok & _ & H)].
  { exact (tame_has_data _ _ _ H). }
  cbv beta in H.
  match type of H with
  | fst (_ (snd (?m ?w0))) = _ =>
      assert (held anime_id (snd (m w0))) as H3
        by (apply (preserves_has_data (held anime_id)); exact H2)
  end.
  destruct ok; [| discriminate]. cbn [when] in H.
  apply raised_bind in H. destruct H as [H | (anime & _ & H)].
  { exact (tame_py _ (res_tame_item _ _) _ _ H). }
  cbv beta in H.
  match type of H with
  | fst (_ (snd (?m ?w0))) = _ =>
      assert (held anime_id (snd (m w0))) as H4 by (apply preserves_py; exact H3)
  end.
  apply raised_bind in H. destruct H as [H | (_ & _ & H)].
  { exact (tame_card _ _ _ H). }
  exfalso. apply (remove_button_held _ e (held_card anime _ H4) H).
Qed.

End Held.

Lemma tame_favorites_loop fuel : forall i, tame (favorites_loop fuel i).
Proof.
  induction fuel as [| fuel IH]; intros i w e H; [discriminate |].
  simpl in H. unfold bind at 1 in H. cbn [get_world] in H.
  destruct (nth_error (favorites w) i) as [anime_id |] eqn:Ei;
    [| discriminate].
  apply raised_bind in H. destruct H as [H | (_ & _ & H)].
  - apply (tame_favorites_item anime_id w e); [| exact H].
    exact (py_in_nth_true _ _ _ Ei).
  - exact (IH _ _ _ H).
Qed.

Lemma tame_page_favorites fuel : tame (page_favorites fuel).
Proof.
  pose proof (tame_favorites_loop fuel 0).
  unfold page_favorites.
  apply tame_bind; [tamed |]. intros _.
  apply tame_bind; [tamed |]. intros w.
  destruct (truthy (JArr (favorites w))); tamed.
Qed.

Lemma tame_app fuel : tame (app fuel).
Proof.
  intros w e H. rewrite app_page in H. revert H.
  match goal with |- fst (?m _) = _ -> _ => assert (tame m) as Hm end;
    [| apply Hm].
  apply tame_bind; [| intros _; tamed].
  unfold sidebar_filters.
  destruct (nav (ui w)).
  - apply tame_page_home.
  - apply tame_page_search.
  - apply tame_page_seasonal.
  - apply tame_page_top_rated.
  - apply tame_page_favorites.
Qed.




(** X15.  The sidebar returns the page chosen under "Navigation".  It
    prints the "Filters" heading on the top-rated and the seasonal page
    only, and the two selectors, which bind [year] and [season], exactly
    on the seasonal page, the one page that reads them.  With nothing
    chosen the season is winter and the year is the current one. *)
Theorem sidebar_offers_filters (w : world) :
  sidebar w =
    (Done (nav (ui w), sidebar_filters w),
     printed (sidebar_screen (nav (ui w)) (today_year w)) w)
  /\ (sidebar_filters w <> None <-> nav (ui w) = Seasonal)
  /\ (In (Subheader [Lit "Filters"])
        (sidebar_screen (nav (ui w)) (today_year w))
      <-> nav (ui w) = TopRated \/ nav (ui w) = Seasonal)
  /\ ((exists options, In (Selectbox "Year" options)
                         (sidebar_screen (nav (ui w)) (today_year w)))
      <-> nav (ui w) = Seasonal)
  /\ (season_choice (ui w) = 0%nat -> chosen_season w = "winter")
  /\ (year_choice (ui w) = 0%nat -> 1990 <= today_year w ->
      chosen_year w = JInt (today_year w)).
Proof.
  split; [apply sidebar_run |].
  unfold sidebar_filters, sidebar_screen, filters_block.
  split; [| split; [| split; [| split]]].
  - destruct (nav (ui w)); split; congruence.
  - destruct (nav (ui w)); simpl; split; intros H;
      try (destruct H as [H | H]; discriminate H);
      try (repeat (destruct H as [H | H]; try discriminate H); tauto);
      auto 10.
  - destruct (nav (ui w)); simpl; split;
      try (intros [options H];
           repeat (destruct H as [H | H]; try discriminate H); tauto);
      try discriminate.
    intros _. eexists. do 5 right. left. reflexivity.
  - intros H. unfold chosen_season. rewrite H. reflexivity.
  - intros H Hy. unfold chosen_year, selected, year_options.
    rewrite H, nth_error_map, nth_error_range_down.
    assert ((Z.of_nat 0 <? today_year w - 1989) = true) as ->
      by (apply Z.ltb_lt; simpl; lia).
    simpl. f_equal. lia.
Qed.

Lemma sidebar_offers_filters_witness :
  chosen_year (step (Navigate Seasonal) opened_world) = JInt 2024
  /\ chosen_season (step (Navigate Seasonal) opened_world) = "winter".
Proof.
  destruct (sidebar_offers_filters (step (Navigate Seasonal) opened_world))
    as (_ & _ & _ & _ & Hs & Hy).
  split.
  - rewrite Hy; vm_compute; congruence.
  - apply Hs. vm_compute. reflexivity.
Defined.


(** ** A listing with a malformed item *)

Lemma for_each_app {A} (l1 l2 : list A) (body : A -> M unit) w :
  fst (for_each l1 body w) = Done tt ->
  for_each (l1 ++ l2) body w = for_each l2 body (snd (for_each l1 body w)).
Proof.
  revert w. induction l1 as [| x l1 IH]; intros w H; simpl in *;
    [reflexivity |].
  unfold bind in *. destruct (body x w) as [[[] | e | |] w'];
    try discriminate. apply IH. exact H.
Qed.

Lemma for_each_cards_done (good : list (list (string * json))) : forall w,
  forallb card_shape good = true ->
  fst (for_each (map JObj good) display_anime_card w) = Done tt.
Proof.
  induction good as [| f good IH]; intros w H; simpl in *; [reflexivity |].
  apply andb_true_iff in H. destruct H as [Hf Hg].
  unfold card_shape in Hf. apply andb_true_iff in Hf. destruct Hf as [Hf Ht].
  apply andb_true_iff in Hf. destruct Hf as [Hi Hgs].
  destruct (display_anime_card_run f w Hi Hgs Ht) as [Hd _].
  unfold bind. destruct (display_anime_card (JObj f) w) as [[[] | e | |] w'];
    try discriminate. apply IH. exact Hg.
Qed.



(** ** An entry older than an hour *)

(** X17.  An entry stored 3600 seconds ago or earlier is not served: the
    call goes to the network again, returns what it gets there, and
    leaves a new entry, stored now, in front of the old one; for the next
    3600 seconds that one answers without a request. *)
Theorem stale_entry_is_refetched (k : query) (w : world) (c : cached) :
  cache_find k (cache w) = Some c ->
  c_stored c + 3600 <= clock w ->
  fst (run_query k w) =
    Done match received (network w (List.length (requests w)) (url_of k)) with
         | inl j => j
         | inr _ => JNull
         end
  /\ requests (snd (run_query k w)) =
       (requests w ++ [{| r_url := url_of k; r_timeout := 10 |}])%list
  /\ exists c',
       cache (snd (run_query k w)) = c' :: cache w
       /\ cache_find k (cache (snd (run_query k w))) = Some c'
       /\ c_stored c' = clock w
       /\ fst (run_query k w) = Done (c_value c')
       /\ forall w2,
            cache_find k (cache w2) = Some c' ->
            clock w2 < clock w + 3600 ->
            run_query k w2 = (Done (c_value c'), printed (c_replay c') w2).
Proof.
  intros Hf Hage.
  assert (cache_hit 3600 (clock w) k (cache w) = None) as Hmiss.
  { unfold cache_hit, fresh. rewrite Hf.
    assert ((clock w <? c_stored c + 3600) = false) as ->
      by (apply Z.ltb_ge; lia).
    reflexivity. }
  rewrite (run_query_miss _ _ Hmiss).
  destruct (received _) as [j | e]; (split; [reflexivity |]);
    (split; [reflexivity |]); eexists;
    (split; [reflexivity |]);
    (split; [apply cache_find_same; reflexivity |]);
    (split; [reflexivity |]); (split; [reflexivity |]);
    intros w2 H2 Ht; apply run_query_hit; apply cache_hit_fresh;
      try exact H2; exact Ht.
Qed.

Lemma stale_entry_is_refetched_witness :
  requests (snd (run_query (QTop 1 10) (after_first_call 3600))) =
  (requests (after_first_call 3600)
   ++ [{| r_url := url_of (QTop 1 10); r_timeout := 10 |}])%list.
Proof.
  assert (cache_find (QTop 1 10) (cache (after_first_call 3600))
          = Some {| c_key := QTop 1 10; c_stored := 0;
                    c_value := sample_payload; c_replay := [] |}) as Hc
    by (vm_compute; reflexivity).
  assert (0 + 3600 <= clock (after_first_call 3600)) as Hage
    by (vm_compute; discriminate).
  exact (proj1 (proj2 (stale_entry_is_refetched (QTop 1 10)
                         (after_first_call 3600) _ Hc Hage))).
Defined.


(** ** The card of a complete record *)




(** ** The listing of the favourites page *)

Lemma favorites_item_idle (f : list json) anime_id :
  preserves (fun w' => idle w' /\ favorites w' = f) (favorites_item anime_id).
Proof.
  apply preserves_favorites_item.
  - intros e _. apply show_keeps. auto.
  - intros a title w0 [Hi Hf]. rewrite favorite_button_run.
    rewrite (is_pressed_idle _ _ Hi). split; [exact Hi | exact Hf].
  - apply run_query_keeps; auto.
  - intros a w0 [Hi Hf]. rewrite remove_button_run.
    rewrite (is_pressed_idle _ _ Hi). split; [exact Hi | exact Hf].
Qed.

Lemma skipn_nth {A} (l : list A) : forall i x,
  nth_error l i = Some x -> skipn i l = x :: skipn (S i) l.
Proof.
  induction l as [| e l IH]; intros [| i] x H; simpl in *; try discriminate.
  - inversion H. reflexivity.
  - exact (IH i x H).
Qed.

Lemma favorites_loop_for_each fuel : forall i w,
  idle w -> (i <= List.length (favorites w))%nat ->
  (List.length (favorites w) < i + fuel)%nat ->
  favorites_loop fuel i w =
  for_each (skipn i (favorites w)) favorites_item w.
Proof.
  induction fuel as [| fuel IH]; intros i w Hw Hi Hn; [lia |].
  cbn [favorites_loop]. unfold bind at 1. cbn [get_world].
  destruct (nth_error (favorites w) i) as [anime_id |] eqn:Ei.
  - rewrite (skipn_nth _ _ _ Ei). cbn [for_each].
    assert (i < List.length (favorites w))%nat as Hlt
      by (apply nth_error_Some; congruence).
    pose proof (favorites_item_idle (favorites w) anime_id w
                  (conj Hw eq_refl)) as Hk.
    unfold bind.
    destruct (favorites_item anime_id w) as [[[] | e | |] w'];
      try reflexivity.
    cbn [snd] in Hk. destruct Hk as [Hw' Hf'].
    rewrite <- Hf'. apply IH; [exact Hw' | |]; rewrite Hf'; lia.
  - apply nth_error_None in Ei.
    rewrite skipn_all2; [reflexivity | exact Ei].
Qed.

(** X19.  While no button is down, the favourites page with something
    saved prints its header, the number of favourites and the "Clear All"
    button, and then goes through the saved identifiers once each, in the
    order in which they were saved. *)
Theorem favorites_page_listing (fuel : nat) (w : world) :
  favorites w <> [] -> idle w ->
  (List.length (favorites w) < fuel)%nat ->
  page_favorites fuel w =
  for_each (favorites w) favorites_item
    (printed (favorites_head (List.length (favorites w))) w).
Proof.
  intros Hf Hw Hn. unfold page_favorites, st_success.
  run1. run1. cbn [favorites printed set_screen].
  destruct (favorites w) as [| x l] eqn:E; [congruence |].
  cbn [truthy]. run1.
  erewrite bind_done.
  2:{ rewrite clear_button_run, is_pressed_printed.
      rewrite (is_pressed_idle _ _ Hw). reflexivity. }
  rewrite printed_printed.
  rewrite favorites_loop_for_each.
  - cbn [favorites printed set_screen skipn]. rewrite E. reflexivity.
  - exact Hw.
  - cbn [favorites printed set_screen]. lia.
  - cbn [favorites printed set_screen]. rewrite E. simpl in *. lia.
Qed.

Lemma favorites_page_listing_witness :
  page_favorites 3 (set_favorites [JInt 1; JInt 2] online_world) =
  for_each [JInt 1; JInt 2] favorites_item
    (printed (favorites_head 2) (set_favorites [JInt 1; JInt 2] online_world)).
Proof.
  apply (favorites_page_listing 3
           (set_favorites [JInt 1; JInt 2] online_world)).
  - discriminate.
  - reflexivity.
  - simpl. lia.
Defined.



(** ** An answer that is not a record *)

(** X21.  The test [data and data.get('data')] takes an answer that is
    [None], empty or without [data] for "no data"; but an answer that is
    a non-empty JSON array, a number or a string has no [get], and the
    test raises [AttributeError].  On the home page the run then ends
    there, with no card and no warning. *)
Theorem non_record_answer_raises (data : json) (w w1 : world) :
  run_query (QTop 1 10) (printed home_head w) = (Done data, w1) ->
  (forall kv, data <> JObj kv) ->
  has_data data w1 =
    (if truthy data then Raised AttributeError else Done false, w1)
  /\ page_home w =
       if truthy data then (Raised AttributeError, w1)
       else (Done tt,
             printed [WarningBox
                        [Lit "Unable to load anime data. Please try again later."]]
               w1).
Proof.
  intros Hq Hd.
  assert (has_data data w1 =
          (if truthy data then Raised AttributeError else Done false, w1))
    as Hh.
  { unfold has_data. destruct data as [| b | z | q | s | l | kv];
      try (destruct (truthy _); reflexivity).
    exfalso. apply (Hd kv). reflexivity. }
  split; [exact Hh |].
  unfold page_home, st_markdown, st_warning. run1. run1.
  erewrite bind_done; [| exact Hq].
  unfold bind at 1. rewrite Hh.
  destruct (truthy data); reflexivity.
Qed.

Lemma non_record_answer_raises_witness :
  fst (page_home array_world) = Raised AttributeError.
Proof.
  assert (run_query (QTop 1 10) (printed home_head array_world)
          = (Done (JArr [JInt 1]),
             snd (run_query (QTop 1 10) (printed home_head array_world))))
    as Hq by (vm_compute; reflexivity).
  destruct (non_record_answer_raises _ array_world _ Hq) as [_ H].
  - discriminate.
  - rewrite H. reflexivity.
Defined.
